(** * Authentication core of book_management_system (package auth)

    Shallow embedding of [src/unnamed/part_001] (JWT issuance/validation
    and the Echo middleware), together with a model of the parts of the
    libraries it delegates to: golang-jwt/jwt v5 (token signing, parsing and
    claim validation), Go's encoding/base64 (RawURLEncoding), crypto/hmac
    with crypto/sha256, unicode/utf8 and encoding/json (string quoting and
    decoding into the claim structs).

    Go strings and byte slices are Rocq [string]s (an [ascii] is one 8-bit
    byte).  Times are [Z] nanoseconds since the Unix epoch; [time.Now()]
    is an explicit argument, one per call in the source. *)

From Stdlib Require Import ZArith String Ascii List Bool Lia.
Import ListNotations.
Open Scope string_scope.
Open Scope Z_scope.

(** ** Bytes *)

Module Bytes.

(** The value of a byte. *)
Definition bv (c : ascii) : Z := Z.of_nat (nat_of_ascii c).

(** The byte holding the low 8 bits of [z] (Go's [byte(z)]). *)
Definition chr (z : Z) : ascii := ascii_of_nat (Z.to_nat (Z.land z 255)).

Definition to_list (s : string) : list Z := map bv (list_ascii_of_string s).

Definition of_list (l : list Z) : string := string_of_list_ascii (map chr l).

End Bytes.

Import Bytes.

(** ** encoding/base64, [base64.RawURLEncoding] *)

Module Base64.

Definition encodeURL : string :=
  "ABCDEFGHIJKLMNOPQRSTUVWXYZabcdefghijklmnopqrstuvwxyz0123456789-_".

Definition enc6 (v : Z) : ascii :=
  match String.get (Z.to_nat (Z.land v 63)) encodeURL with
  | Some c => c
  | None => "A"%char
  end.

(** [decodeMap] of the URL alphabet; [None] stands for Go's [0xFF]. *)
Definition dec6 (c : ascii) : option Z :=
  let b := bv c in
  if (65 <=? b) && (b <=? 90) then Some (b - 65)
  else if (97 <=? b) && (b <=? 122) then Some (b - 71)
  else if (48 <=? b) && (b <=? 57) then Some (b + 4)
  else if b =? 45 then Some 62
  else if b =? 95 then Some 63
  else None.

(** [Encoding.Encode] with [padChar = NoPadding]. *)
Fixpoint encode (s : string) : string :=
  match s with
  | String a (String b (String c rest)) =>
      let val := Z.lor (Z.lor (Z.shiftl (bv a) 16) (Z.shiftl (bv b) 8)) (bv c) in
      String (enc6 (Z.shiftr val 18)) (String (enc6 (Z.shiftr val 12))
        (String (enc6 (Z.shiftr val 6)) (String (enc6 val) (encode rest))))
  | String a (String b EmptyString) =>
      let val := Z.lor (Z.shiftl (bv a) 16) (Z.shiftl (bv b) 8) in
      String (enc6 (Z.shiftr val 18)) (String (enc6 (Z.shiftr val 12))
        (String (enc6 (Z.shiftr val 6)) EmptyString))
  | String a EmptyString =>
      let val := Z.shiftl (bv a) 16 in
      String (enc6 (Z.shiftr val 18)) (String (enc6 (Z.shiftr val 12)) EmptyString)
  | EmptyString => EmptyString
  end.

(** [EncodeToString] *)
Definition EncodeToString (s : string) : string := encode s.

(** Newline characters are skipped by the decoder. *)
Fixpoint strip_newlines (s : string) : string :=
  match s with
  | EmptyString => EmptyString
  | String c r =>
      if (bv c =? 10) || (bv c =? 13) then strip_newlines r
      else String c (strip_newlines r)
  end.

(** [decodeQuantum] over the newline-free input, non-strict mode: the
    unused low bits of a final partial quantum are ignored. *)
Fixpoint decode_quanta (s : string) : option string :=
  match s with
  | EmptyString => Some EmptyString
  | String _ EmptyString => None
  | String a (String b EmptyString) =>
      match dec6 a, dec6 b with
      | Some d0, Some d1 =>
          let val := Z.lor (Z.shiftl d0 18) (Z.shiftl d1 12) in
          Some (String (chr (Z.shiftr val 16)) EmptyString)
      | _, _ => None
      end
  | String a (String b (String c EmptyString)) =>
      match dec6 a, dec6 b, dec6 c with
      | Some d0, Some d1, Some d2 =>
          let val := Z.lor (Z.lor (Z.shiftl d0 18) (Z.shiftl d1 12)) (Z.shiftl d2 6) in
          Some (String (chr (Z.shiftr val 16)) (String (chr (Z.shiftr val 8)) EmptyString))
      | _, _, _ => None
      end
  | String a (String b (String c (String d rest))) =>
      match dec6 a, dec6 b, dec6 c, dec6 d with
      | Some d0, Some d1, Some d2, Some d3 =>
          let val := Z.lor (Z.lor (Z.lor (Z.shiftl d0 18) (Z.shiftl d1 12))
                                  (Z.shiftl d2 6)) d3 in
          match decode_quanta rest with
          | Some out =>
              Some (String (chr (Z.shiftr val 16)) (String (chr (Z.shiftr val 8))
                     (String (chr val) out)))
          | None => None
          end
      | _, _, _, _ => None
      end
  end.

(** [DecodeString] *)
Definition DecodeString (s : string) : option string :=
  decode_quanta (strip_newlines s).

End Base64.

(** ** crypto/sha256 and crypto/hmac *)

Module Sha256.

Definition mask32 : Z := Z.ones 32.
Definition add32 (a b : Z) : Z := Z.land (a + b) mask32.
Definition rotr (x : Z) (n : Z) : Z :=
  Z.land (Z.lor (Z.shiftr x n) (Z.shiftl x (32 - n))) mask32.

Definition K : list Z :=
  [0x428A2F98; 0x71374491; 0xB5C0FBCF; 0xE9B5DBA5; 0x3956C25B; 0x59F111F1;
   0x923F82A4; 0xAB1C5ED5; 0xD807AA98; 0x12835B01; 0x243185BE; 0x550C7DC3;
   0x72BE5D74; 0x80DEB1FE; 0x9BDC06A7; 0xC19BF174; 0xE49B69C1; 0xEFBE4786;
   0x0FC19DC6; 0x240CA1CC; 0x2DE92C6F; 0x4A7484AA; 0x5CB0A9DC; 0x76F988DA;
   0x983E5152; 0xA831C66D; 0xB00327C8; 0xBF597FC7; 0xC6E00BF3; 0xD5A79147;
   0x06CA6351; 0x14292967; 0x27B70A85; 0x2E1B2138; 0x4D2C6DFC; 0x53380D13;
   0x650A7354; 0x766A0ABB; 0x81C2C92E; 0x92722C85; 0xA2BFE8A1; 0xA81A664B;
   0xC24B8B70; 0xC76C51A3; 0xD192E819; 0xD6990624; 0xF40E3585; 0x106AA070;
   0x19A4C116; 0x1E376C08; 0x2748774C; 0x34B0BCB5; 0x391C0CB3; 0x4ED8AA4A;
   0x5B9CCA4F; 0x682E6FF3; 0x748F82EE; 0x78A5636F; 0x84C87814; 0x8CC70208;
   0x90BEFFFA; 0xA4506CEB; 0xBEF9A3F7; 0xC67178F2].

Definition init : list Z :=
  [0x6A09E667; 0xBB67AE85; 0x3C6EF372; 0xA54FF53A;
   0x510E527F; 0x9B05688C; 0x1F83D9AB; 0x5BE0CD19].

Definition ssig0 (x : Z) : Z := Z.lxor (Z.lxor (rotr x 7) (rotr x 18)) (Z.shiftr x 3).
Definition ssig1 (x : Z) : Z := Z.lxor (Z.lxor (rotr x 17) (rotr x 19)) (Z.shiftr x 10).
Definition bsig0 (x : Z) : Z := Z.lxor (Z.lxor (rotr x 2) (rotr x 13)) (rotr x 22).
Definition bsig1 (x : Z) : Z := Z.lxor (Z.lxor (rotr x 6) (rotr x 11)) (rotr x 25).
Definition ch (x y z : Z) : Z := Z.lxor (Z.land x y) (Z.land (Z.lxor x mask32) z).
Definition maj (x y z : Z) : Z := Z.lxor (Z.lxor (Z.land x y) (Z.land x z)) (Z.land y z).

(** Big-endian words of a 64-byte block. *)
Fixpoint words (l : list Z) : list Z :=
  match l with
  | a :: b :: c :: d :: r =>
      (a * 16777216 + b * 65536 + c * 256 + d) :: words r
  | _ => []
  end.

(** The message schedule, built newest-first: [w] holds W[t-1], W[t-2], ... *)
Fixpoint schedule (n : nat) (w : list Z) : list Z :=
  match n with
  | O => w
  | S n' =>
      let wt := add32 (add32 (ssig1 (nth 1 w 0)) (nth 6 w 0))
                      (add32 (ssig0 (nth 14 w 0)) (nth 15 w 0)) in
      schedule n' (wt :: w)
  end.

Definition round (st : list Z) (kw : Z * Z) : list Z :=
  match st with
  | [a; b; c; d; e; f; g; h] =>
      let t1 := add32 (add32 (add32 h (bsig1 e)) (add32 (ch e f g) (fst kw))) (snd kw) in
      let t2 := add32 (bsig0 a) (maj a b c) in
      [add32 t1 t2; a; b; c; add32 d t1; e; f; g]
  | _ => st
  end.

Definition compress (st : list Z) (block : list Z) : list Z :=
  let w := rev (schedule 48 (rev (words block))) in
  let st' := fold_left round (combine K w) st in
  map (fun p => add32 (fst p) (snd p)) (combine st st').

Fixpoint blocks (n : nat) (l : list Z) : list (list Z) :=
  match n with
  | O => []
  | S n' => match l with [] => [] | _ => firstn 64 l :: blocks n' (skipn 64 l) end
  end.

Definition be_bytes (k : nat) (v : Z) : list Z :=
  map (fun i => Z.land (Z.shiftr v (8 * (Z.of_nat k - 1 - Z.of_nat i))) 255) (seq 0 k).

Definition pad (l : list Z) : list Z :=
  let len := Z.of_nat (length l) in
  let zeros := (55 - len mod 64 + 64) mod 64 in
  (l ++ [128] ++ repeat 0 (Z.to_nat zeros) ++ be_bytes 8 (8 * len))%list.

Definition hash (l : list Z) : list Z :=
  let p := pad l in
  let st := fold_left compress (blocks (length p) p) init in
  flat_map (be_bytes 4) st.

End Sha256.

Module Hmac.

Definition block_size : nat := 64.

(** [hmac.New(sha256.New, key)], [Write(msg)], [Sum(nil)]. *)
Definition sum (key msg : list Z) : list Z :=
  let k := if Nat.ltb block_size (length key) then Sha256.hash key else key in
  let k := (k ++ repeat 0 (block_size - length k))%list in
  let ipad := map (fun b => Z.lxor b 0x36) k in
  let opad := map (fun b => Z.lxor b 0x5c) k in
  Sha256.hash (opad ++ Sha256.hash (ipad ++ msg))%list.

(** [hmac.Equal]: constant-time byte-for-byte comparison. *)
Definition Equal (a b : string) : bool := String.eqb a b.

End Hmac.

(** HMAC-SHA256 over Go strings. *)
Definition hmac_sha256 (key msg : string) : string :=
  of_list (Hmac.sum (to_list key) (to_list msg)).

(** ** Byte-string helpers *)

Fixpoint drop (n : nat) (s : string) : string :=
  match n, s with
  | O, _ => s
  | S n', String _ r => drop n' r
  | S _, EmptyString => EmptyString
  end.

Fixpoint take (n : nat) (s : string) : string :=
  match n, s with
  | O, _ => EmptyString
  | S n', String c r => String c (take n' r)
  | S _, EmptyString => EmptyString
  end.

Definition byte_in (lo hi b : Z) : bool := (lo <=? b) && (b <=? hi).

(** ** unicode/utf8 and unicode/utf16 *)

Module Utf8.

Definition RuneError : Z := 0xFFFD.
Definition MaxRune : Z := 0x10FFFF.

(** The [first] table for a leading byte [p0 >= 0x80]: the sequence size and
    the accepted range of the second byte ([acceptRanges]); [None] is [xx]. *)
Definition first (p0 : Z) : option (nat * Z * Z) :=
  if p0 <? 0xC2 then None
  else if p0 <=? 0xDF then Some (2%nat, 0x80, 0xBF)
  else if p0 =? 0xE0 then Some (3%nat, 0xA0, 0xBF)
  else if p0 =? 0xED then Some (3%nat, 0x80, 0x9F)
  else if p0 <=? 0xEF then Some (3%nat, 0x80, 0xBF)
  else if p0 =? 0xF0 then Some (4%nat, 0x90, 0xBF)
  else if p0 <=? 0xF3 then Some (4%nat, 0x80, 0xBF)
  else if p0 =? 0xF4 then Some (4%nat, 0x80, 0x8F)
  else None.

(** [utf8.DecodeRune]: the first rune of [p] and its width; an invalid or
    short sequence gives [(RuneError, 1)], the empty input [(RuneError, 0)]. *)
Definition DecodeRune (p : string) : Z * nat :=
  match p with
  | EmptyString => (RuneError, 0%nat)
  | String c0 p1 =>
      let p0 := bv c0 in
      if p0 <? 0x80 then (p0, 1%nat) else
      match first p0 with
      | None => (RuneError, 1%nat)
      | Some (sz, lo, hi) =>
          match p1 with
          | EmptyString => (RuneError, 1%nat)
          | String c1 p2 =>
              let b1 := bv c1 in
              if negb (byte_in lo hi b1) then (RuneError, 1%nat)
              else if (sz <=? 2)%nat then
                (Z.lor (Z.shiftl (Z.land p0 0x1F) 6) (Z.land b1 0x3F), 2%nat)
              else
              match p2 with
              | EmptyString => (RuneError, 1%nat)
              | String c2 p3 =>
                  let b2 := bv c2 in
                  if negb (byte_in 0x80 0xBF b2) then (RuneError, 1%nat)
                  else if (sz <=? 3)%nat then
                    (Z.lor (Z.lor (Z.shiftl (Z.land p0 0x0F) 12)
                                  (Z.shiftl (Z.land b1 0x3F) 6)) (Z.land b2 0x3F), 3%nat)
                  else
                  match p3 with
                  | EmptyString => (RuneError, 1%nat)
                  | String c3 _ =>
                      let b3 := bv c3 in
                      if negb (byte_in 0x80 0xBF b3) then (RuneError, 1%nat)
                      else
                        (Z.lor (Z.lor (Z.lor (Z.shiftl (Z.land p0 0x07) 18)
                                             (Z.shiftl (Z.land b1 0x3F) 12))
                                      (Z.shiftl (Z.land b2 0x3F) 6)) (Z.land b3 0x3F), 4%nat)
                  end
              end
          end
      end
  end.

(** [utf8.EncodeRune], returning the written bytes. *)
Definition EncodeRune (r : Z) : string :=
  if byte_in 0 0x7F r then String (chr r) EmptyString
  else if byte_in 0 0x7FF r then
    String (chr (Z.lor 0xC0 (Z.shiftr r 6)))
      (String (chr (Z.lor 0x80 (Z.land r 0x3F))) EmptyString)
  else
    let r := if (r <? 0) || (MaxRune <? r) || byte_in 0xD800 0xDFFF r
             then RuneError else r in
    if r <=? 0xFFFF then
      String (chr (Z.lor 0xE0 (Z.shiftr r 12)))
        (String (chr (Z.lor 0x80 (Z.land (Z.shiftr r 6) 0x3F)))
          (String (chr (Z.lor 0x80 (Z.land r 0x3F))) EmptyString))
    else
      String (chr (Z.lor 0xF0 (Z.shiftr r 18)))
        (String (chr (Z.lor 0x80 (Z.land (Z.shiftr r 12) 0x3F)))
          (String (chr (Z.lor 0x80 (Z.land (Z.shiftr r 6) 0x3F)))
            (String (chr (Z.lor 0x80 (Z.land r 0x3F))) EmptyString))).

(** [utf16.IsSurrogate] *)
Definition IsSurrogate (r : Z) : bool := (0xD800 <=? r) && (r <? 0xE000).

(** [utf16.DecodeRune] *)
Definition DecodeRune16 (r1 r2 : Z) : Z :=
  if (0xD800 <=? r1) && (r1 <? 0xDC00) && (0xDC00 <=? r2) && (r2 <? 0xE000)
  then Z.lor (Z.shiftl (r1 - 0xD800) 10) (r2 - 0xDC00) + 0x10000
  else RuneError.

(** Well-formed UTF-8 (RFC 3629), the byte sequences [DecodeRune] accepts. *)
Inductive Valid : string -> Prop :=
| valid_nil : Valid EmptyString
| valid_ascii c s :
    bv c < 0x80 -> Valid s -> Valid (String c s)
| valid_2 c0 c1 s :
    byte_in 0xC2 0xDF (bv c0) = true -> byte_in 0x80 0xBF (bv c1) = true ->
    Valid s -> Valid (String c0 (String c1 s))
| valid_3 c0 c1 c2 s lo hi :
    first (bv c0) = Some (3%nat, lo, hi) -> byte_in lo hi (bv c1) = true ->
    byte_in 0x80 0xBF (bv c2) = true ->
    Valid s -> Valid (String c0 (String c1 (String c2 s)))
| valid_4 c0 c1 c2 c3 s lo hi :
    first (bv c0) = Some (4%nat, lo, hi) -> byte_in lo hi (bv c1) = true ->
    byte_in 0x80 0xBF (bv c2) = true -> byte_in 0x80 0xBF (bv c3) = true ->
    Valid s -> Valid (String c0 (String c1 (String c2 (String c3 s)))).

End Utf8.

(** ** encoding/json *)

Module Json.

#[local] Set Warnings "-register-all".

(** A decoded JSON text; numbers keep their literal, as [json.Number]. *)
Inductive value : Type :=
| JNull
| JBool (b : bool)
| JNumber (lit : string)
| JString (s : string)
| JArray (l : list value)
| JObject (m : list (string * value)).

Definition backslash : ascii := "092"%char.
Definition quote : ascii := "034"%char.

Definition hex : string := "0123456789abcdef".

Definition hexdigit (v : Z) : ascii :=
  match String.get (Z.to_nat (Z.land v 15)) hex with Some c => c | None => "0"%char end.

(** [htmlSafeSet]: the ASCII bytes written unescaped when HTML escaping is on. *)
Definition htmlSafe (b : Z) : bool :=
  (0x20 <=? b) && (b <? 0x80)
  && negb ((b =? 34) || (b =? 92) || (b =? 60) || (b =? 62) || (b =? 38)).

(** The escape [appendString] writes for an ASCII byte outside [htmlSafeSet]. *)
Definition escape_ascii (b : Z) : string :=
  if (b =? 92) || (b =? 34) then String backslash (String (chr b) EmptyString)
  else if b =? 8 then String backslash "b"
  else if b =? 12 then String backslash "f"
  else if b =? 10 then String backslash "n"
  else if b =? 13 then String backslash "r"
  else if b =? 9 then String backslash "t"
  else String backslash (String "u" (String "0" (String "0"
         (String (hexdigit (Z.shiftr b 4)) (String (hexdigit (Z.land b 15)) EmptyString))))).

(** The loop of [appendString] (with [escapeHTML = true]), one step per
    ASCII byte or per rune; [fuel] bounds the number of steps. *)
Fixpoint quote_body (fuel : nat) (s : string) : string :=
  match fuel with
  | O => EmptyString
  | S fuel' =>
      match s with
      | EmptyString => EmptyString
      | String c r =>
          let b := bv c in
          if b <? 0x80 then
            (if htmlSafe b then String c EmptyString else escape_ascii b)
              ++ quote_body fuel' r
          else
            let (rn, size) := Utf8.DecodeRune (take 4 s) in
            if (rn =? Utf8.RuneError) && (size =? 1)%nat then
              String backslash "ufffd" ++ quote_body fuel' (drop 1 s)
            else if (rn =? 0x2028) || (rn =? 0x2029) then
              String backslash (String "u" (String "2" (String "0" (String "2"
                (String (hexdigit rn) EmptyString))))) ++ quote_body fuel' (drop size s)
            else take size s ++ quote_body fuel' (drop size s)
      end
  end.

(** [appendString(dst, src, true)] *)
Definition appendString (s : string) : string :=
  String quote (quote_body (String.length s) s ++ String quote EmptyString).

Definition digit (d : Z) : ascii := ascii_of_nat (Z.to_nat (48 + d)).

Fixpoint utoa (fuel : nat) (n : Z) (acc : string) : string :=
  match fuel with
  | O => acc
  | S f => if n <? 10 then String (digit n) acc
           else utoa f (n / 10) (String (digit (n mod 10)) acc)
  end.

(** [strconv.FormatInt(n, 10)] *)
Definition FormatInt (n : Z) : string :=
  if n <? 0 then String "-" (utoa (S (Z.to_nat (Z.log2 (- n)))) (- n) EmptyString)
  else utoa (S (Z.to_nat (Z.log2 n))) n EmptyString.

Fixpoint join (sep : string) (l : list string) : string :=
  match l with
  | [] => EmptyString
  | [x] => x
  | x :: r => x ++ sep ++ join sep r
  end.

(** [json.Marshal] of a value (compact, HTML-escaped strings). *)
Fixpoint encode (v : value) : string :=
  match v with
  | JNull => "null"
  | JBool true => "true"
  | JBool false => "false"
  | JNumber lit => lit
  | JString s => appendString s
  | JArray l => "[" ++ join "," (map encode l) ++ "]"
  | JObject m =>
      "{" ++ join "," (map (fun kv => appendString (fst kv) ++ ":" ++ encode (snd kv)) m)
      ++ "}"
  end.

(** *** Decoding *)

Definition is_ws (c : ascii) : bool :=
  (bv c =? 32) || (bv c =? 9) || (bv c =? 10) || (bv c =? 13).

Fixpoint skip_ws (s : string) : string :=
  match s with
  | String c r => if is_ws c then skip_ws r else s
  | EmptyString => s
  end.

Definition hexval (c : ascii) : option Z :=
  let b := bv c in
  if byte_in 48 57 b then Some (b - 48)
  else if byte_in 97 102 b then Some (b - 87)
  else if byte_in 65 70 b then Some (b - 55)
  else None.

Definition is_hex (c : ascii) : bool :=
  match hexval c with Some _ => true | None => false end.

(** The escapes the scanner accepts after a backslash, besides [u]. *)
Definition simple_escape (e : ascii) : bool :=
  let k := bv e in
  (k =? 34) || (k =? 92) || (k =? 47) || (k =? 98) || (k =? 102)
  || (k =? 110) || (k =? 114) || (k =? 116).

(** The scanner's string states: after the opening quote, the raw body up to
    the closing quote and the input after it. *)
Fixpoint scan_string (s : string) : option (string * string) :=
  match s with
  | EmptyString => None
  | String c r =>
      if bv c =? 34 then Some (EmptyString, r)
      else if bv c =? 92 then
        match r with
        | EmptyString => None
        | String e r' =>
            if simple_escape e then
              match scan_string r' with
              | Some (body, rest) => Some (String c (String e body), rest)
              | None => None
              end
            else if bv e =? 117 then
              match r' with
              | String h1 (String h2 (String h3 (String h4 r''))) =>
                  if is_hex h1 && is_hex h2 && is_hex h3 && is_hex h4 then
                    match scan_string r'' with
                    | Some (body, rest) =>
                        Some (String c (String e (String h1 (String h2 (String h3
                                (String h4 body))))), rest)
                    | None => None
                    end
                  else None
              | _ => None
              end
            else None
        end
      else if bv c <? 0x20 then None
      else
        match scan_string r with
        | Some (body, rest) => Some (String c body, rest)
        | None => None
        end
  end.

(** [getu4]: the value of a leading [\uXXXX]. *)
Definition getu4 (s : string) : option Z :=
  match s with
  | String b (String u (String h1 (String h2 (String h3 (String h4 _))))) =>
      if (bv b =? 92) && (bv u =? 117) then
        match hexval h1, hexval h2, hexval h3, hexval h4 with
        | Some v1, Some v2, Some v3, Some v4 =>
            Some (((v1 * 16 + v2) * 16 + v3) * 16 + v4)
        | _, _, _, _ => None
        end
      else None
  | _ => None
  end.

Definition prepend (p : string) (o : option string) : option string :=
  match o with Some t => Some (p ++ t) | None => None end.

(** The loop of [unquoteBytes] over a string body. *)
Fixpoint unquote_body (fuel : nat) (s : string) : option string :=
  match fuel with
  | O => None
  | S f =>
      match s with
      | EmptyString => Some EmptyString
      | String c r =>
          if bv c =? 92 then
            match r with
            | EmptyString => None
            | String e r' =>
                let k := bv e in
                if (k =? 34) || (k =? 92) || (k =? 47) || (k =? 39) then
                  prepend (String e EmptyString) (unquote_body f r')
                else if k =? 98 then prepend (String (chr 8) EmptyString) (unquote_body f r')
                else if k =? 102 then prepend (String (chr 12) EmptyString) (unquote_body f r')
                else if k =? 110 then prepend (String (chr 10) EmptyString) (unquote_body f r')
                else if k =? 114 then prepend (String (chr 13) EmptyString) (unquote_body f r')
                else if k =? 116 then prepend (String (chr 9) EmptyString) (unquote_body f r')
                else if k =? 117 then
                  match getu4 s with
                  | None => None
                  | Some rr =>
                      let s6 := drop 6 s in
                      if Utf8.IsSurrogate rr then
                        let rr1 := match getu4 s6 with Some v => v | None => -1 end in
                        let dec := Utf8.DecodeRune16 rr rr1 in
                        if negb (dec =? Utf8.RuneError) then
                          prepend (Utf8.EncodeRune dec) (unquote_body f (drop 6 s6))
                        else prepend (Utf8.EncodeRune Utf8.RuneError) (unquote_body f s6)
                      else prepend (Utf8.EncodeRune rr) (unquote_body f s6)
                  end
                else None
            end
          else if (bv c =? 34) || (bv c <? 0x20) then None
          else if bv c <? 0x80 then prepend (String c EmptyString) (unquote_body f r)
          else
            let (rr, size) := Utf8.DecodeRune s in
            prepend (Utf8.EncodeRune rr) (unquote_body f (drop size s))
      end
  end.

Definition unquote (body : string) : option string := unquote_body (S (String.length body)) body.

(** *** Numbers *)

Definition is_digit (c : ascii) : bool := byte_in 48 57 (bv c).

Fixpoint scan_digits (s : string) : string * string :=
  match s with
  | String c r =>
      if is_digit c then let (d, rest) := scan_digits r in (String c d, rest)
      else (EmptyString, s)
  | EmptyString => (EmptyString, EmptyString)
  end.

(** [0] or a non-zero digit followed by digits. *)
Definition scan_int (s : string) : option (string * string) :=
  match s with
  | String c r =>
      if bv c =? 48 then Some (String c EmptyString, r)
      else if byte_in 49 57 (bv c) then
        let (d, rest) := scan_digits r in Some (String c d, rest)
      else None
  | EmptyString => None
  end.

Definition scan_frac (s : string) : option (string * string) :=
  match s with
  | String c r =>
      if bv c =? 46 then
        match scan_digits r with
        | (EmptyString, _) => None
        | (d, rest) => Some (String c d, rest)
        end
      else Some (EmptyString, s)
  | EmptyString => Some (EmptyString, s)
  end.

Definition scan_exp (s : string) : option (string * string) :=
  match s with
  | String c r =>
      if (bv c =? 101) || (bv c =? 69) then
        let (sign, r') :=
          match r with
          | String c' r'' =>
              if (bv c' =? 43) || (bv c' =? 45) then (String c' EmptyString, r'')
              else (EmptyString, r)
          | EmptyString => (EmptyString, r)
          end in
        match scan_digits r' with
        | (EmptyString, _) => None
        | (d, rest) => Some (String c (sign ++ d), rest)
        end
      else Some (EmptyString, s)
  | EmptyString => Some (EmptyString, s)
  end.

Definition scan_sign (s : string) : string * string :=
  match s with
  | String c r => if bv c =? 45 then (String c EmptyString, r) else (EmptyString, s)
  | EmptyString => (EmptyString, s)
  end.

(** The scanner's number states: the literal and the input after it. *)
Definition scan_number (s : string) : option (string * string) :=
  let (sign, s1) := scan_sign s in
  match scan_int s1 with
  | None => None
  | Some (i, s2) =>
      match scan_frac s2 with
      | None => None
      | Some (f, s3) =>
          match scan_exp s3 with
          | None => None
          | Some (e, s4) => Some (sign ++ i ++ f ++ e, s4)
          end
      end
  end.

(** [isValidNumber] *)
Definition isValidNumber (s : string) : bool :=
  match scan_number s with Some (_, EmptyString) => true | _ => false end.

Fixpoint digits_value (s : string) (acc : Z) : Z :=
  match s with
  | String c r => digits_value r (acc * 10 + (bv c - 48))
  | EmptyString => acc
  end.

(** The exact value [m * 10^e] of a number literal, as [(m, e)]. *)
Definition number_value (lit : string) : option (Z * Z) :=
  let (sign, s1) := scan_sign lit in
  match scan_int s1 with
  | None => None
  | Some (i, s2) =>
      match scan_frac s2 with
      | None => None
      | Some (f, s3) =>
          match scan_exp s3 with
          | Some (e, EmptyString) =>
              let fd := match f with String _ d => d | EmptyString => EmptyString end in
              let m := digits_value (i ++ fd) 0 in
              let ex := match e with
                        | String _ (String c d) =>
                            if bv c =? 45 then - digits_value d 0
                            else if bv c =? 43 then digits_value d 0
                            else digits_value (String c d) 0
                        | _ => 0
                        end in
              Some (if String.eqb sign EmptyString then m else - m,
                    ex - Z.of_nat (String.length fd))
          | _ => None
          end
      end
  end.

(** [NumericDate.UnmarshalJSON] on a number: [strconv.ParseFloat] (range
    error beyond [2^1024]; float64 rounding of the literal is not modelled),
    then [newNumericDateFromSeconds], which keeps the whole seconds
    ([time.Unix] followed by [Truncate(time.Second)], i.e. the floor). *)
Definition numeric_date_of (lit : string) : option Z :=
  match number_value lit with
  | Some (m, e) =>
      let in_range := if 0 <=? e then Z.abs m * 10 ^ e <? 2 ^ 1024
                      else Z.abs m <? 2 ^ 1024 * 10 ^ (- e) in
      let secs := if 0 <=? e then m * 10 ^ e else m / 10 ^ (- e) in
      if in_range then Some (secs * 1000000000) else None
  | None => None
  end.

(** *** Values *)

Fixpoint parse_value (fuel : nat) (s : string) : option (value * string) :=
  match fuel with
  | O => None
  | S f =>
      match skip_ws s with
      | EmptyString => None
      | String c r =>
          let k := bv c in
          if k =? 123 then
            match skip_ws r with
            | String c' r' =>
                if bv c' =? 125 then Some (JObject [], r') else parse_members f [] (skip_ws r)
            | EmptyString => None
            end
          else if k =? 91 then
            match skip_ws r with
            | String c' r' =>
                if bv c' =? 93 then Some (JArray [], r') else parse_elements f [] r
            | EmptyString => None
            end
          else if k =? 34 then
            match scan_string r with
            | Some (body, rest) =>
                match unquote body with Some t => Some (JString t, rest) | None => None end
            | None => None
            end
          else if String.prefix "true" (String c r) then Some (JBool true, drop 4 (String c r))
          else if String.prefix "false" (String c r) then Some (JBool false, drop 5 (String c r))
          else if String.prefix "null" (String c r) then Some (JNull, drop 4 (String c r))
          else
            match scan_number (String c r) with
            | Some (lit, rest) => Some (JNumber lit, rest)
            | None => None
            end
      end
  end
with parse_members (fuel : nat) (acc : list (string * value)) (s : string)
  : option (value * string) :=
  match fuel with
  | O => None
  | S f =>
      match s with
      | String c r =>
          if bv c =? 34 then
            match scan_string r with
            | Some (kb, rest) =>
                match unquote kb with
                | Some key =>
                    match skip_ws rest with
                    | String col rest' =>
                        if bv col =? 58 then
                          match parse_value f rest' with
                          | Some (v, rest'') =>
                              match skip_ws rest'' with
                              | String sep rest3 =>
                                  if bv sep =? 44 then
                                    parse_members f (acc ++ [(key, v)])%list (skip_ws rest3)
                                  else if bv sep =? 125 then
                                    Some (JObject (acc ++ [(key, v)])%list, rest3)
                                  else None
                              | EmptyString => None
                              end
                          | None => None
                          end
                        else None
                    | EmptyString => None
                    end
                | None => None
                end
            | None => None
            end
          else None
      | EmptyString => None
      end
  end
with parse_elements (fuel : nat) (acc : list value) (s : string)
  : option (value * string) :=
  match fuel with
  | O => None
  | S f =>
      match parse_value f s with
      | Some (v, rest) =>
          match skip_ws rest with
          | String sep rest' =>
              if bv sep =? 44 then parse_elements f (acc ++ [v])%list rest'
              else if bv sep =? 93 then Some (JArray (acc ++ [v])%list, rest')
              else None
          | EmptyString => None
          end
      | None => None
      end
  end.

(** [json.Unmarshal]'s syntax check and decoding: one value, then only
    white space. *)
Definition parse (s : string) : option value :=
  match parse_value (S (String.length s)) s with
  | Some (v, rest) => match skip_ws rest with EmptyString => Some v | _ => None end
  | None => None
  end.

(** *** Decoding into structs *)

Fixpoint lower (s : string) : string :=
  match s with
  | String c r => String (if byte_in 65 90 (bv c) then chr (bv c + 32) else c) (lower r)
  | EmptyString => EmptyString
  end.

(** The field a key selects: the exact name first, else a case-insensitive
    match (Go's [foldName], here on ASCII). *)
Definition field_of {F : Type} (fields : list (string * F)) (key : string) : option F :=
  match find (fun p => String.eqb (fst p) key) fields with
  | Some p => Some (snd p)
  | None => option_map snd (find (fun p => String.eqb (lower (fst p)) (lower key)) fields)
  end.

(** Members in order; a later duplicate key overwrites; unknown keys are
    skipped; a value of the wrong type makes [Unmarshal] return an error. *)
Fixpoint set_members {S : Type} (fields : list (string * (value -> S -> option S)))
    (st : S) (m : list (string * value)) : option S :=
  match m with
  | [] => Some st
  | (k, v) :: m' =>
      match field_of fields k with
      | Some set =>
          match set v st with Some st' => set_members fields st' m' | None => None end
      | None => set_members fields st m'
      end
  end.

(** [json.Unmarshal] of a value into [*S] holding [init]: [null] leaves it. *)
Definition decode_struct {S : Type} (fields : list (string * (value -> S -> option S)))
    (init : S) (v : value) : option S :=
  match v with
  | JObject m => set_members fields init m
  | JNull => Some init
  | _ => None
  end.

(** A [string] field. *)
Definition string_field {S : Type} (set : S -> string -> S) (v : value) (st : S) : option S :=
  match v with
  | JString t => Some (set st t)
  | JNull => Some st
  | _ => None
  end.

(** A [*NumericDate] field: [null] sets [nil], otherwise
    [NumericDate.UnmarshalJSON], which accepts a number or a string holding
    one ([json.Number]). *)
Definition date_field {S : Type} (set : S -> option Z -> S) (v : value) (st : S) : option S :=
  match v with
  | JNull => Some (set st None)
  | JNumber lit => option_map (fun t => set st (Some t)) (numeric_date_of lit)
  | JString t =>
      if isValidNumber t then option_map (fun t' => set st (Some t')) (numeric_date_of t)
      else None
  | _ => None
  end.

Fixpoint all_strings (l : list value) : option (list string) :=
  match l with
  | [] => Some []
  | JString t :: r => option_map (cons t) (all_strings r)
  | _ :: _ => None
  end.

(** A [ClaimStrings] field ([ClaimStrings.UnmarshalJSON]). *)
Definition strings_field {S : Type} (set : S -> list string -> S) (v : value) (st : S)
  : option S :=
  match v with
  | JString t => Some (set st [t])
  | JArray l => option_map (set st) (all_strings l)
  | JNull => Some st
  | _ => None
  end.

End Json.

(** ** github.com/golang-jwt/jwt/v5 *)

Module Jwt.

Import Json.

(** [RegisteredClaims]; a [*NumericDate] is [None] (nil) or a time. *)
Record RegisteredClaims : Type := mkRegisteredClaims {
  Issuer : string;
  Subject : string;
  Audience : list string;
  ExpiresAt : option Z;
  NotBefore : option Z;
  IssuedAt : option Z;
  ID : string
}.

Definition zero_registered : RegisteredClaims :=
  mkRegisteredClaims EmptyString EmptyString [] None None None EmptyString.

Definition second : Z := 1000000000.

(** [NewNumericDate]: the time truncated to [TimePrecision = time.Second]. *)
Definition NewNumericDate (t : Z) : Z := t / second * second.

(** [NumericDate.MarshalJSON]: the whole seconds since the epoch. *)
Definition numeric_date_json (t : Z) : value := JNumber (FormatInt (t / second)).

(** The members [json.Marshal] writes for [RegisteredClaims], in field order,
    each tagged [omitempty]. *)
Definition registered_members (rc : RegisteredClaims) : list (string * value) :=
  ((if String.eqb rc.(Issuer) EmptyString then [] else [("iss", JString rc.(Issuer))])
   ++ (if String.eqb rc.(Subject) EmptyString then [] else [("sub", JString rc.(Subject))])
   ++ (match rc.(Audience) with [] => [] | l => [("aud", JArray (map JString l))] end)
   ++ (match rc.(ExpiresAt) with Some t => [("exp", numeric_date_json t)] | None => [] end)
   ++ (match rc.(NotBefore) with Some t => [("nbf", numeric_date_json t)] | None => [] end)
   ++ (match rc.(IssuedAt) with Some t => [("iat", numeric_date_json t)] | None => [] end)
   ++ (if String.eqb rc.(ID) EmptyString then [] else [("jti", JString rc.(ID))]))%list.

(** The fields of [RegisteredClaims] as the JSON decoder sees them. *)
Definition registered_fields : list (string * (value -> RegisteredClaims -> option RegisteredClaims)) :=
  [("iss", string_field (fun rc v => mkRegisteredClaims v rc.(Subject) rc.(Audience)
            rc.(ExpiresAt) rc.(NotBefore) rc.(IssuedAt) rc.(ID)));
   ("sub", string_field (fun rc v => mkRegisteredClaims rc.(Issuer) v rc.(Audience)
            rc.(ExpiresAt) rc.(NotBefore) rc.(IssuedAt) rc.(ID)));
   ("aud", strings_field (fun rc v => mkRegisteredClaims rc.(Issuer) rc.(Subject) v
            rc.(ExpiresAt) rc.(NotBefore) rc.(IssuedAt) rc.(ID)));
   ("exp", date_field (fun rc v => mkRegisteredClaims rc.(Issuer) rc.(Subject) rc.(Audience)
            v rc.(NotBefore) rc.(IssuedAt) rc.(ID)));
   ("nbf", date_field (fun rc v => mkRegisteredClaims rc.(Issuer) rc.(Subject) rc.(Audience)
            rc.(ExpiresAt) v rc.(IssuedAt) rc.(ID)));
   ("iat", date_field (fun rc v => mkRegisteredClaims rc.(Issuer) rc.(Subject) rc.(Audience)
            rc.(ExpiresAt) rc.(NotBefore) v rc.(ID)));
   ("jti", string_field (fun rc v => mkRegisteredClaims rc.(Issuer) rc.(Subject) rc.(Audience)
            rc.(ExpiresAt) rc.(NotBefore) rc.(IssuedAt) v))].

Inductive error : Type :=
| ErrTokenMalformed
| ErrTokenUnverifiable
| ErrTokenSignatureInvalid
| ErrTokenInvalidClaims (expired notValidYet : bool)
| ErrInvalidKey.

Inductive result (A : Type) : Type :=
| Ok (a : A)
| Err (e : error).
Arguments Ok {A} a.
Arguments Err {A} e.

(** The header of [NewWithClaims(SigningMethodHS256, ...)], a
    [map[string]interface{}], which [json.Marshal] writes with sorted keys. *)
Definition header_members : list (string * value) :=
  [("alg", JString "HS256"); ("typ", JString "JWT")].

(** [EncodeSegment] / [DecodeSegment] (no padding, non-strict decoding). *)
Definition EncodeSegment (s : string) : string := Base64.EncodeToString s.
Definition DecodeSegment (s : string) : option string := Base64.DecodeString s.

(** [Token.SigningString] *)
Definition SigningString (claims : list (string * value)) : string :=
  EncodeSegment (encode (JObject header_members)) ++ "."
  ++ EncodeSegment (encode (JObject claims)).

(** [Token.SignedString(key)] for HS256 with a [[]byte] key; [Sign] cannot
    fail there, so the error result is always nil and left out. *)
Definition SignedString (claims : list (string * value)) (key : string) : string :=
  let sstr := SigningString claims in
  sstr ++ "." ++ EncodeSegment (hmac_sha256 key sstr).

(** [strings.Split(s, ".")] *)
Fixpoint split_dot (s : string) : list string :=
  match s with
  | EmptyString => [EmptyString]
  | String c r =>
      if bv c =? 46 then EmptyString :: split_dot r
      else match split_dot r with
           | x :: xs => String c x :: xs
           | [] => [String c EmptyString]
           end
  end.

(** [json.Unmarshal] into [token.Header]: an object gives the map, [null] a
    nil map (no members). *)
Definition decode_header (v : value) : option (list (string * value)) :=
  match v with
  | JObject m => Some m
  | JNull => Some []
  | _ => None
  end.

(** Map lookup: the last occurrence of a key wins. *)
Definition lookup (k : string) (m : list (string * value)) : option value :=
  fold_left (fun acc p => if String.eqb (fst p) k then Some (snd p) else acc) m None.

(** [Validator.Validate] with the default options (no leeway, [exp] and
    [nbf] optional, [iat] not checked): [now] must be before [exp] and not
    before [nbf]. *)
Definition Validate (rc : RegisteredClaims) (now : Z) : option error :=
  let expired := match rc.(ExpiresAt) with Some e => negb (now <? e) | None => false end in
  let notValidYet := match rc.(NotBefore) with Some n => now <? n | None => false end in
  if expired || notValidYet then Some (ErrTokenInvalidClaims expired notValidYet) else None.

(** [Parser.ParseUnverified]: the three segments, the header map, the
    claims decoded by [decodeC] and the name of the signing method. *)
Definition ParseUnverified {C : Type} (decodeC : value -> option C) (tokenString : string)
  : result (string * string * string * list (string * value) * C * string) :=
  match split_dot tokenString with
  | [p0; p1; p2] =>
      match option_map (fun hb => Json.parse hb) (DecodeSegment p0) with
      | Some (Some hv) =>
          match decode_header hv, DecodeSegment p1 with
          | Some hdr, Some cb =>
              match option_map decodeC (Json.parse cb) with
              | Some (Some claims) =>
                  match lookup "alg" hdr with
                  | Some (JString alg) => Ok (p0, p1, p2, hdr, claims, alg)
                  | _ => Err ErrTokenUnverifiable
                  end
              | _ => Err ErrTokenMalformed
              end
          | _, _ => Err ErrTokenMalformed
          end
      | _ => Err ErrTokenMalformed
      end
  | _ => Err ErrTokenMalformed
  end.

(** [Parser.ParseWithClaims] with the default parser, a key function
    returning [[]byte(key)], claims decoded by [decodeC] and validated
    through [reg], at the instant [now] returned by [time.Now()].  With a
    [[]byte] key only the HMAC methods can verify; of those the model has
    HS256, and a token naming any other [alg] is rejected. *)
Definition ParseWithClaims {C : Type} (decodeC : value -> option C)
    (reg : C -> RegisteredClaims) (tokenString key : string) (now : Z) : result C :=
  match ParseUnverified decodeC tokenString with
  | Err e => Err e
  | Ok (p0, p1, p2, _, claims, alg) =>
      if String.eqb alg "HS256" then
        match DecodeSegment p2 with
        | Some sig =>
            if Hmac.Equal sig (hmac_sha256 key (p0 ++ "." ++ p1)) then
              match Validate (reg claims) now with
              | None => Ok claims
              | Some e => Err e
              end
            else Err ErrTokenSignatureInvalid
        | None => Err ErrTokenMalformed
        end
      else Err ErrTokenUnverifiable
  end.

End Jwt.

(** ** package auth: jwt.go *)

Module Auth.

Import Json Jwt.

(** The [User] interface, by its three accessors. *)
Record User : Type := mkUser {
  GetID : string;
  GetEmail : string;
  GetRole : string
}.

(** [Claims]: three fields and the embedded [jwt.RegisteredClaims]. *)
Record Claims : Type := mkClaims {
  UserID : string;
  Email : string;
  Role : string;
  Registered : RegisteredClaims
}.

(** [JWT]; the expiries are Go [int]s (64-bit). *)
Record JWT : Type := mkJWT {
  secret : string;
  expiryHours : Z;
  refreshExpiryHours : Z
}.

Record TokenPair : Type := mkTokenPair {
  AccessToken : string;
  RefreshToken : string
}.

Definition NewJWT (secret : string) (expiryHours refreshExpiryHours : Z) : JWT :=
  {| secret := secret; expiryHours := expiryHours; refreshExpiryHours := refreshExpiryHours |}.

(** Two's-complement wrap-around of a 64-bit signed integer. *)
Definition wrap64 (z : Z) : Z := (z + 2 ^ 63) mod 2 ^ 64 - 2 ^ 63.

Definition Hour : Z := 3600 * second.

(** [time.Hour * time.Duration(h)]: a [Duration] is an [int64] of ns. *)
Definition hours (h : Z) : Z := wrap64 (Hour * h).

(** The members [json.Marshal] writes for [Claims]: its own fields, then
    the promoted fields of the embedded [RegisteredClaims]. *)
Definition claims_members (c : Claims) : list (string * value) :=
  ([("user_id", JString c.(UserID)); ("email", JString c.(Email)); ("role", JString c.(Role))]
   ++ registered_members c.(Registered))%list.

Definition with_registered (c : Claims) (rc : RegisteredClaims) : Claims :=
  mkClaims c.(UserID) c.(Email) c.(Role) rc.

(** The fields of [Claims] as the JSON decoder sees them. *)
Definition claims_fields : list (string * (value -> Claims -> option Claims)) :=
  ([("user_id", string_field (fun c v => mkClaims v c.(Email) c.(Role) c.(Registered)));
    ("email", string_field (fun c v => mkClaims c.(UserID) v c.(Role) c.(Registered)));
    ("role", string_field (fun c v => mkClaims c.(UserID) c.(Email) v c.(Registered)))]
   ++ map (fun f => (fst f, fun v c => option_map (with_registered c) (snd f v c.(Registered))))
          registered_fields)%list.

Definition zero_claims : Claims := mkClaims EmptyString EmptyString EmptyString zero_registered.

Definition decode_claims (v : value) : option Claims := decode_struct claims_fields zero_claims v.

Definition decode_registered (v : value) : option RegisteredClaims :=
  decode_struct registered_fields zero_registered v.

(** The claims [GenerateAccessToken] builds; [now1], [now2], [now3] are the
    three [time.Now()] readings, in evaluation order (exp, iat, nbf). *)
Definition access_claims (j : JWT) (user : User) (now1 now2 now3 : Z) : Claims :=
  {| UserID := user.(GetID);
     Email := user.(GetEmail);
     Role := user.(GetRole);
     Registered :=
       {| Issuer := EmptyString;
          Subject := user.(GetID);
          Audience := [];
          ExpiresAt := Some (NewNumericDate (now1 + hours j.(expiryHours)));
          IssuedAt := Some (NewNumericDate now2);
          NotBefore := Some (NewNumericDate now3);
          ID := EmptyString |} |}.

(** [JWT.GenerateAccessToken]; signing with a [[]byte] key cannot fail. *)
Definition GenerateAccessToken (j : JWT) (user : User) (now1 now2 now3 : Z) : string :=
  SignedString (claims_members (access_claims j user now1 now2 now3)) j.(secret).

(** The claims [GenerateRefreshToken] builds (readings for exp, iat, nbf). *)
Definition refresh_claims (j : JWT) (user : User) (now1 now2 now3 : Z) : RegisteredClaims :=
  {| Issuer := EmptyString;
     Subject := user.(GetID);
     Audience := [];
     ExpiresAt := Some (NewNumericDate (now1 + hours j.(refreshExpiryHours)));
     IssuedAt := Some (NewNumericDate now2);
     NotBefore := Some (NewNumericDate now3);
     ID := EmptyString |}.

(** [JWT.GenerateRefreshToken] *)
Definition GenerateRefreshToken (j : JWT) (user : User) (now1 now2 now3 : Z) : string :=
  SignedString (registered_members (refresh_claims j user now1 now2 now3)) j.(secret).

(** [JWT.GenerateTokenPair]; [ta] and [tr] are the clock readings of the
    two calls. *)
Definition GenerateTokenPair (j : JWT) (user : User) (ta tr : Z * Z * Z) : TokenPair :=
  let '(a1, a2, a3) := ta in
  let '(r1, r2, r3) := tr in
  {| AccessToken := GenerateAccessToken j user a1 a2 a3;
     RefreshToken := GenerateRefreshToken j user r1 r2 r3 |}.

(** [JWT.ValidateToken] at the instant [now] of the validator's
    [time.Now()].  The [!ok || !token.Valid] branch cannot be taken after a
    nil error from [ParseWithClaims]. *)
Definition ValidateToken (j : JWT) (now : Z) (tokenString : string) : result Claims :=
  ParseWithClaims decode_claims Registered tokenString j.(secret) now.

(** [JWT.ValidateRefreshToken] *)
Definition ValidateRefreshToken (j : JWT) (now : Z) (tokenString : string) : result string :=
  match ParseWithClaims decode_registered (fun rc => rc) tokenString j.(secret) now with
  | Ok rc => Ok rc.(Subject)
  | Err e => Err e
  end.

End Auth.

(** ** package auth: middleware.go *)

Module Middleware.

Import Jwt Auth.

Definition UserContextKey : string := "user".

(** A value stored in the Echo context: a [*Claims] or anything else. *)
Inductive ctx_value : Type :=
| CtxClaims (c : Claims)
| CtxOther (tag : string).

(** An [http.Header], with keys in canonical form. *)
Definition Header := list (string * list string).

(** [Header.Get]: the first value of the key, or [""]. *)
Definition header_get (h : Header) (key : string) : string :=
  match find (fun p => String.eqb (fst p) key) h with
  | Some (_, v :: _) => v
  | _ => EmptyString
  end.

Record Response : Type := mkResponse {
  status : Z;
  body : list (string * string)
}.

(** An [echo.Context]: the request headers, the context store, the response
    written so far, and the value [time.Now()] returns while the request is
    handled. *)
Record Context : Type := mkContext {
  request_header : Header;
  store : list (string * ctx_value);
  response : option Response;
  clock : Z
}.

(** An [echo.HandlerFunc]: the context after handling, and the returned error. *)
Definition HandlerFunc := Context -> Context * option string.

Definition MiddlewareFunc := HandlerFunc -> HandlerFunc.

(** [c.JSON(code, map[string]string{...})] *)
Definition JSON (c : Context) (code : Z) (b : list (string * string)) : Context * option string :=
  (mkContext c.(request_header) c.(store) (Some (mkResponse code b)) c.(clock), None).

(** [c.Set(key, val)] *)
Definition ctx_set (c : Context) (key : string) (v : ctx_value) : Context :=
  mkContext c.(request_header) ((key, v) :: c.(store)) c.(response) c.(clock).

(** [c.Get(key)]: the latest value set for the key. *)
Definition ctx_get (c : Context) (key : string) : option ctx_value :=
  option_map snd (find (fun p => String.eqb (fst p) key) c.(store)).

Record Middleware : Type := mkMiddleware { jwt : JWT }.

Definition NewMiddleware (j : JWT) : Middleware := {| jwt := j |}.

(** [strings.SplitN(s, " ", 2)] *)
Fixpoint split_space2 (s : string) : list string :=
  match s with
  | EmptyString => [EmptyString]
  | String c r =>
      if bv c =? 32 then [EmptyString; r]
      else match split_space2 r with
           | x :: xs => String c x :: xs
           | [] => [String c EmptyString]
           end
  end.

(** [Middleware.extractToken] *)
Definition extractToken (m : Middleware) (c : Context) : string :=
  let authHeader := header_get c.(request_header) "Authorization" in
  if String.eqb authHeader EmptyString then EmptyString
  else
    match split_space2 authHeader with
    | [p0; p1] => if String.eqb p0 "Bearer" then p1 else EmptyString
    | _ => EmptyString
    end.

(** [Middleware.GetUserFromContext] *)
Definition GetUserFromContext (m : Middleware) (c : Context) : option Claims :=
  match ctx_get c UserContextKey with
  | Some (CtxClaims u) => Some u
  | _ => None
  end.

(** [Middleware.RequireAuth] *)
Definition RequireAuth (m : Middleware) : MiddlewareFunc :=
  fun next c =>
    let token := extractToken m c in
    if String.eqb token EmptyString then
      JSON c 401 [("message", "Authorization header is required")]
    else
      match ValidateToken m.(jwt) c.(clock) token with
      | Err _ => JSON c 401 [("message", "Invalid or expired token")]
      | Ok claims => next (ctx_set c UserContextKey (CtxClaims claims))
      end.

(** [Middleware.RequireRole] *)
Definition RequireRole (m : Middleware) (role : string) : MiddlewareFunc :=
  fun next c =>
    match GetUserFromContext m c with
    | None => JSON c 401 [("message", "Authentication required")]
    | Some user =>
        if negb (String.eqb user.(Role) role) then
          JSON c 403 [("message", "Insufficient permissions")]
        else next c
    end.

(** [Middleware.RequireAdmin] *)
Definition RequireAdmin (m : Middleware) : MiddlewareFunc := RequireRole m "admin".

End Middleware.

(** ** Statement vocabulary *)

(** ** package apis: book.go (route registration) *)

Module Apis.

Import Auth Middleware.

(** A registered route: its method, its path, and the handler Echo runs for
    it, with the route's middleware already applied. *)
Record Route : Type := mkRoute {
  method : string;
  path : string;
  route_handler : HandlerFunc
}.

(** Echo's [applyMiddleware]: the last middleware wraps the handler first,
    so the first one in the list runs first. *)
Definition applyMiddleware (h : HandlerFunc) (middleware : list MiddlewareFunc) : HandlerFunc :=
  fold_right (fun mw h => mw h) h middleware.

(** Echo's [Group.Add] (behind [group.GET], [group.POST], ...): the group's
    own middleware [gm] first, then the route's, around the handler, at the
    group's prefix. *)
Definition group_add (prefix : string) (gm : list MiddlewareFunc) (meth p : string)
    (h : HandlerFunc) (middleware : list MiddlewareFunc) : Route :=
  mkRoute meth (prefix ++ p) (applyMiddleware h (gm ++ middleware)).

(** [BookAPI], with its handler methods as fields (their bodies use the
    book repository and are not modelled). *)
Record BookAPI : Type := mkBookAPI {
  authMw : Middleware;
  createBook : HandlerFunc;
  getBooks : HandlerFunc;
  getBook : HandlerFunc;
  searchBooks : HandlerFunc;
  getAvailableBooks : HandlerFunc;
  updateBook : HandlerFunc;
  deleteBook : HandlerFunc;
  updateQuantity : HandlerFunc
}.

(** [BookAPI.Setup] on a group with prefix [prefix] and group middleware
    [gm]: the routes it registers, in order. *)
Definition Setup (api : BookAPI) (prefix : string) (gm : list MiddlewareFunc) : list Route :=
  [group_add prefix gm "POST" "" api.(createBook) [RequireAdmin api.(authMw)];
   group_add prefix gm "GET" "" api.(getBooks) [];
   group_add prefix gm "GET" "/:id" api.(getBook) [];
   group_add prefix gm "GET" "/search" api.(searchBooks) [];
   group_add prefix gm "GET" "/available" api.(getAvailableBooks) [];
   group_add prefix gm "PUT" "/:id" api.(updateBook) [RequireAdmin api.(authMw)];
   group_add prefix gm "DELETE" "/:id" api.(deleteBook) [RequireAdmin api.(authMw)];
   group_add prefix gm "PUT" "/:id/quantity" api.(updateQuantity) [RequireAdmin api.(authMw)]].

End Apis.

Module Spec.

Import Jwt Auth Middleware Apis.

(** Whether a string contains a space. *)
Definition has_space (s : string) : bool :=
  existsb (fun c => bv c =? 32) (list_ascii_of_string s).

(** The request carries a token that [ValidateToken] accepts with [cl]. *)
Definition authenticated (m : Middleware) (c : Context) (cl : Claims) : Prop :=
  extractToken m c <> EmptyString /\ ValidateToken m.(jwt) c.(clock) (extractToken m c) = Ok cl.

Definition is_err {A : Type} (r : result A) : Prop :=
  match r with Err _ => True | Ok _ => False end.

(** A handler that returns normally, requests, and a middleware with a fixed
    secret and expiries, for concrete instances. *)
Definition ok_handler : HandlerFunc := fun c => (c, None).

Definition request (h : Header) (now : Z) : Context := mkContext h [] None now.

Definition test_middleware : Middleware := NewMiddleware (NewJWT "secret" 24 168).

Definition member_claims : Claims :=
  mkClaims "u1" "a@b.c" "member" zero_registered.

Definition member_request : Context :=
  ctx_set (request [] 0) UserContextKey (CtxClaims member_claims).

Definition garbage_request : Context :=
  request [("Authorization", ["Bearer garbage"])] 0.

(** The claims of a token as [ParseUnverified] decodes them into [Claims]. *)
Definition unverified_claims (tokenString : string) : option Claims :=
  match ParseUnverified decode_claims tokenString with
  | Ok (_, _, _, _, cl, _) => Some cl
  | Err _ => None
  end.

(** An issuing instant (2023-11-14T22:13:20Z) in nanoseconds, and a user. *)
Definition t0 : Z := 1700000000 * second.

Definition test_user : User := mkUser "u1" "a@b.c" "member".

Definition test_jwt : JWT := NewJWT "secret" 24 168.

(** A configuration whose refresh expiry (1 h) is shorter than its access
    expiry (24 h); [NewJWT] accepts it. *)
Definition short_refresh_jwt : JWT := NewJWT "secret" 24 1.

(** Whether a string contains a dot. *)
Definition has_dot (s : string) : bool :=
  existsb (fun c => bv c =? 46) (list_ascii_of_string s).

(** The access token issued to [test_user] at [t0] by [test_jwt]. *)
Definition sample_token : string := GenerateAccessToken test_jwt test_user t0 t0 t0.

(** The [i]-th dot-separated segment of a string. *)
Definition segment (i : nat) (s : string) : string := nth i (split_dot s) EmptyString.

(** [s] with its last character replaced by [c]. *)
Definition replace_last (s : string) (c : ascii) : string :=
  substring 0 (String.length s - 1) s ++ String c EmptyString.

(** [s] with its first character replaced by [c]. *)
Definition replace_first (s : string) (c : ascii) : string :=
  String c (substring 1 (String.length s - 1) s).

(** The member values [json.Marshal] writes for the claim structs: strings
    holding well-formed UTF-8, and [NumericDate]s as whole seconds. *)
Definition flat_value (v : Json.value) : Prop :=
  (exists t, v = Json.JString t /\ Utf8.Valid t)
  \/ (exists n, v = Json.JNumber (Json.FormatInt n) /\ 0 <= n < 2 ^ 1024).

Definition flat_member (kv : string * Json.value) : Prop :=
  Utf8.Valid (fst kv) /\ flat_value (snd kv).

(** One object member as [Json.encode] writes it. *)
Definition member_enc (kv : string * Json.value) : string :=
  Json.appendString (fst kv) ++ ":" ++ Json.encode (snd kv).

(** Member values whose strings may hold any bytes. *)
Definition any_value (v : Json.value) : Prop :=
  (exists t, v = Json.JString t) \/ (exists n, v = Json.JNumber (Json.FormatInt n) /\ 0 <= n < 2 ^ 1024).

Definition any_member (kv : string * Json.value) : Prop := Utf8.Valid (fst kv) /\ any_value (snd kv).

(** What decoding gives back for a value: a string comes back as some
    string, equal to the original when that is well-formed UTF-8; any
    other value comes back unchanged. *)
Definition similar (v v' : Json.value) : Prop :=
  match v with
  | Json.JString t => exists t', v' = Json.JString t' /\ (Utf8.Valid t -> t' = t)
  | _ => v' = v
  end.

Definition similar_member (kv kv' : string * Json.value) : Prop :=
  fst kv' = fst kv /\ similar (snd kv) (snd kv').
(** A string of decimal digits. *)
Definition all_digits (d : string) : Prop :=
  forall i a, String.get i d = Some a -> Json.is_digit a = true.


(** A user whose id is the single byte 0xFF, which is not UTF-8. *)
Definition invalid_utf8_user : User := mkUser (String "255"%char EmptyString) "a@b.c" "member".

(** U+FFFD REPLACEMENT CHARACTER in UTF-8. *)
(** A user whose id is ASCII and whose email and role are not UTF-8. *)
Definition invalid_fields_user : User :=
  mkUser "u1" (String "255"%char EmptyString) (String "255"%char EmptyString).

Definition replacement_char : string :=
  String "239"%char (String "191"%char (String "189"%char EmptyString)).

(** The claims of a token as [ParseUnverified] decodes them into
    [RegisteredClaims]. *)
Definition unverified_registered (tokenString : string) : option RegisteredClaims :=
  match ParseUnverified decode_registered tokenString with
  | Ok (_, _, _, _, rc, _) => Some rc
  | Err _ => None
  end.

(** A request header carrying [Authorization: Bearer <tok>]. *)
Definition bearer (tok : string) : Header := [("Authorization", ["Bearer " ++ tok])].

(** A [BookAPI] whose handlers all return normally. *)
Definition stub_api : BookAPI :=
  mkBookAPI test_middleware ok_handler ok_handler ok_handler ok_handler ok_handler ok_handler
    ok_handler ok_handler.

End Spec.

(** * Proofs *)

Import Jwt Auth Middleware Apis Spec.

(** ** Middleware *)

Lemma has_space_app (a b : string) : has_space (a ++ b) = has_space a || has_space b.
Proof.
  induction a as [|x a IH]; [reflexivity|].
  unfold has_space in *. cbn. rewrite IH. apply orb_assoc.
Qed.

Lemma split_space2_sep (pre rest : string) :
  has_space pre = false -> split_space2 (pre ++ " " ++ rest) = [pre; rest].
Proof.
  induction pre as [|a pre IH]; intros H; [reflexivity|].
  unfold has_space in *. cbn in H, IH |- *. apply orb_false_iff in H as [H1 H2].
  rewrite H1. rewrite (IH H2). reflexivity.
Qed.

Lemma split_space2_cases (s : string) :
  (has_space s = false /\ split_space2 s = [s])
  \/ (exists pre rest, has_space pre = false /\ s = pre ++ " " ++ rest
        /\ split_space2 s = [pre; rest]).
Proof.
  induction s as [|a s IH]; [left; split; reflexivity|].
  cbn. destruct (bv a =? 32) eqn:Ha.
  - right. exists EmptyString, s. split; [reflexivity|]. split; [|reflexivity].
    apply Z.eqb_eq in Ha. f_equal.
    rewrite <- (ascii_nat_embedding a).
    unfold bv in Ha. replace (nat_of_ascii a) with 32%nat by lia. reflexivity.
  - destruct IH as [[H1 H2] | (pre & rest & H1 & H2 & H3)].
    + left. rewrite H2. unfold has_space in H1. rewrite H1. split; reflexivity.
    + right. exists (String a pre), rest. rewrite H3. cbn.
      unfold has_space in H1. rewrite Ha, H1. subst s. split; [reflexivity|].
      split; reflexivity.
Qed.

Lemma extractToken_bearer (m : Middleware) (c : Context) (tok : string) :
  header_get c.(request_header) "Authorization" = "Bearer " ++ tok ->
  extractToken m c = tok.
Proof.
  intros H. unfold extractToken. rewrite H. reflexivity.
Qed.

Lemma extractToken_cases (m : Middleware) (c : Context) :
  let h := header_get c.(request_header) "Authorization" in
  (has_space h = false /\ extractToken m c = EmptyString)
  \/ (exists pre rest, has_space pre = false /\ h = pre ++ " " ++ rest
        /\ extractToken m c = if String.eqb pre "Bearer" then rest else EmptyString).
Proof.
  cbn zeta. unfold extractToken.
  destruct (split_space2_cases (header_get (request_header c) "Authorization"))
    as [[H1 H2] | (pre & rest & H1 & H2 & H3)].
  - left. split; [exact H1|]. rewrite H2.
    destruct (String.eqb _ EmptyString); reflexivity.
  - right. exists pre, rest. split; [exact H1|]. split; [exact H2|].
    rewrite H3. rewrite H2. destruct pre; reflexivity.
Qed.

Lemma extractToken_nonempty (m : Middleware) (c : Context) (tok : string) :
  extractToken m c = tok -> tok <> EmptyString ->
  header_get c.(request_header) "Authorization" = "Bearer " ++ tok.
Proof.
  intros Ht Hne.
  destruct (extractToken_cases m c) as [[_ H] | (pre & rest & _ & H1 & H2)].
  - congruence.
  - rewrite H1. destruct (String.eqb pre "Bearer") eqn:Hb.
    + apply String.eqb_eq in Hb. subst pre. rewrite H2 in Ht. subst. reflexivity.
    + congruence.
Qed.

Lemma ctx_get_set (c : Context) (k : string) (v : ctx_value) :
  ctx_get (ctx_set c k v) k = Some v.
Proof. unfold ctx_get, ctx_set. cbn. rewrite String.eqb_refl. reflexivity. Qed.

Lemma GetUserFromContext_set (m : Middleware) (c : Context) (cl : Claims) :
  GetUserFromContext m (ctx_set c UserContextKey (CtxClaims cl)) = Some cl.
Proof. unfold GetUserFromContext. rewrite ctx_get_set. reflexivity. Qed.

Lemma RequireAuth_cases (m : Middleware) (next : HandlerFunc) (c : Context) :
  (exists cl, authenticated m c cl
     /\ RequireAuth m next c = next (ctx_set c UserContextKey (CtxClaims cl)))
  \/ ((forall cl, ~ authenticated m c cl)
      /\ (RequireAuth m next c = JSON c 401 [("message", "Authorization header is required")]
          \/ RequireAuth m next c = JSON c 401 [("message", "Invalid or expired token")])).
Proof.
  unfold RequireAuth, authenticated.
  destruct (String.eqb (extractToken m c) EmptyString) eqn:He.
  - apply String.eqb_eq in He. right. split; [|left; reflexivity].
    intros cl [H _]. exact (H He).
  - apply String.eqb_neq in He.
    destruct (ValidateToken (jwt m) (clock c) (extractToken m c)) as [cl|e] eqn:Hv.
    + left. exists cl. split; [split; [exact He | reflexivity] | reflexivity].
    + right. split; [|right; reflexivity]. intros cl [_ H]. congruence.
Qed.

Lemma RequireRole_cases (m : Middleware) (r : string) (next : HandlerFunc) (c : Context) :
  (exists cl, GetUserFromContext m c = Some cl /\ cl.(Role) = r /\ RequireRole m r next c = next c)
  \/ (GetUserFromContext m c = None
      /\ RequireRole m r next c = JSON c 401 [("message", "Authentication required")])
  \/ (exists cl, GetUserFromContext m c = Some cl /\ cl.(Role) <> r
      /\ RequireRole m r next c = JSON c 403 [("message", "Insufficient permissions")]).
Proof.
  unfold RequireRole. destruct (GetUserFromContext m c) as [cl|] eqn:Hg.
  - destruct (String.eqb (Role cl) r) eqn:Hr.
    + left. exists cl. apply String.eqb_eq in Hr. auto.
    + right; right. exists cl. apply String.eqb_neq in Hr. auto.
  - right; left. auto.
Qed.

(** C2: when the context holds authenticated claims, [RequireRole role]
    compares the claims' role with [role] by exact string equality: on a
    mismatch it writes a 403 response "Insufficient permissions" and does not
    call the wrapped handler; on an exact match the result is the wrapped
    handler's result on the unchanged request. *)
Theorem RequireRole_exact_match (m : Middleware) (role : string) (next : HandlerFunc)
    (c : Context) (cl : Claims) :
  GetUserFromContext m c = Some cl ->
  (cl.(Role) <> role ->
     RequireRole m role next c = JSON c 403 [("message", "Insufficient permissions")])
  /\ (cl.(Role) = role -> RequireRole m role next c = next c).
Proof.
  intros Hg. unfold RequireRole. rewrite Hg. split; intros Hr.
  - apply String.eqb_neq in Hr. rewrite Hr. reflexivity.
  - subst role. rewrite String.eqb_refl. reflexivity.
Qed.

Lemma RequireRole_exact_match_witness :
  GetUserFromContext test_middleware member_request = Some member_claims
  /\ RequireRole test_middleware "admin" ok_handler member_request
     = JSON member_request 403 [("message", "Insufficient permissions")]
  /\ RequireRole test_middleware "member" ok_handler member_request
     = ok_handler member_request.
Proof.
  split; [reflexivity|]. split.
  - apply (RequireRole_exact_match test_middleware "admin" ok_handler member_request
             member_claims); [reflexivity | discriminate].
  - apply (RequireRole_exact_match test_middleware "member" ok_handler member_request
             member_claims); reflexivity.
Defined.

(** C6: when the Authorization header yields a non-empty token that
    [ValidateToken] rejects, whatever the error, [RequireAuth] writes a 401
    response "Invalid or expired token" and does not call the wrapped
    handler; the response does not depend on the error. *)
Theorem RequireAuth_invalid_token (m : Middleware) (next : HandlerFunc) (c : Context)
    (e : error) :
  extractToken m c <> EmptyString ->
  ValidateToken m.(jwt) c.(clock) (extractToken m c) = Err e ->
  RequireAuth m next c = JSON c 401 [("message", "Invalid or expired token")].
Proof.
  intros He Hv. unfold RequireAuth.
  apply String.eqb_neq in He. rewrite He, Hv. reflexivity.
Qed.

Lemma RequireAuth_invalid_token_witness :
  RequireAuth test_middleware ok_handler garbage_request
  = JSON garbage_request 401 [("message", "Invalid or expired token")].
Proof.
  apply (RequireAuth_invalid_token test_middleware ok_handler garbage_request
           ErrTokenMalformed).
  - vm_compute. discriminate.
  - vm_compute. reflexivity.
Defined.

(** C7: when the Authorization header is absent, or is not the scheme
    "Bearer", one space and a non-empty token, [RequireAuth] writes a 401
    response "Authorization header is required" and does not call the wrapped
    handler. *)
Theorem RequireAuth_missing_header (m : Middleware) (next : HandlerFunc) (c : Context) :
  (forall tok, tok <> EmptyString ->
     header_get c.(request_header) "Authorization" <> "Bearer " ++ tok) ->
  RequireAuth m next c = JSON c 401 [("message", "Authorization header is required")].
Proof.
  intros Hh. unfold RequireAuth.
  destruct (String.eqb (extractToken m c) EmptyString) eqn:He; [reflexivity|].
  exfalso. apply String.eqb_neq in He.
  exact (Hh _ He (extractToken_nonempty m c _ eq_refl He)).
Qed.

Lemma RequireAuth_missing_header_witness :
  RequireAuth test_middleware ok_handler (request [] 0)
  = JSON (request [] 0) 401 [("message", "Authorization header is required")].
Proof.
  apply RequireAuth_missing_header. intros tok _. cbn. destruct tok; discriminate.
Defined.

(** C9: the wrapped handler is called only on success. [RequireAuth] either
    finds a token that validates (and calls the handler with the claims stored
    under "user") or, when no token validates, writes a 401 response and
    returns no error; [RequireRole] either finds claims with the required role
    and calls the handler, or writes a 401 (no claims) or 403 (other role)
    response; and for [RequireAuth] composed with [RequireRole] the handler is
    called only with claims that validated and carry the required role, every
    other request ending in a 401 or 403 response with no error returned. *)
Theorem middleware_failures_terminal (m : Middleware) :
  (forall next c,
     (exists cl, authenticated m c cl
        /\ RequireAuth m next c = next (ctx_set c UserContextKey (CtxClaims cl)))
     \/ ((forall cl, ~ authenticated m c cl)
         /\ exists msg, RequireAuth m next c = JSON c 401 [("message", msg)]))
  /\ (forall role next c,
     (exists cl, GetUserFromContext m c = Some cl /\ cl.(Role) = role
        /\ RequireRole m role next c = next c)
     \/ (GetUserFromContext m c = None
         /\ RequireRole m role next c = JSON c 401 [("message", "Authentication required")])
     \/ (exists cl, GetUserFromContext m c = Some cl /\ cl.(Role) <> role
         /\ RequireRole m role next c = JSON c 403 [("message", "Insufficient permissions")]))
  /\ (forall role next c,
     (exists cl, authenticated m c cl /\ cl.(Role) = role
        /\ RequireAuth m (RequireRole m role next) c
           = next (ctx_set c UserContextKey (CtxClaims cl)))
     \/ ((forall cl, ~ authenticated m c cl)
         /\ exists msg, RequireAuth m (RequireRole m role next) c = JSON c 401 [("message", msg)])
     \/ (exists cl, authenticated m c cl /\ cl.(Role) <> role
         /\ RequireAuth m (RequireRole m role next) c
            = JSON (ctx_set c UserContextKey (CtxClaims cl)) 403
                [("message", "Insufficient permissions")])).
Proof.
  split; [|split].
  - intros next c. destruct (RequireAuth_cases m next c) as [H | [H1 [H2|H2]]].
    + left. exact H.
    + right. split; [exact H1|]. eexists. exact H2.
    + right. split; [exact H1|]. eexists. exact H2.
  - intros role next c. apply RequireRole_cases.
  - intros role next c.
    destruct (RequireAuth_cases m (RequireRole m role next) c)
      as [(cl & Ha & Hr) | [H1 [H2|H2]]].
    + assert (Hrr : RequireRole m role next (ctx_set c UserContextKey (CtxClaims cl))
                    = if String.eqb (Role cl) role
                      then next (ctx_set c UserContextKey (CtxClaims cl))
                      else JSON (ctx_set c UserContextKey (CtxClaims cl)) 403
                             [("message", "Insufficient permissions")]).
      { unfold RequireRole. rewrite GetUserFromContext_set.
        destruct (String.eqb (Role cl) role); reflexivity. }
      rewrite Hr, Hrr. destruct (String.eqb (Role cl) role) eqn:Hrole.
      * left. exists cl. apply String.eqb_eq in Hrole. auto.
      * right; right. exists cl. apply String.eqb_neq in Hrole. auto.
    + right; left. split; [exact H1|]. eexists. exact H2.
    + right; left. split; [exact H1|]. eexists. exact H2.
Qed.

(** C10: [extractToken] splits the Authorization header at its first space
    only. If the header has no space the result is empty; otherwise, with
    [pre] the part before the first space and [rest] everything after it, the
    result is [rest] (further spaces included) when [pre] is exactly "Bearer",
    and empty otherwise. Consequently a header that is exactly "Bearer ", or
    whose scheme differs from "Bearer" (for instance "bearer x"), makes
    [RequireAuth] answer 401 "Authorization header is required". *)
Theorem extractToken_first_space (m : Middleware) :
  (forall c pre rest,
     has_space pre = false ->
     header_get c.(request_header) "Authorization" = pre ++ " " ++ rest ->
     extractToken m c = if String.eqb pre "Bearer" then rest else EmptyString)
  /\ (forall c,
     has_space (header_get c.(request_header) "Authorization") = false ->
     extractToken m c = EmptyString)
  /\ (forall next c,
     (header_get c.(request_header) "Authorization" = "Bearer "
      \/ exists pre rest, has_space pre = false /\ pre <> "Bearer"
           /\ header_get c.(request_header) "Authorization" = pre ++ " " ++ rest) ->
     RequireAuth m next c = JSON c 401 [("message", "Authorization header is required")]).
Proof.
  assert (Hsplit : forall c pre rest,
     has_space pre = false ->
     header_get c.(request_header) "Authorization" = pre ++ " " ++ rest ->
     extractToken m c = if String.eqb pre "Bearer" then rest else EmptyString).
  { intros c pre rest Hs Hh. unfold extractToken. rewrite Hh.
    rewrite (split_space2_sep pre rest Hs). destruct pre; reflexivity. }
  split; [exact Hsplit|]. split.
  - intros c Hs.
    destruct (extractToken_cases m c) as [[_ H] | (pre & rest & Hp & Hh & _)]; [exact H|].
    exfalso. rewrite Hh, has_space_app in Hs.
    apply orb_false_iff in Hs as [_ Hs]. discriminate.
  - intros next c Hh. unfold RequireAuth.
    assert (He : extractToken m c = EmptyString).
    { destruct Hh as [Hh | (pre & rest & Hs & Hne & Hh)].
      - apply (Hsplit c "Bearer" EmptyString); [reflexivity|]. exact Hh.
      - rewrite (Hsplit c pre rest Hs Hh).
        apply String.eqb_neq in Hne. rewrite Hne. reflexivity. }
    rewrite He. reflexivity.
Qed.

Lemma extractToken_first_space_witness :
  extractToken test_middleware (request [("Authorization", ["Bearer a b"])] 0) = "a b"
  /\ RequireAuth test_middleware ok_handler (request [("Authorization", ["Bearer "])] 0)
     = JSON (request [("Authorization", ["Bearer "])] 0) 401
         [("message", "Authorization header is required")]
  /\ RequireAuth test_middleware ok_handler (request [("Authorization", ["bearer x"])] 0)
     = JSON (request [("Authorization", ["bearer x"])] 0) 401
         [("message", "Authorization header is required")].
Proof.
  destruct (extractToken_first_space test_middleware) as [H1 [_ H3]].
  split; [|split].
  - apply (H1 _ "Bearer" "a b"); reflexivity.
  - apply H3. left. reflexivity.
  - apply H3. right. exists "bearer", "x". split; [reflexivity|].
    split; [discriminate | reflexivity].
Defined.

(** ** Expiry configuration *)

Lemma wrap64_id (z : Z) : - 2 ^ 63 <= z < 2 ^ 63 -> wrap64 z = z.
Proof.
  intros H. unfold wrap64.
  rewrite Z.mod_small by lia. lia.
Qed.

Lemma hours_in_range (h : Z) : 0 <= h <= 2562047 -> hours h = Hour * h.
Proof.
  intros H. unfold hours. apply wrap64_id. unfold Hour, second. lia.
Qed.

Lemma NewNumericDate_add_hours (now h : Z) :
  0 <= h <= 2562047 ->
  NewNumericDate (now + hours h) = (now / second + 3600 * h) * second.
Proof.
  intros H. rewrite hours_in_range by exact H. unfold NewNumericDate, Hour.
  f_equal. replace (now + 3600 * second * h) with (now + (3600 * h) * second) by ring.
  rewrite Z.div_add by (unfold second; lia). reflexivity.
Qed.

(** C4 (counterexample): [NewJWT] accepts an access expiry of 24 hours with a
    refresh expiry of 1 hour; two hours after issuing, the access token still
    validates while the refresh token issued with it is already rejected as
    expired. *)
Lemma NewJWT_expiry_order_counterexample :
  ~ (short_refresh_jwt.(expiryHours) < short_refresh_jwt.(refreshExpiryHours))
  /\ ValidateToken short_refresh_jwt (t0 + 2 * Hour)
       (GenerateAccessToken short_refresh_jwt test_user t0 t0 t0)
     = Ok (access_claims short_refresh_jwt test_user t0 t0 t0)
  /\ ValidateRefreshToken short_refresh_jwt (t0 + 2 * Hour)
       (GenerateRefreshToken short_refresh_jwt test_user t0 t0 t0)
     = Err (ErrTokenInvalidClaims true false).
Proof.
  split; [vm_compute; discriminate|].
  split; vm_compute; reflexivity.
Qed.

(** C4 (amended): [NewJWT] stores both expiries as given, with no relation
    checked between them. For expiries between 0 and 2562047 hours (where
    [time.Hour * time.Duration(h)] does not overflow) and tokens issued at the
    same instant, the access token's expiry is strictly before the refresh
    token's exactly when the configured access expiry is smaller than the
    refresh expiry. *)
Theorem NewJWT_expiries_as_configured (s : string) (a r : Z) :
  (NewJWT s a r).(expiryHours) = a
  /\ (NewJWT s a r).(refreshExpiryHours) = r
  /\ (forall (user : User) (now : Z),
        0 <= a <= 2562047 -> 0 <= r <= 2562047 ->
        exists ea er,
          (access_claims (NewJWT s a r) user now now now).(Registered).(ExpiresAt) = Some ea
          /\ (refresh_claims (NewJWT s a r) user now now now).(ExpiresAt) = Some er
          /\ (ea < er <-> a < r)).
Proof.
  split; [reflexivity|]. split; [reflexivity|].
  intros user now Ha Hr. cbn.
  eexists; eexists. split; [reflexivity|]. split; [reflexivity|].
  rewrite !NewNumericDate_add_hours by assumption. unfold second.
  split; intros; nia.
Qed.

Lemma NewJWT_expiries_as_configured_witness :
  exists ea er,
    (access_claims test_jwt test_user t0 t0 t0).(Registered).(ExpiresAt) = Some ea
    /\ (refresh_claims test_jwt test_user t0 t0 t0).(ExpiresAt) = Some er
    /\ (ea < er <-> 24 < 168).
Proof.
  destruct (NewJWT_expiries_as_configured "secret" 24 168) as [_ [_ H]].
  apply (H test_user t0); lia.
Defined.

(** ** Validity window *)

Lemma Validate_outside (rc : RegisteredClaims) (now : Z) :
  (exists e, rc.(ExpiresAt) = Some e /\ e <= now)
  \/ (exists n, rc.(NotBefore) = Some n /\ now < n) ->
  exists err, Validate rc now = Some err.
Proof.
  intros H. unfold Validate.
  destruct H as [(e & He & Hle) | (n & Hn & Hlt)].
  - rewrite He. replace (negb (now <? e)) with true
      by (symmetry; apply negb_true_iff, Z.ltb_ge; lia).
    eexists. reflexivity.
  - rewrite Hn. replace (now <? n) with true by (symmetry; apply Z.ltb_lt; lia).
    rewrite orb_true_r. eexists. reflexivity.
Qed.

(** C5: whatever the token and the validation instant, if the claims carried
    by the token have an expiry at or before the current time, or a
    not-before strictly after it, [ValidateToken] returns an error: no clock
    skew is tolerated, and a token whose expiry is in the past never
    validates. *)
Theorem ValidateToken_outside_window (j : JWT) (now : Z) (tokenString : string)
    (cl : Claims) :
  unverified_claims tokenString = Some cl ->
  (exists e, cl.(Registered).(ExpiresAt) = Some e /\ e <= now)
  \/ (exists n, cl.(Registered).(NotBefore) = Some n /\ now < n) ->
  exists err, ValidateToken j now tokenString = Err err.
Proof.
  intros Hu Hw. unfold ValidateToken, ParseWithClaims. unfold unverified_claims in Hu.
  destruct (ParseUnverified decode_claims tokenString)
    as [[[[[[p0 p1] p2] hdr] cl'] alg]|e]; [|discriminate].
  injection Hu as <-.
  destruct (String.eqb alg "HS256"); [|eexists; reflexivity].
  destruct (DecodeSegment p2) as [sig|]; [|eexists; reflexivity].
  destruct (Hmac.Equal sig _); [|eexists; reflexivity].
  destruct (Validate_outside (Registered cl') now Hw) as [err Herr].
  rewrite Herr. eexists. reflexivity.
Qed.

Lemma ValidateToken_outside_window_witness :
  exists err, ValidateToken test_jwt (t0 + 25 * Hour)
                (GenerateAccessToken test_jwt test_user t0 t0 t0) = Err err.
Proof.
  apply (ValidateToken_outside_window test_jwt (t0 + 25 * Hour)
           (GenerateAccessToken test_jwt test_user t0 t0 t0)
           (access_claims test_jwt test_user t0 t0 t0)).
  - vm_compute. reflexivity.
  - left. exists (NewNumericDate (t0 + hours 24)). split; [reflexivity|].
    vm_compute. discriminate.
Defined.

(** ** Signature check *)

Lemma split_dot_nodot (a : string) : has_dot a = false -> split_dot a = [a].
Proof.
  induction a as [|x a IH]; intros H; [reflexivity|].
  unfold has_dot in *. cbn in H |- *. apply orb_false_iff in H as [H1 H2].
  rewrite H1, (IH H2). reflexivity.
Qed.

Lemma split_dot_sep (a b : string) :
  has_dot a = false -> split_dot (a ++ "." ++ b) = a :: split_dot b.
Proof.
  induction a as [|x a IH]; intros H; [reflexivity|].
  unfold has_dot in *. cbn in H, IH |- *. apply orb_false_iff in H as [H1 H2].
  rewrite H1, (IH H2). reflexivity.
Qed.

Lemma split_dot_three (p0 p1 p2 : string) :
  has_dot p0 = false -> has_dot p1 = false -> has_dot p2 = false ->
  split_dot (p0 ++ "." ++ p1 ++ "." ++ p2) = [p0; p1; p2].
Proof.
  intros H0 H1 H2.
  rewrite (split_dot_sep _ _ H0), (split_dot_sep _ _ H1), (split_dot_nodot _ H2).
  reflexivity.
Qed.

(** C8 (counterexample): the signature segment of [sample_token] is 43
    base64url characters for 32 bytes, so the low two bits of its last
    character are not used; changing that character from 'c' to 'd' gives a
    different token that still validates, with the original claims. *)
Lemma signature_tamper_counterexample :
  let sig' := replace_last (segment 2 sample_token) "d" in
  let tok' := segment 0 sample_token ++ "." ++ segment 1 sample_token ++ "." ++ sig' in
  sig' <> segment 2 sample_token
  /\ tok' <> sample_token
  /\ ValidateToken test_jwt t0 tok' = Ok (access_claims test_jwt test_user t0 t0 t0).
Proof.
  cbn zeta. split; [vm_compute; discriminate|].
  split; [vm_compute; discriminate|].
  vm_compute. reflexivity.
Qed.

(** C8 (amended): take a token [p0.p1.p2] that validates. Replace its
    signature segment by [p2'], still without dots. If [p2'] decodes to
    different signature bytes, or does not decode, the new token fails
    validation at any instant. If [p2'] decodes to the same bytes, the new
    token validates exactly as the original does. *)
Theorem ValidateToken_signature_bytes (j : JWT) (now : Z) (p0 p1 p2 p2' : string)
    (cl : Claims) :
  has_dot p0 = false -> has_dot p1 = false -> has_dot p2 = false -> has_dot p2' = false ->
  ValidateToken j now (p0 ++ "." ++ p1 ++ "." ++ p2) = Ok cl ->
  (DecodeSegment p2' <> DecodeSegment p2 ->
     forall now', exists e, ValidateToken j now' (p0 ++ "." ++ p1 ++ "." ++ p2') = Err e)
  /\ (DecodeSegment p2' = DecodeSegment p2 ->
     forall now', ValidateToken j now' (p0 ++ "." ++ p1 ++ "." ++ p2')
                  = ValidateToken j now' (p0 ++ "." ++ p1 ++ "." ++ p2)).
Proof.
  intros H0 H1 H2 H2' Hok.
  unfold ValidateToken, ParseWithClaims, ParseUnverified in *.
  rewrite (split_dot_three _ _ _ H0 H1 H2) in Hok |- *.
  rewrite (split_dot_three _ _ _ H0 H1 H2').
  split.
  - intros Hne now'.
    destruct (option_map (fun hb => Json.parse hb) (DecodeSegment p0)) as [[hv|]|];
      try discriminate.
    destruct (decode_header hv) as [hdr|]; [|discriminate].
    destruct (DecodeSegment p1) as [cb|]; [|discriminate].
    destruct (option_map decode_claims (Json.parse cb)) as [[c|]|]; try discriminate.
    destruct (lookup "alg" hdr) as [v|]; [|discriminate].
    destruct v; try discriminate.
    destruct (String.eqb s "HS256"); [|discriminate].
    destruct (DecodeSegment p2) as [sig|] eqn:Hs; [|discriminate].
    destruct (Hmac.Equal sig (hmac_sha256 (secret j) (p0 ++ "." ++ p1))) eqn:He;
      [|discriminate].
    unfold Hmac.Equal in He. apply String.eqb_eq in He. subst sig.
    destruct (DecodeSegment p2') as [sig'|] eqn:Hs'; [|eexists; reflexivity].
    destruct (Hmac.Equal sig' (hmac_sha256 (secret j) (p0 ++ "." ++ p1))) eqn:He';
      [|eexists; reflexivity].
    unfold Hmac.Equal in He'. apply String.eqb_eq in He'. subst sig'. congruence.
  - intros Heq now'.
    destruct (option_map (fun hb => Json.parse hb) (DecodeSegment p0)) as [[hv|]|];
      try reflexivity.
    destruct (decode_header hv) as [hdr|]; [|reflexivity].
    destruct (DecodeSegment p1) as [cb|]; [|reflexivity].
    destruct (option_map decode_claims (Json.parse cb)) as [[c|]|]; try reflexivity.
    destruct (lookup "alg" hdr) as [v|]; [|reflexivity].
    destruct v; try reflexivity.
    rewrite Heq. reflexivity.
Qed.

Lemma ValidateToken_signature_bytes_witness :
  exists e,
    ValidateToken test_jwt t0
      (segment 0 sample_token ++ "." ++ segment 1 sample_token ++ "."
       ++ replace_first (segment 2 sample_token) "A") = Err e.
Proof.
  apply (ValidateToken_signature_bytes test_jwt t0 (segment 0 sample_token)
           (segment 1 sample_token) (segment 2 sample_token)
           (replace_first (segment 2 sample_token) "A")
           (access_claims test_jwt test_user t0 t0 t0));
    try (vm_compute; reflexivity).
  vm_compute. discriminate.
Defined.

(** ** Base64 round trip *)

Lemma bv_range (a : ascii) : 0 <= bv a < 256.
Proof. unfold bv. pose proof (nat_ascii_bounded a). lia. Qed.

Lemma chr_mod (z : Z) (a : ascii) : 0 <= z -> z mod 256 = bv a -> chr z = a.
Proof.
  intros Hz Hm. unfold chr.
  replace 255 with (Z.ones 8) by reflexivity. rewrite Z.land_ones by lia.
  change (2 ^ 8) with 256. rewrite Hm. unfold bv. rewrite Nat2Z.id.
  apply ascii_nat_embedding.
Qed.

Lemma chr_bv (a : ascii) : chr (bv a) = a.
Proof. pose proof (bv_range a). apply chr_mod; [lia|]. apply Z.mod_small. lia. Qed.

(** Powers of two with a numeral exponent, evaluated. *)
Ltac eval_pow :=
  repeat match goal with
  | |- context [(2 ^ Zpos ?p)%Z] =>
      let v := eval vm_compute in (2 ^ Zpos p)%Z in change (2 ^ Zpos p)%Z with v
  end.

(** Linear arithmetic with division and remainder by constants. *)
Ltac zlia := eval_pow; Z.to_euclidean_division_equations; lia.

Lemma lor_add (x y k : Z) : 0 <= k -> x mod 2 ^ k = 0 -> 0 <= y < 2 ^ k -> Z.lor x y = x + y.
Proof.
  intros Hk Hx Hy.
  assert (Hland : Z.land x y = 0).
  { apply Z.bits_inj'. intros n Hn. rewrite Z.land_spec, Z.bits_0.
    destruct (Z.lt_ge_cases n k).
    - rewrite <- (Z.mod_pow2_bits_low x k n) by lia. rewrite Hx, Z.bits_0. reflexivity.
    - rewrite <- (Z.mod_small y (2 ^ k)) by lia.
      rewrite Z.mod_pow2_bits_high by lia. apply andb_false_r. }
  rewrite <- Z.lxor_lor by exact Hland. rewrite <- Z.add_nocarry_lxor by exact Hland.
  reflexivity.
Qed.

Lemma lor3 (a b c : Z) : 0 <= b < 256 -> 0 <= c < 256 ->
  Z.lor (Z.lor (Z.shiftl a 16) (Z.shiftl b 8)) c = a * 65536 + b * 256 + c.
Proof.
  intros Hb Hc. rewrite !Z.shiftl_mul_pow2 by lia.
  rewrite (lor_add (a * 2 ^ 16) (b * 2 ^ 8) 16) by zlia.
  rewrite (lor_add (a * 2 ^ 16 + b * 2 ^ 8) c 8) by zlia.
  eval_pow. lia.
Qed.

Lemma lor2 (a b : Z) : 0 <= b < 256 ->
  Z.lor (Z.shiftl a 16) (Z.shiftl b 8) = a * 65536 + b * 256.
Proof.
  intros Hb. rewrite !Z.shiftl_mul_pow2 by lia.
  rewrite (lor_add (a * 2 ^ 16) (b * 2 ^ 8) 16) by zlia.
  eval_pow. lia.
Qed.

Lemma lor_sextets4 (d0 d1 d2 d3 : Z) :
  0 <= d1 < 64 -> 0 <= d2 < 64 -> 0 <= d3 < 64 ->
  Z.lor (Z.lor (Z.lor (Z.shiftl d0 18) (Z.shiftl d1 12)) (Z.shiftl d2 6)) d3
  = d0 * 262144 + d1 * 4096 + d2 * 64 + d3.
Proof.
  intros H1 H2 H3. rewrite !Z.shiftl_mul_pow2 by lia.
  rewrite (lor_add (d0 * 2 ^ 18) (d1 * 2 ^ 12) 18) by zlia.
  rewrite (lor_add (d0 * 2 ^ 18 + d1 * 2 ^ 12) (d2 * 2 ^ 6) 12) by zlia.
  rewrite (lor_add (d0 * 2 ^ 18 + d1 * 2 ^ 12 + d2 * 2 ^ 6) d3 6) by zlia.
  eval_pow. lia.
Qed.

Lemma lor_sextets3 (d0 d1 d2 : Z) :
  0 <= d1 < 64 -> 0 <= d2 < 64 ->
  Z.lor (Z.lor (Z.shiftl d0 18) (Z.shiftl d1 12)) (Z.shiftl d2 6)
  = d0 * 262144 + d1 * 4096 + d2 * 64.
Proof.
  intros H1 H2. rewrite !Z.shiftl_mul_pow2 by lia.
  rewrite (lor_add (d0 * 2 ^ 18) (d1 * 2 ^ 12) 18) by zlia.
  rewrite (lor_add (d0 * 2 ^ 18 + d1 * 2 ^ 12) (d2 * 2 ^ 6) 12) by zlia.
  eval_pow. lia.
Qed.

Lemma lor_sextets2 (d0 d1 : Z) :
  0 <= d1 < 64 ->
  Z.lor (Z.shiftl d0 18) (Z.shiftl d1 12) = d0 * 262144 + d1 * 4096.
Proof.
  intros H1. rewrite !Z.shiftl_mul_pow2 by lia.
  rewrite (lor_add (d0 * 2 ^ 18) (d1 * 2 ^ 12) 18) by zlia.
  eval_pow. lia.
Qed.

Lemma shiftr_div (x k : Z) : 0 <= k -> Z.shiftr x k = x / 2 ^ k.
Proof. intros. apply Z.shiftr_div_pow2. exact H. Qed.

Module Base64Facts.

Import Base64.

Lemma dec6_enc6_table :
  forallb (fun k => match dec6 (enc6 k) with Some d => d =? k | None => false end)
    (map Z.of_nat (seq 0 64)) = true.
Proof. vm_compute. reflexivity. Qed.

Lemma enc6_safe_table :
  forallb (fun k => negb ((bv (enc6 k) =? 10) || (bv (enc6 k) =? 13) || (bv (enc6 k) =? 46)))
    (map Z.of_nat (seq 0 64)) = true.
Proof. vm_compute. reflexivity. Qed.

Lemma in_table (k : Z) : 0 <= k < 64 -> In k (map Z.of_nat (seq 0 64)).
Proof.
  intros Hk. apply in_map_iff. exists (Z.to_nat k). split; [lia|].
  apply in_seq. lia.
Qed.

Lemma enc6_mod (v : Z) : enc6 v = enc6 (v mod 64).
Proof.
  unfold enc6. replace 63 with (Z.ones 6) by reflexivity.
  rewrite !Z.land_ones by lia. rewrite Zmod_mod. reflexivity.
Qed.

Lemma dec6_enc6 (v : Z) : dec6 (enc6 v) = Some (v mod 64).
Proof.
  rewrite enc6_mod. pose proof (Z.mod_pos_bound v 64 ltac:(lia)) as Hb.
  pose proof (proj1 (forallb_forall _ _) dec6_enc6_table _ (in_table _ Hb)) as H.
  cbv beta in H. destruct (dec6 (enc6 (v mod 64))) as [d|]; [|discriminate].
  apply Z.eqb_eq in H. subst. reflexivity.
Qed.

Lemma enc6_safe (v : Z) :
  (bv (enc6 v) =? 10) = false /\ (bv (enc6 v) =? 13) = false /\ (bv (enc6 v) =? 46) = false.
Proof.
  rewrite enc6_mod. pose proof (Z.mod_pos_bound v 64 ltac:(lia)) as Hb.
  pose proof (proj1 (forallb_forall _ _) enc6_safe_table _ (in_table _ Hb)) as H.
  cbv beta in H. apply negb_true_iff in H.
  apply orb_false_iff in H as [H H3]. apply orb_false_iff in H as [H1 H2]. auto.
Qed.

Lemma encode_three (a b c : ascii) (rest : string) :
  encode (String a (String b (String c rest)))
  = let val := bv a * 65536 + bv b * 256 + bv c in
    String (enc6 (val / 262144)) (String (enc6 (val / 4096))
      (String (enc6 (val / 64)) (String (enc6 val) (encode rest)))).
Proof.
  pose proof (bv_range b). pose proof (bv_range c).
  cbn [encode]. rewrite lor3 by assumption. rewrite !shiftr_div by lia. reflexivity.
Qed.

Lemma encode_two (a b : ascii) :
  encode (String a (String b EmptyString))
  = let val := bv a * 65536 + bv b * 256 in
    String (enc6 (val / 262144)) (String (enc6 (val / 4096))
      (String (enc6 (val / 64)) EmptyString)).
Proof.
  pose proof (bv_range b).
  cbn [encode]. rewrite lor2 by assumption. rewrite !shiftr_div by lia. reflexivity.
Qed.

Lemma encode_one (a : ascii) :
  encode (String a EmptyString)
  = String (enc6 (bv a * 65536 / 262144)) (String (enc6 (bv a * 65536 / 4096)) EmptyString).
Proof.
  cbn [encode]. rewrite Z.shiftl_mul_pow2 by lia. rewrite !shiftr_div by lia. reflexivity.
Qed.

Ltac enc6_safe_rewrite :=
  repeat match goal with |- context [bv (enc6 ?v) =? 10] =>
    destruct (enc6_safe v) as (-> & -> & _) end.

Lemma strip_newlines_encode (s : string) : strip_newlines (encode s) = encode s.
Proof.
  enough (H : forall n s, (String.length s <= n)%nat -> strip_newlines (encode s) = encode s)
    by (apply (H (String.length s)); lia).
  intros n. induction n as [|n IH]; intros s' Hl.
  { destruct s'; [reflexivity|cbn in Hl; lia]. }
  destruct s' as [|a [|b [|c rest]]]; [reflexivity| | |].
  - rewrite encode_one. cbn [strip_newlines]. enc6_safe_rewrite. reflexivity.
  - rewrite encode_two. cbn zeta. cbn [strip_newlines]. enc6_safe_rewrite. reflexivity.
  - rewrite encode_three. cbn zeta. cbn [strip_newlines]. enc6_safe_rewrite.
    cbn [orb]. rewrite IH by (cbn in Hl; lia). reflexivity.
Qed.

Lemma decode_encode (s : string) : decode_quanta (encode s) = Some s.
Proof.
  enough (H : forall n s, (String.length s <= n)%nat -> decode_quanta (encode s) = Some s)
    by (apply (H (String.length s)); lia).
  intros n. induction n as [|n IH]; intros s' Hl.
  { destruct s'; [reflexivity|cbn in Hl; lia]. }
  destruct s' as [|a [|b [|c rest]]]; [reflexivity| | |].
  - pose proof (bv_range a).
    rewrite encode_one. cbn [decode_quanta]. rewrite !dec6_enc6.
    rewrite lor_sextets2 by (apply Z.mod_pos_bound; lia).
    rewrite shiftr_div by lia. eval_pow.
    do 2 f_equal. apply chr_mod; zlia.
  - pose proof (bv_range a). pose proof (bv_range b).
    rewrite encode_two. cbn zeta. cbn [decode_quanta]. rewrite !dec6_enc6.
    rewrite lor_sextets3 by (apply Z.mod_pos_bound; lia).
    rewrite !shiftr_div by lia. eval_pow.
    do 2 f_equal; [apply chr_mod; zlia|]. f_equal. apply chr_mod; zlia.
  - pose proof (bv_range a). pose proof (bv_range b). pose proof (bv_range c).
    rewrite encode_three. cbn zeta. cbn [decode_quanta]. rewrite !dec6_enc6.
    rewrite lor_sextets4 by (apply Z.mod_pos_bound; lia).
    rewrite IH by (cbn in Hl; lia).
    rewrite !shiftr_div by lia. eval_pow.
    f_equal. f_equal; [apply chr_mod; zlia|]. f_equal; [apply chr_mod; zlia|].
    f_equal. apply chr_mod; zlia.
Qed.

Lemma encode_no_dot (s : string) : Spec.has_dot (encode s) = false.
Proof.
  enough (H : forall n s, (String.length s <= n)%nat -> Spec.has_dot (encode s) = false)
    by (apply (H (String.length s)); lia).
  unfold Spec.has_dot.
  intros n. induction n as [|n IH]; intros s' Hl.
  { destruct s'; [reflexivity|cbn in Hl; lia]. }
  destruct s' as [|a [|b [|c rest]]]; [reflexivity| | |].
  - rewrite encode_one. cbn.
    repeat match goal with |- context [bv (enc6 ?v) =? 46] =>
      destruct (enc6_safe v) as (_ & _ & ->) end. reflexivity.
  - rewrite encode_two. cbn zeta. cbn [list_ascii_of_string existsb].
    repeat match goal with |- context [bv (enc6 ?v) =? 46] =>
      destruct (enc6_safe v) as (_ & _ & ->) end. reflexivity.
  - rewrite encode_three. cbn zeta. cbn [list_ascii_of_string existsb].
    repeat match goal with |- context [bv (enc6 ?v) =? 46] =>
      destruct (enc6_safe v) as (_ & _ & ->) end.
    apply IH. cbn in Hl. lia.
Qed.

Lemma DecodeString_EncodeToString (s : string) : DecodeString (EncodeToString s) = Some s.
Proof.
  unfold DecodeString, EncodeToString. rewrite strip_newlines_encode. apply decode_encode.
Qed.

End Base64Facts.

(** ** UTF-8 *)

(** Case analysis on the integer comparisons of the goal, discarding the
    branches that contradict the hypotheses. *)
Ltac zbool :=
  repeat (
    match goal with
    | |- context [(?a <? ?b)] => destruct (Z.ltb_spec a b)
    | |- context [(?a <=? ?b)] => destruct (Z.leb_spec a b)
    | |- context [(?a =? ?b)] => destruct (Z.eqb_spec a b)
    end;
    cbv beta iota zeta delta [andb orb negb Nat.leb] ;
    try (exfalso; zlia)).

Lemma land63 (x : Z) : Z.land x 63 = x mod 64.
Proof. replace 63 with (Z.ones 6) by reflexivity. rewrite Z.land_ones by lia. reflexivity. Qed.
Lemma land31 (x : Z) : Z.land x 31 = x mod 32.
Proof. replace 31 with (Z.ones 5) by reflexivity. rewrite Z.land_ones by lia. reflexivity. Qed.
Lemma land15 (x : Z) : Z.land x 15 = x mod 16.
Proof. replace 15 with (Z.ones 4) by reflexivity. rewrite Z.land_ones by lia. reflexivity. Qed.
Lemma land7 (x : Z) : Z.land x 7 = x mod 8.
Proof. replace 7 with (Z.ones 3) by reflexivity. rewrite Z.land_ones by lia. reflexivity. Qed.

Lemma lor_rune2 (a b : Z) : 0 <= b < 64 -> Z.lor (Z.shiftl a 6) b = a * 64 + b.
Proof.
  intros Hb. rewrite Z.shiftl_mul_pow2 by lia.
  rewrite (lor_add (a * 2 ^ 6) b 6) by zlia. eval_pow. lia.
Qed.

Lemma lor_rune3 (a b c : Z) : 0 <= b < 64 -> 0 <= c < 64 ->
  Z.lor (Z.lor (Z.shiftl a 12) (Z.shiftl b 6)) c = a * 4096 + b * 64 + c.
Proof.
  intros Hb Hc. rewrite !Z.shiftl_mul_pow2 by lia.
  rewrite (lor_add (a * 2 ^ 12) (b * 2 ^ 6) 12) by zlia.
  rewrite (lor_add (a * 2 ^ 12 + b * 2 ^ 6) c 6) by zlia.
  eval_pow. lia.
Qed.

Module Utf8Facts.

Import Utf8.

Ltac byte_ranges :=
  repeat match goal with
  | H : byte_in _ _ _ = true |- _ =>
      unfold byte_in in H; apply andb_true_iff in H as [?%Z.leb_le ?%Z.leb_le]
  end.

Ltac rune_arith :=
  rewrite ?land63, ?land31, ?land15, ?land7;
  rewrite ?lor_sextets4, ?lor_rune3, ?lor_rune2 by zlia.

Lemma DecodeRune_2 (c0 c1 : ascii) (t : string) :
  0xC2 <= bv c0 <= 0xDF -> 0x80 <= bv c1 <= 0xBF ->
  DecodeRune (String c0 (String c1 t)) = ((bv c0 - 0xC0) * 64 + (bv c1 - 0x80), 2%nat).
Proof.
  intros H0 H1. unfold DecodeRune, first, byte_in. zbool.
  rune_arith. f_equal. zlia.
Qed.

Lemma DecodeRune_3 (c0 c1 c2 : ascii) (t : string) (lo hi : Z) :
  first (bv c0) = Some (3%nat, lo, hi) -> lo <= bv c1 <= hi -> 0x80 <= bv c2 <= 0xBF ->
  DecodeRune (String c0 (String c1 (String c2 t)))
  = ((bv c0 - 0xE0) * 4096 + (bv c1 - 0x80) * 64 + (bv c2 - 0x80), 3%nat).
Proof.
  intros Hf H1 H2. unfold DecodeRune.
  assert (0xE0 <= bv c0 <= 0xEF /\ 0x80 <= lo /\ hi <= 0xBF) as (H0 & Hlo & Hhi).
  { unfold first in Hf. revert Hf. zbool; intros Hf; inversion Hf; lia. }
  cbv zeta. rewrite Hf. unfold byte_in. zbool.
  rune_arith. f_equal. zlia.
Qed.

Lemma DecodeRune_4 (c0 c1 c2 c3 : ascii) (t : string) (lo hi : Z) :
  first (bv c0) = Some (4%nat, lo, hi) -> lo <= bv c1 <= hi -> 0x80 <= bv c2 <= 0xBF ->
  0x80 <= bv c3 <= 0xBF ->
  DecodeRune (String c0 (String c1 (String c2 (String c3 t))))
  = ((bv c0 - 0xF0) * 262144 + (bv c1 - 0x80) * 4096 + (bv c2 - 0x80) * 64 + (bv c3 - 0x80),
     4%nat).
Proof.
  intros Hf H1 H2 H3. unfold DecodeRune.
  assert (0xF0 <= bv c0 <= 0xF4 /\ 0x80 <= lo /\ hi <= 0xBF) as (H0 & Hlo & Hhi).
  { unfold first in Hf. revert Hf. zbool; intros Hf; inversion Hf; lia. }
  cbv zeta. rewrite Hf. unfold byte_in. zbool.
  rune_arith. f_equal. zlia.
Qed.

Ltac lor_consts :=
  repeat match goal with
  | |- context [Z.lor 128 ?x] => rewrite (lor_add 128 x 6) by zlia
  | |- context [Z.lor 192 ?x] => rewrite (lor_add 192 x 6) by zlia
  | |- context [Z.lor 224 ?x] => rewrite (lor_add 224 x 4) by zlia
  | |- context [Z.lor 240 ?x] => rewrite (lor_add 240 x 3) by zlia
  end.

Lemma EncodeRune_2 (c0 c1 : ascii) :
  0xC2 <= bv c0 <= 0xDF -> 0x80 <= bv c1 <= 0xBF ->
  EncodeRune ((bv c0 - 0xC0) * 64 + (bv c1 - 0x80)) = String c0 (String c1 EmptyString).
Proof.
  intros H0 H1. unfold EncodeRune, byte_in, MaxRune, RuneError. zbool.
  rewrite ?land63, ?shiftr_div by lia. eval_pow. lor_consts.
  f_equal; [|f_equal]; apply chr_mod; zlia.
Qed.

Lemma EncodeRune_3 (c0 c1 c2 : ascii) (lo hi : Z) :
  first (bv c0) = Some (3%nat, lo, hi) -> lo <= bv c1 <= hi -> 0x80 <= bv c2 <= 0xBF ->
  EncodeRune ((bv c0 - 0xE0) * 4096 + (bv c1 - 0x80) * 64 + (bv c2 - 0x80))
  = String c0 (String c1 (String c2 EmptyString)).
Proof.
  intros Hf H1 H2.
  assert (0xE0 <= bv c0 <= 0xEF /\ (bv c0 = 0xE0 -> 0xA0 <= lo) /\ (bv c0 = 0xED -> hi <= 0x9F)
          /\ 0x80 <= lo /\ hi <= 0xBF) as (H0 & HE0 & HED & Hlo & Hhi).
  { unfold first in Hf. revert Hf. zbool; intros Hf; inversion Hf; lia. }
  unfold EncodeRune, byte_in, MaxRune, RuneError. zbool.
  all: rewrite ?land63, ?shiftr_div by lia; eval_pow; lor_consts.
  all: f_equal; [|f_equal; [|f_equal]]; apply chr_mod; zlia.
Qed.

Lemma EncodeRune_4 (c0 c1 c2 c3 : ascii) (lo hi : Z) :
  first (bv c0) = Some (4%nat, lo, hi) -> lo <= bv c1 <= hi -> 0x80 <= bv c2 <= 0xBF ->
  0x80 <= bv c3 <= 0xBF ->
  EncodeRune ((bv c0 - 0xF0) * 262144 + (bv c1 - 0x80) * 4096 + (bv c2 - 0x80) * 64
              + (bv c3 - 0x80))
  = String c0 (String c1 (String c2 (String c3 EmptyString))).
Proof.
  intros Hf H1 H2 H3.
  assert (0xF0 <= bv c0 <= 0xF4 /\ (bv c0 = 0xF0 -> 0x90 <= lo) /\ (bv c0 = 0xF4 -> hi <= 0x8F)
          /\ 0x80 <= lo /\ hi <= 0xBF) as (H0 & HF0 & HF4 & Hlo & Hhi).
  { unfold first in Hf. revert Hf. zbool; intros Hf; inversion Hf; lia. }
  unfold EncodeRune, byte_in, MaxRune, RuneError. zbool.
  all: rewrite ?land63, ?shiftr_div by lia; eval_pow; lor_consts.
  all: f_equal; [|f_equal; [|f_equal; [|f_equal]]]; apply chr_mod; zlia.
Qed.

End Utf8Facts.

(** ** JSON strings *)

Lemma str_app_assoc (a b c : string) : (a ++ b) ++ c = a ++ (b ++ c).
Proof. induction a as [|x a IH]; cbn; [reflexivity|]. rewrite IH. reflexivity. Qed.

Lemma str_app_nil (a : string) : a ++ EmptyString = a.
Proof. induction a as [|x a IH]; cbn; [reflexivity|]. rewrite IH. reflexivity. Qed.

Lemma str_length_app (a b : string) :
  String.length (a ++ b) = (String.length a + String.length b)%nat.
Proof. induction a as [|x a IH]; cbn; [reflexivity|]. rewrite IH. reflexivity. Qed.

Module JsonStringFacts.

Import Json.

Lemma scan_ascii (c : ascii) (X : string) :
  bv c < 0x80 ->
  scan_string ((if htmlSafe (bv c) then String c EmptyString else escape_ascii (bv c)) ++ X)
  = match scan_string X with
    | Some (b, r) =>
        Some ((if htmlSafe (bv c) then String c EmptyString else escape_ascii (bv c)) ++ b, r)
    | None => None
    end.
Proof.
  intros H. destruct c as [[] [] [] [] [] [] [] []]; unfold bv in H; simpl in H; try lia;
    unfold htmlSafe, escape_ascii, hexdigit, bv; simpl;
    destruct (scan_string X) as [[]|]; reflexivity.
Qed.

Lemma unquote_ascii (c : ascii) (f : nat) (X : string) :
  bv c < 0x80 ->
  unquote_body (S f) ((if htmlSafe (bv c) then String c EmptyString else escape_ascii (bv c)) ++ X)
  = prepend (String c EmptyString) (unquote_body f X).
Proof.
  intros H. destruct c as [[] [] [] [] [] [] [] []]; unfold bv in H; simpl in H; try lia;
    unfold htmlSafe, escape_ascii, hexdigit, bv; simpl; reflexivity.
Qed.

Lemma chunk_nonempty (b : Z) (c : ascii) :
  exists a t, (if htmlSafe b then String c EmptyString else escape_ascii b) = String a t.
Proof.
  destruct (htmlSafe b); [eauto|]. unfold escape_ascii.
  repeat match goal with |- context [if ?x then _ else _] => destruct x end; eauto.
Qed.

Lemma scan_high (c : ascii) (X : string) :
  0x80 <= bv c ->
  scan_string (String c X)
  = match scan_string X with Some (b, r) => Some (String c b, r) | None => None end.
Proof.
  intros H. cbn [scan_string]. zbool. reflexivity.
Qed.

Lemma scan_raw (p X : string) :
  (forall i a, String.get i p = Some a -> 0x80 <= bv a) ->
  scan_string (p ++ X)
  = match scan_string X with Some (b, r) => Some (p ++ b, r) | None => None end.
Proof.
  induction p as [|a p IH]; intros Hp; cbn [append].
  - destruct (scan_string X) as [[]|]; reflexivity.
  - rewrite scan_high by exact (Hp 0%nat a eq_refl).
    rewrite IH by (intros i b Hb; exact (Hp (S i) b Hb)).
    destruct (scan_string X) as [[]|]; reflexivity.
Qed.

Lemma prepend_some (p t : string) : prepend p (Some t) = Some (p ++ t).
Proof. reflexivity. Qed.

Lemma unquote_high (c : ascii) (X : string) (f : nat) (rn : Z) (size : nat) :
  0x80 <= bv c ->
  Utf8.DecodeRune (String c X) = (rn, size) ->
  unquote_body (S f) (String c X)
  = prepend (Utf8.EncodeRune rn) (unquote_body f (drop size (String c X))).
Proof.
  intros H Hd. cbn [unquote_body]. zbool. rewrite Hd. reflexivity.
Qed.

Lemma quote_body_ascii (n : nat) (c : ascii) (r : string) :
  bv c < 0x80 ->
  quote_body (S n) (String c r)
  = (if htmlSafe (bv c) then String c EmptyString else escape_ascii (bv c)) ++ quote_body n r.
Proof.
  intros H. cbn [quote_body]. zbool. reflexivity.
Qed.

Lemma quote_body_high (n : nat) (s : string) (rn : Z) (size : nat) :
  (exists c r, s = String c r /\ 0x80 <= bv c) ->
  Utf8.DecodeRune (take 4 s) = (rn, size) ->
  (size <> 1)%nat ->
  quote_body (S n) s
  = if (rn =? 0x2028) || (rn =? 0x2029) then
      String backslash (String "u" (String "2" (String "0" (String "2"
        (String (hexdigit rn) EmptyString))))) ++ quote_body n (drop size s)
    else take size s ++ quote_body n (drop size s).
Proof.
  intros (c & r & -> & H) Hd Hs. cbn [quote_body].
  replace (bv c <? 128) with false by (symmetry; apply Z.ltb_ge; lia).
  rewrite Hd. replace ((size =? 1)%nat) with false by (symmetry; apply Nat.eqb_neq; exact Hs).
  rewrite andb_false_r. reflexivity.
Qed.

End JsonStringFacts.

(** ** JSON round trip of the claims *)

Module JsonRoundTrip.

Import Json JsonStringFacts Utf8Facts.
Import Bytes Json JsonStringFacts Utf8Facts.

Lemma orb_eqb_false (x a b : Z) : x <> a -> x <> b -> (x =? a) || (x =? b) = false.
Proof. intros. apply orb_false_iff. split; apply Z.eqb_neq; assumption. Qed.

Lemma first3_range (p lo hi : Z) :
  Utf8.first p = Some (3%nat, lo, hi) -> 0xE0 <= p <= 0xEF /\ 0x80 <= lo /\ hi <= 0xBF.
Proof. unfold Utf8.first. zbool; intros Hf; inversion Hf; lia. Qed.

Lemma first4_range (p lo hi : Z) :
  Utf8.first p = Some (4%nat, lo, hi) ->
  0xF0 <= p <= 0xF4 /\ 0x80 <= lo /\ hi <= 0xBF /\ (p = 0xF0 -> 0x90 <= lo).
Proof. unfold Utf8.first. zbool; intros Hf; inversion Hf; lia. Qed.

Lemma scan_sep_escape (rn : Z) (X : string) :
  rn = 0x2028 \/ rn = 0x2029 ->
  scan_string (String backslash (String "u" (String "2" (String "0" (String "2"
                 (String (hexdigit rn) EmptyString))))) ++ X)
  = match scan_string X with
    | Some (b, r) => Some (String backslash (String "u" (String "2" (String "0" (String "2"
                            (String (hexdigit rn) EmptyString))))) ++ b, r)
    | None => None
    end.
Proof.
  intros [-> | ->]; simpl; destruct (scan_string X) as [[]|]; reflexivity.
Qed.

Lemma unquote_sep_escape (rn : Z) (f : nat) (X : string) :
  rn = 0x2028 \/ rn = 0x2029 ->
  unquote_body (S f) (String backslash (String "u" (String "2" (String "0" (String "2"
                 (String (hexdigit rn) EmptyString))))) ++ X)
  = prepend (Utf8.EncodeRune rn) (unquote_body f X).
Proof.
  intros [-> | ->]; reflexivity.
Qed.

Lemma quote_roundtrip (s : string) :
  Utf8.Valid s -> forall n, (String.length s <= n)%nat ->
  (forall rest, scan_string (quote_body n s ++ String quote rest) = Some (quote_body n s, rest))
  /\ (forall m, (String.length s < m)%nat -> unquote_body m (quote_body n s) = Some s)
  /\ (String.length s <= String.length (quote_body n s))%nat.
Proof.
  induction 1 as [|c s Hc Hv IH|c0 c1 s H0 H1 Hv IH|c0 c1 c2 s lo hi Hf H1 H2 Hv IH
                 |c0 c1 c2 c3 s lo hi Hf H1 H2 H3 Hv IH]; intros n Hn.
  - assert (Hq : quote_body n EmptyString = EmptyString) by (destruct n; reflexivity).
    rewrite Hq. split; [|split].
    + intros rest. reflexivity.
    + intros m Hm. destruct m; [cbn in Hm; lia|reflexivity].
    + cbn. lia.
  - destruct n as [|n']; [cbn in Hn; lia|].
    destruct (IH n' ltac:(cbn in Hn; lia)) as (IHs & IHu & IHl).
    rewrite quote_body_ascii by exact Hc. split; [|split].
    + intros rest. rewrite str_app_assoc, scan_ascii by exact Hc. rewrite IHs. reflexivity.
    + intros m Hm. destruct m as [|m']; [lia|].
      rewrite unquote_ascii by exact Hc. rewrite IHu by (cbn in Hm; lia). reflexivity.
    + rewrite str_length_app. destruct (chunk_nonempty (bv c) c) as (a & t & ->). cbn. lia.
  - byte_ranges. destruct n as [|n']; [cbn in Hn; lia|].
    destruct (IH n' ltac:(cbn in Hn; lia)) as (IHs & IHu & IHl).
    set (rn := (bv c0 - 0xC0) * 64 + (bv c1 - 0x80)).
    rewrite (quote_body_high n' (String c0 (String c1 s)) rn 2);
      [| exists c0, (String c1 s); split; [reflexivity|lia]
       | cbn [take]; apply DecodeRune_2; lia | lia].
    rewrite orb_eqb_false by (unfold rn; lia). cbn [take drop append].
    split; [|split].
    + intros rest. rewrite (scan_high c0) by lia. rewrite (scan_high c1) by lia.
      rewrite IHs. reflexivity.
    + intros m Hm. destruct m as [|m']; [lia|].
      rewrite (unquote_high c0 _ m' rn 2) by (try apply DecodeRune_2; lia).
      unfold rn. rewrite EncodeRune_2 by lia. cbn [drop]. rewrite IHu by (cbn in Hm; lia).
      reflexivity.
    + cbn. lia.
  - byte_ranges. apply first3_range in Hf as Hr. destruct n as [|n']; [cbn in Hn; lia|].
    destruct (IH n' ltac:(cbn in Hn; lia)) as (IHs & IHu & IHl).
    set (rn := (bv c0 - 0xE0) * 4096 + (bv c1 - 0x80) * 64 + (bv c2 - 0x80)).
    assert (Hd : forall t, Utf8.DecodeRune (String c0 (String c1 (String c2 t))) = (rn, 3%nat))
      by (intros t; apply (DecodeRune_3 c0 c1 c2 t lo hi); auto).
    assert (He : Utf8.EncodeRune rn = String c0 (String c1 (String c2 EmptyString)))
      by (apply (EncodeRune_3 c0 c1 c2 lo hi); auto).
    rewrite (quote_body_high n' (String c0 (String c1 (String c2 s))) rn 3);
      [| exists c0, (String c1 (String c2 s)); split; [reflexivity|lia]
       | cbn [take]; apply Hd | lia].
    destruct ((rn =? 0x2028) || (rn =? 0x2029)) eqn:E.
    + assert (Hsep : rn = 0x2028 \/ rn = 0x2029)
        by (apply orb_true_iff in E as [E|E]; apply Z.eqb_eq in E; auto).
      cbn [drop]. split; [|split].
      * intros rest. rewrite str_app_assoc, scan_sep_escape by exact Hsep.
        rewrite IHs. reflexivity.
      * intros m Hm. destruct m as [|m']; [lia|].
        rewrite unquote_sep_escape by exact Hsep. rewrite He.
        rewrite IHu by (cbn in Hm; lia). reflexivity.
      * rewrite str_length_app. cbn. lia.
    + cbn [take drop append]. split; [|split].
      * intros rest. rewrite (scan_high c0) by lia. rewrite (scan_high c1) by lia.
        rewrite (scan_high c2) by lia. rewrite IHs. reflexivity.
      * intros m Hm. destruct m as [|m']; [lia|].
        rewrite (unquote_high c0 _ m' rn 3) by (try apply Hd; lia).
        rewrite He. cbn [drop]. rewrite IHu by (cbn in Hm; lia). reflexivity.
      * cbn. lia.
  - byte_ranges. apply first4_range in Hf as Hr. destruct n as [|n']; [cbn in Hn; lia|].
    destruct (IH n' ltac:(cbn in Hn; lia)) as (IHs & IHu & IHl).
    set (rn := (bv c0 - 0xF0) * 262144 + (bv c1 - 0x80) * 4096 + (bv c2 - 0x80) * 64
               + (bv c3 - 0x80)).
    assert (Hd : forall t, Utf8.DecodeRune (String c0 (String c1 (String c2 (String c3 t))))
                           = (rn, 4%nat))
      by (intros t; apply (DecodeRune_4 c0 c1 c2 c3 t lo hi); auto).
    assert (He : Utf8.EncodeRune rn = String c0 (String c1 (String c2 (String c3 EmptyString))))
      by (apply (EncodeRune_4 c0 c1 c2 c3 lo hi); auto).
    rewrite (quote_body_high n' (String c0 (String c1 (String c2 (String c3 s)))) rn 4);
      [| exists c0, (String c1 (String c2 (String c3 s))); split; [reflexivity|lia]
       | cbn [take]; apply Hd | lia].
    rewrite orb_eqb_false by (unfold rn; lia). cbn [take drop append].
    split; [|split].
    + intros rest. rewrite (scan_high c0) by lia. rewrite (scan_high c1) by lia.
      rewrite (scan_high c2) by lia. rewrite (scan_high c3) by lia.
      rewrite IHs. reflexivity.
    + intros m Hm. destruct m as [|m']; [lia|].
      rewrite (unquote_high c0 _ m' rn 4) by (try apply Hd; lia).
      rewrite He. cbn [drop]. rewrite IHu by (cbn in Hm; lia). reflexivity.
    + cbn. lia.
Qed.

Import Bytes Json.


Lemma bv_digit (d : Z) : 0 <= d < 10 -> bv (digit d) = 48 + d.
Proof.
  intros H. unfold bv, digit. rewrite nat_ascii_embedding by lia. lia.
Qed.

Lemma all_digits_cons (c : ascii) (d : string) :
  all_digits (String c d) <-> is_digit c = true /\ all_digits d.
Proof.
  split.
  - intros H. split; [apply (H 0%nat); reflexivity|]. intros i a Ha. apply (H (S i)). exact Ha.
  - intros [Hc Hd] [|i] a Ha; cbn in Ha; [congruence|]. exact (Hd i a Ha).
Qed.

Lemma all_digits_app (d1 d2 : string) :
  all_digits d1 -> all_digits d2 -> all_digits (d1 ++ d2).
Proof.
  induction d1 as [|c d1 IH]; intros H1 H2; [exact H2|].
  apply all_digits_cons in H1 as [Hc H1]. cbn. apply all_digits_cons. auto.
Qed.

Lemma scan_digits_app (d X : string) :
  all_digits d ->
  scan_digits (d ++ X) = let (d2, r) := scan_digits X in (d ++ d2, r).
Proof.
  induction d as [|c d IH]; intros H.
  - cbn. destruct (scan_digits X). reflexivity.
  - apply all_digits_cons in H as [Hc H]. cbn. rewrite Hc, (IH H).
    destruct (scan_digits X). reflexivity.
Qed.

Lemma digits_value_app (d1 d2 : string) (acc : Z) :
  digits_value (d1 ++ d2) acc = digits_value d2 (digits_value d1 acc).
Proof. revert acc. induction d1 as [|c d1 IH]; intros acc; [reflexivity|]. apply IH. Qed.

Lemma utoa_spec (k : nat) (n : Z) (acc : string) :
  0 <= n < 2 ^ Z.of_nat (S k) ->
  exists c d, utoa (S k) n acc = String c d ++ acc /\ all_digits (String c d)
    /\ digits_value (String c d) 0 = n
    /\ ((n = 0 /\ d = EmptyString /\ bv c = 48) \/ (1 <= n /\ byte_in 49 57 (bv c) = true)).
Proof.
  revert n acc. induction k as [|k IH]; intros n acc Hn.
  - replace (2 ^ Z.of_nat 1) with 2 in Hn by reflexivity. cbn [utoa]. replace (n <? 10) with true by (symmetry; apply Z.ltb_lt; lia).
    exists (digit n), EmptyString. split; [reflexivity|]. split.
    + intros [|i] a Ha; cbn in Ha; [|discriminate]. injection Ha as <-.
      unfold is_digit, byte_in. rewrite bv_digit by lia. apply andb_true_iff; split; apply Z.leb_le; lia.
    + split; [cbn; rewrite bv_digit by lia; lia|].
      unfold byte_in. rewrite bv_digit by lia.
      destruct (Z.eq_dec n 0); [left; split; [lia|split; [reflexivity|lia]]|right]. split; [lia|].
      apply andb_true_iff; split; apply Z.leb_le; lia.
  - change (utoa (S (S k)) n acc) with
      (if n <? 10 then String (digit n) acc else utoa (S k) (n / 10) (String (digit (n mod 10)) acc)).
    destruct (Z.ltb_spec n 10) as [Hlt|Hge].
    + exists (digit n), EmptyString. split; [reflexivity|]. split.
      * intros [|i] a Ha; cbn in Ha; [|discriminate]. injection Ha as <-.
        unfold is_digit, byte_in. rewrite bv_digit by lia.
        apply andb_true_iff; split; apply Z.leb_le; lia.
      * split; [cbn; rewrite bv_digit by lia; lia|].
        unfold byte_in. rewrite bv_digit by lia.
        destruct (Z.eq_dec n 0); [left; split; [lia|split; [reflexivity|lia]]|right]. split; [lia|].
        apply andb_true_iff; split; apply Z.leb_le; lia.
    + assert (Hp : 2 ^ Z.of_nat (S (S k)) = 2 * 2 ^ Z.of_nat (S k))
        by (rewrite Nat2Z.inj_succ, Z.pow_succ_r by lia; reflexivity).
      pose proof (Z.pow_pos_nonneg 2 (Z.of_nat (S k)) ltac:(lia) ltac:(lia)).
      destruct (IH (n / 10) (String (digit (n mod 10)) acc)) as (c & d & Hu & Hd & Hv & Hc).
      { split; [apply Z.div_pos; lia|]. rewrite Hp in Hn. zlia. }
      exists c, (d ++ String (digit (n mod 10)) EmptyString).
      split; [rewrite Hu; cbn; rewrite str_app_assoc; reflexivity|].
      pose proof (Z.mod_pos_bound n 10 ltac:(lia)).
      split; [|split].
      * change (String c (d ++ String (digit (n mod 10)) EmptyString))
          with (String c d ++ String (digit (n mod 10)) EmptyString).
        apply all_digits_app; [exact Hd|].
        intros [|i] a Ha; cbn in Ha; [|destruct i; discriminate]. injection Ha as <-.
        unfold is_digit, byte_in. rewrite bv_digit by lia.
        apply andb_true_iff; split; apply Z.leb_le; lia.
      * change (String c (d ++ String (digit (n mod 10)) EmptyString))
          with (String c d ++ String (digit (n mod 10)) EmptyString).
        rewrite digits_value_app, Hv. cbn. rewrite bv_digit by lia. zlia.
      * right. split; [lia|]. destruct Hc as [(Hz & _) | (_ & Hc)]; [zlia|exact Hc].
Qed.

Lemma FormatInt_spec (n : Z) :
  0 <= n ->
  exists c d, FormatInt n = String c d /\ all_digits (String c d)
    /\ digits_value (String c d) 0 = n
    /\ ((n = 0 /\ d = EmptyString /\ bv c = 48) \/ (1 <= n /\ byte_in 49 57 (bv c) = true)).
Proof.
  intros Hn. unfold FormatInt. replace (n <? 0) with false by (symmetry; apply Z.ltb_ge; lia).
  destruct (utoa_spec (Z.to_nat (Z.log2 n)) n EmptyString) as (c & d & Hu & H).
  { split; [lia|]. rewrite Nat2Z.inj_succ, Z2Nat.id by (apply Z.log2_nonneg).
    destruct (Z.eq_dec n 0) as [->|]; [cbn; lia|]. apply Z.log2_spec. lia. }
  exists c, d. rewrite Hu, str_app_nil. auto.
Qed.

Lemma bv_c_digit_range (c : ascii) (d : string) :
  all_digits (String c d) -> 48 <= bv c <= 57.
Proof.
  intros H. pose proof (H 0%nat c eq_refl) as Hc. unfold is_digit, byte_in in Hc.
  apply andb_true_iff in Hc as [H1 H2]. apply Z.leb_le in H1, H2. lia.
Qed.

Lemma scan_number_FormatInt (n : Z) (c : ascii) (r : string) :
  0 <= n -> is_digit c = false -> bv c <> 46 -> bv c <> 101 -> bv c <> 69 ->
  scan_number (FormatInt n ++ String c r) = Some (FormatInt n, String c r).
Proof.
  intros Hn Hdig H46 H101 H69.
  destruct (FormatInt_spec n Hn) as (c0 & d & He & Hd & _ & Hc). rewrite He.
  pose proof (bv_c_digit_range c0 d Hd) as Hr.
  apply all_digits_cons in Hd as [_ Hd].
  unfold scan_number. cbn [append scan_sign].
  replace (bv c0 =? 45) with false by (symmetry; apply Z.eqb_neq; lia).
  assert (Hf : scan_frac (String c r) = Some (EmptyString, String c r))
    by (cbn; replace (bv c =? 46) with false by (symmetry; apply Z.eqb_neq; lia); reflexivity).
  assert (Hx : scan_exp (String c r) = Some (EmptyString, String c r))
    by (cbn; replace (bv c =? 101) with false by (symmetry; apply Z.eqb_neq; lia);
        replace (bv c =? 69) with false by (symmetry; apply Z.eqb_neq; lia); reflexivity).
  destruct Hc as [(_ & -> & H48) | (_ & Hb)].
  - cbn [append scan_int]. rewrite H48. cbn [Z.eqb Pos.eqb]. rewrite Hf, Hx. reflexivity.
  - cbn [scan_int]. replace (bv c0 =? 48) with false by
      (symmetry; apply Z.eqb_neq; intros E; rewrite E in Hb; discriminate).
    rewrite Hb, (scan_digits_app d _ Hd). cbn [scan_digits]. rewrite Hdig.
    rewrite Hf, Hx. cbn [append]. rewrite !str_app_nil. reflexivity.
Qed.

Lemma numeric_date_of_FormatInt (n : Z) :
  0 <= n < 2 ^ 1024 -> numeric_date_of (FormatInt n) = Some (n * 1000000000).
Proof.
  intros Hn.
  destruct (FormatInt_spec n ltac:(lia)) as (c0 & d & He & Hd & Hv & Hc). rewrite He.
  pose proof (bv_c_digit_range c0 d Hd) as Hr.
  apply all_digits_cons in Hd as [_ Hd].
  unfold numeric_date_of, number_value. cbn [scan_sign].
  replace (bv c0 =? 45) with false by (symmetry; apply Z.eqb_neq; lia).
  destruct Hc as [(-> & -> & H48) | (_ & Hb)].
  - cbn [scan_int]. rewrite H48. cbn [Z.eqb Pos.eqb scan_frac scan_exp String.eqb append].
    change (digits_value (String c0 EmptyString) 0) with (digits_value (String c0 EmptyString) 0).
    rewrite Hv. reflexivity.
  - cbn [scan_int]. replace (bv c0 =? 48) with false by
      (symmetry; apply Z.eqb_neq; intros E; rewrite E in Hb; discriminate).
    rewrite Hb. pose proof (scan_digits_app d EmptyString Hd) as Hs.
    rewrite str_app_nil in Hs. rewrite Hs. cbn [scan_digits scan_frac scan_exp String.eqb].
    rewrite str_app_nil, str_app_nil, Hv. cbn -[Z.pow].
    rewrite Z.pow_0_r, !Z.mul_1_r.
    replace (Z.abs n <? 2 ^ 1024) with true by (symmetry; apply Z.ltb_lt; lia).
    reflexivity.
Qed.

Import Bytes Json JsonStringFacts Utf8Facts.



Lemma appendString_cons (t X : string) :
  appendString t ++ X = String quote (quote_body (String.length t) t ++ String quote X).
Proof. unfold appendString. cbn [append]. rewrite str_app_assoc. reflexivity. Qed.

Lemma parse_value_string (t X : string) (f : nat) :
  Utf8.Valid t -> parse_value (S f) (appendString t ++ X) = Some (JString t, X).
Proof.
  intros Hv. rewrite appendString_cons.
  destruct (quote_roundtrip t Hv (String.length t) (le_n _)) as (Hs & Hu & Hl).
  cbn [parse_value skip_ws]. change (is_ws quote) with false. cbn iota.
  change (bv quote) with 34. cbn [Z.eqb Pos.eqb].
  rewrite Hs. unfold unquote. rewrite Hu by lia. reflexivity.
Qed.

Lemma prefix_digit (w : string) (c : ascii) (r : string) :
  48 <= bv c <= 57 -> (forall a w', w = String a w' -> bv a > 57) ->
  String.prefix w (String c r) = (if w then true else false).
Proof.
  intros Hc Hw. destruct w as [|a w']; [reflexivity|]. cbn.
  destruct (ascii_dec a c) as [<-|]; [|reflexivity].
  specialize (Hw a w' eq_refl). lia.
Qed.

Lemma parse_value_number (n : Z) (f : nat) (c : ascii) (r : string) :
  0 <= n -> bv c = 44 \/ bv c = 125 ->
  parse_value (S f) (FormatInt n ++ String c r) = Some (JNumber (FormatInt n), String c r).
Proof.
  intros Hn Hc.
  assert (Hsn : scan_number (FormatInt n ++ String c r) = Some (FormatInt n, String c r)).
  { apply scan_number_FormatInt; [exact Hn| |lia|lia|lia].
    unfold is_digit, byte_in. destruct Hc as [E|E]; rewrite E; reflexivity. }
  destruct (FormatInt_spec n Hn) as (c0 & d & He & Hd & _ & _).
  pose proof (bv_c_digit_range c0 d Hd) as Hr.
  rewrite He in Hsn |- *. cbn [append parse_value skip_ws].
  replace (is_ws c0) with false by
    (symmetry; unfold is_ws; repeat rewrite orb_false_iff; repeat split; apply Z.eqb_neq; lia).
  replace (bv c0 =? 123) with false by (symmetry; apply Z.eqb_neq; lia).
  replace (bv c0 =? 91) with false by (symmetry; apply Z.eqb_neq; lia).
  replace (bv c0 =? 34) with false by (symmetry; apply Z.eqb_neq; lia).
  rewrite !prefix_digit by (exact Hr || (intros a w' E; injection E as <- <-; reflexivity)).
  cbn [append] in Hsn. rewrite Hsn. reflexivity.
Qed.

Lemma parse_flat_value (v : value) (f : nat) (c : ascii) (r : string) :
  flat_value v -> bv c = 44 \/ bv c = 125 ->
  parse_value (S f) (encode v ++ String c r) = Some (v, String c r).
Proof.
  intros [(t & -> & Ht) | (n & -> & Hn)] Hc.
  - apply parse_value_string. exact Ht.
  - apply parse_value_number; [lia|exact Hc].
Qed.


Lemma skip_ws_quote (X : string) : skip_ws (String quote X) = String quote X.
Proof. reflexivity. Qed.

Lemma member_step (kv : string * value) (f : nat) (acc : list (string * value))
    (c : ascii) (Y : string) :
  flat_member kv -> bv c = 44 \/ bv c = 125 ->
  parse_members (S (S f)) acc (member_enc kv ++ String c Y) =
  if bv c =? 44 then parse_members (S f) (acc ++ [kv]) (skip_ws Y)
  else Some (JObject (acc ++ [kv]), Y).
Proof.
  destruct kv as [k v]. intros [Hk Hv] Hc. cbn [fst snd] in *.
  unfold member_enc. cbn [fst snd]. rewrite str_app_assoc, appendString_cons.
  destruct (quote_roundtrip k Hk (String.length k) (le_n _)) as (Hs & Hu & Hl).
  cbn [parse_members]. change (bv quote) with 34. cbn [Z.eqb Pos.eqb].
  rewrite Hs. unfold unquote. rewrite Hu by lia.
  cbn [append skip_ws]. change (is_ws ":"%char) with false. cbn iota.
  change (bv ":"%char =? 58) with true. cbn iota.
  rewrite parse_flat_value by assumption.
  cbn [skip_ws].
  replace (is_ws c) with false by
    (symmetry; unfold is_ws; repeat rewrite orb_false_iff; repeat split; apply Z.eqb_neq; lia).
  destruct Hc as [Hc | Hc]; rewrite Hc; reflexivity.
Qed.

Lemma member_enc_quote (kv : string * value) (X : string) :
  exists Z, member_enc kv ++ X = String quote Z.
Proof.
  unfold member_enc. rewrite str_app_assoc, appendString_cons. eexists. reflexivity.
Qed.

Lemma skip_ws_member (kv : string * value) (Y : string) :
  skip_ws (member_enc kv ++ Y) = member_enc kv ++ Y.
Proof. destruct (member_enc_quote kv Y) as [W HW]. rewrite HW. reflexivity. Qed.

Lemma parse_members_flat (ms : list (string * value)) :
  ms <> [] -> Forall flat_member ms ->
  forall f acc X, (length ms < f)%nat ->
  parse_members f acc (join "," (map member_enc ms) ++ String "}" X) = Some (JObject (acc ++ ms), X).
Proof.
  induction ms as [|kv ms IH]; intros Hne Hf; [congruence|].
  inversion Hf as [|? ? Hkv Hms]; subst.
  intros f acc X Hlen. destruct f as [|[|f]]; cbn [length] in Hlen; try lia.
  destruct ms as [|kv' ms'].
  - cbn [map join]. rewrite member_step by (assumption || (left; reflexivity) || (right; reflexivity)).
    reflexivity.
  - change (join "," (map member_enc (kv :: kv' :: ms')))
      with (member_enc kv ++ "," ++ join "," (map member_enc (kv' :: ms'))).
    rewrite str_app_assoc. cbn [append].
    rewrite member_step by (assumption || (left; reflexivity)). cbn [Z.eqb Pos.eqb].
    change (bv ","%char =? 44) with true. cbn iota.
    destruct ms' as [|kv'' ms''].
    + cbn [map join] in *. destruct (member_enc_quote kv' (String "}" X)) as [W HW]. rewrite HW, skip_ws_quote, <- HW.
      rewrite (IH ltac:(discriminate) Hms (S f) (acc ++ [kv])%list X); [|cbn in *; lia].
      rewrite <- ?app_assoc. reflexivity.
    + change (join "," (map member_enc (kv' :: kv'' :: ms'')))
        with (member_enc kv' ++ "," ++ join "," (map member_enc (kv'' :: ms''))).
      rewrite str_app_assoc, skip_ws_member, <- str_app_assoc.
      change (member_enc kv' ++ "," ++ join "," (map member_enc (kv'' :: ms'')))
        with (join "," (map member_enc (kv' :: kv'' :: ms''))).
      rewrite (IH ltac:(discriminate) Hms (S f) (acc ++ [kv])%list X ltac:(cbn in *; lia)).
      rewrite <- ?app_assoc. reflexivity.
Qed.

Lemma join_members_quote (ms : list (string * value)) (X : string) :
  ms <> [] -> exists W, join "," (map member_enc ms) ++ X = String quote W.
Proof.
  intros Hne. destruct ms as [|kv [|kv' ms']]; [congruence| |].
  - apply member_enc_quote.
  - change (join "," (map member_enc (kv :: kv' :: ms')))
      with (member_enc kv ++ "," ++ join "," (map member_enc (kv' :: ms'))).
    rewrite str_app_assoc. apply member_enc_quote.
Qed.

Lemma join_members_length (ms : list (string * value)) :
  (length ms <= String.length (join "," (map member_enc ms)))%nat.
Proof.
  induction ms as [|kv [|kv' ms'] IH]; [cbn; lia| |].
  - cbn [map join length]. destruct (member_enc_quote kv EmptyString) as [W HW].
    rewrite str_app_nil in HW. rewrite HW. cbn. lia.
  - change (join "," (map member_enc (kv :: kv' :: ms')))
      with (member_enc kv ++ "," ++ join "," (map member_enc (kv' :: ms'))).
    rewrite !str_length_app. cbn [length String.length] in *. lia.
Qed.

Lemma encode_object (ms : list (string * value)) :
  encode (JObject ms) = String "{" (join "," (map member_enc ms) ++ String "}" EmptyString).
Proof. reflexivity. Qed.

Lemma parse_flat_object (ms : list (string * value)) :
  ms <> [] -> Forall flat_member ms -> parse (encode (JObject ms)) = Some (JObject ms).
Proof.
  intros Hne Hf. rewrite encode_object. unfold parse.
  set (L := String.length _).
  assert (HL : (length ms < L)%nat).
  { subst L. cbn [String.length]. rewrite str_length_app. pose proof (join_members_length ms). lia. }
  clearbody L. destruct L as [|L]; [lia|].
  destruct (join_members_quote ms (String "}" EmptyString) Hne) as [W HW].
  cbn [parse_value skip_ws]. change (is_ws "{"%char) with false. cbn iota.
  change (bv "{"%char =? 123) with true. cbn iota.
  rewrite HW. cbn [skip_ws]. change (is_ws quote) with false. cbn iota.
  change (bv quote =? 125) with false. cbn iota. rewrite <- HW.
  rewrite (parse_members_flat ms Hne Hf (S L) [] EmptyString) by lia. reflexivity.
Qed.

Import Bytes Json Jwt Auth.

Lemma numeric_date_roundtrip (x : Z) :
  0 <= x < 2 ^ 1024 ->
  numeric_date_of (FormatInt (NewNumericDate x / second)) = Some (NewNumericDate x).
Proof.
  intros Hx. unfold NewNumericDate, second.
  rewrite Z.div_mul by lia.
  rewrite numeric_date_of_FormatInt; [reflexivity|].
  split; [apply Z.div_pos; lia|]. zlia.
Qed.

Lemma decode_access_claims (j : JWT) (u : User) (n1 n2 n3 : Z) :
  0 <= n1 + hours j.(expiryHours) < 2 ^ 1024 -> 0 <= n2 < 2 ^ 1024 -> 0 <= n3 < 2 ^ 1024 ->
  decode_claims (JObject (claims_members (access_claims j u n1 n2 n3)))
  = Some (access_claims j u n1 n2 n3).
Proof.
  intros He H2 H3.
  unfold decode_claims, decode_struct, claims_members, access_claims, registered_members,
    numeric_date_json.
  cbn [Issuer Subject Audience ExpiresAt NotBefore IssuedAt ID UserID Email Role Registered].
  destruct (String.eqb (GetID u) EmptyString) eqn:E.
  - apply String.eqb_eq in E. cbn -[numeric_date_of FormatInt NewNumericDate second].
    rewrite !numeric_date_roundtrip by assumption. cbn. rewrite E. reflexivity.
  - cbn -[numeric_date_of FormatInt NewNumericDate second].
    rewrite !numeric_date_roundtrip by assumption. reflexivity.
Qed.

Import Bytes Json Jwt Auth.

Lemma valid_ascii_string (s : string) :
  forallb (fun c => bv c <? 0x80) (list_ascii_of_string s) = true -> Utf8.Valid s.
Proof.
  induction s as [|c s IH]; intros H; [constructor|].
  cbn in H. apply andb_true_iff in H as [H1 H2]. apply Utf8.valid_ascii; [apply Z.ltb_lt; exact H1|].
  apply IH. exact H2.
Qed.

Lemma header_flat : Forall flat_member header_members.
Proof.
  repeat apply Forall_cons; try apply Forall_nil;
    (split; [apply valid_ascii_string; reflexivity|]);
    left; eexists; (split; [reflexivity|]); apply valid_ascii_string; reflexivity.
Qed.

Lemma ParseWithClaims_SignedString {C : Type} (decodeC : value -> option C)
    (reg : C -> RegisteredClaims) (ms : list (string * value)) (cl : C) (key : string) (now : Z) :
  ms <> [] -> Forall flat_member ms -> decodeC (JObject ms) = Some cl ->
  Validate (reg cl) now = None ->
  ParseWithClaims decodeC reg (SignedString ms key) key now = Ok cl.
Proof.
  intros Hne Hf Hd Hv. unfold SignedString, SigningString.
  set (E0 := EncodeSegment (encode (JObject header_members))).
  set (E1 := EncodeSegment (encode (JObject ms))).
  set (E2 := EncodeSegment (hmac_sha256 key (E0 ++ "." ++ E1))).
  rewrite !str_app_assoc.
  unfold ParseWithClaims, ParseUnverified.
  rewrite split_dot_three by (subst E0 E1 E2; unfold EncodeSegment, Base64.EncodeToString;
                               apply Base64Facts.encode_no_dot).
  assert (D0 : DecodeSegment E0 = Some (encode (JObject header_members)))
    by apply Base64Facts.DecodeString_EncodeToString.
  assert (D1 : DecodeSegment E1 = Some (encode (JObject ms)))
    by apply Base64Facts.DecodeString_EncodeToString.
  assert (D2 : DecodeSegment E2 = Some (hmac_sha256 key (E0 ++ "." ++ E1)))
    by apply Base64Facts.DecodeString_EncodeToString.
  rewrite D0, D1. cbn [option_map].
  rewrite (parse_flat_object header_members ltac:(discriminate) header_flat).
  rewrite (parse_flat_object ms Hne Hf). cbn [option_map decode_header]. rewrite Hd.
  change (lookup "alg" header_members) with (Some (JString "HS256")). cbn iota.
  change (String.eqb "HS256" "HS256") with true. cbn iota.
  rewrite D2. unfold Hmac.Equal. rewrite String.eqb_refl, Hv. reflexivity.
Qed.

Import Bytes Json Jwt Auth Spec.

Lemma decode_refresh_claims (j : JWT) (u : User) (n1 n2 n3 : Z) :
  0 <= n1 + hours j.(refreshExpiryHours) < 2 ^ 1024 -> 0 <= n2 < 2 ^ 1024 -> 0 <= n3 < 2 ^ 1024 ->
  decode_registered (JObject (registered_members (refresh_claims j u n1 n2 n3)))
  = Some (refresh_claims j u n1 n2 n3).
Proof.
  intros He H2 H3.
  unfold decode_registered, decode_struct, refresh_claims, registered_members, numeric_date_json.
  cbn [Issuer Subject Audience ExpiresAt NotBefore IssuedAt ID].
  destruct (String.eqb (GetID u) EmptyString) eqn:E.
  - apply String.eqb_eq in E. cbn -[numeric_date_of FormatInt NewNumericDate second].
    rewrite !numeric_date_roundtrip by assumption. cbn. rewrite E. reflexivity.
  - cbn -[numeric_date_of FormatInt NewNumericDate second].
    rewrite !numeric_date_roundtrip by assumption. reflexivity.
Qed.

Lemma flat_date (x : Z) : 0 <= x < 2 ^ 1024 -> flat_value (numeric_date_json x).
Proof.
  intros Hx. right. exists (x / second). split; [reflexivity|].
  split; [apply Z.div_pos; unfold second; lia|]. unfold second. zlia.
Qed.

Lemma NewNumericDate_range (x : Z) : 0 <= x < 2 ^ 1024 -> 0 <= NewNumericDate x < 2 ^ 1024.
Proof. unfold NewNumericDate, second. zlia. Qed.

Ltac flat_members :=
  repeat apply Forall_cons; try apply Forall_nil;
  (split; cbn [fst snd];
   [ apply valid_ascii_string; reflexivity
   | first [ left; eexists; split; [reflexivity|]; assumption
           | apply flat_date; apply NewNumericDate_range; assumption ] ]).

Lemma access_members_flat (j : JWT) (u : User) (n1 n2 n3 : Z) :
  Utf8.Valid u.(GetID) -> Utf8.Valid u.(GetEmail) -> Utf8.Valid u.(GetRole) ->
  0 <= n1 + hours j.(expiryHours) < 2 ^ 1024 -> 0 <= n2 < 2 ^ 1024 -> 0 <= n3 < 2 ^ 1024 ->
  Forall flat_member (claims_members (access_claims j u n1 n2 n3)).
Proof.
  intros Hi Hm Hr He H2 H3.
  unfold claims_members, access_claims, registered_members.
  cbn [Issuer Subject Audience ExpiresAt NotBefore IssuedAt ID UserID Email Role Registered].
  destruct (String.eqb (GetID u) EmptyString); cbn [app]; flat_members.
Qed.

Lemma refresh_members_flat (j : JWT) (u : User) (n1 n2 n3 : Z) :
  Utf8.Valid u.(GetID) ->
  0 <= n1 + hours j.(refreshExpiryHours) < 2 ^ 1024 -> 0 <= n2 < 2 ^ 1024 -> 0 <= n3 < 2 ^ 1024 ->
  Forall flat_member (registered_members (refresh_claims j u n1 n2 n3)).
Proof.
  intros Hi He H2 H3.
  unfold registered_members, refresh_claims.
  cbn [Issuer Subject Audience ExpiresAt NotBefore IssuedAt ID].
  destruct (String.eqb (GetID u) EmptyString); cbn [app]; flat_members.
Qed.

Lemma Validate_inside (rc : RegisteredClaims) (now e n : Z) :
  rc.(ExpiresAt) = Some e -> rc.(NotBefore) = Some n -> n <= now < e -> Validate rc now = None.
Proof.
  intros He Hn Hw. unfold Validate. rewrite He, Hn.
  replace (now <? e) with true by (symmetry; apply Z.ltb_lt; lia).
  replace (now <? n) with false by (symmetry; apply Z.ltb_ge; lia). reflexivity.
Qed.

Lemma hours_bound (h : Z) : - 2 ^ 63 <= hours h < 2 ^ 63.
Proof. unfold hours, wrap64. zlia. Qed.

Lemma NewNumericDate_le (x : Z) : NewNumericDate x <= x.
Proof. unfold NewNumericDate, second. zlia. Qed.

Lemma NewNumericDate_nonneg (x : Z) : 0 <= x -> 0 <= NewNumericDate x.
Proof. unfold NewNumericDate, second. zlia. Qed.

Lemma window_range (n1 n3 now h : Z) :
  0 <= n3 -> n1 < 2 ^ 62 -> NewNumericDate n3 <= now < NewNumericDate (n1 + hours h) ->
  0 <= n1 + hours h < 2 ^ 1024.
Proof.
  intros H3 H1 Hw. pose proof (NewNumericDate_le (n1 + hours h)).
  pose proof (NewNumericDate_nonneg n3 H3). pose proof (hours_bound h). lia.
Qed.

End JsonRoundTrip.

Import JsonRoundTrip.

(** ** Claim C1 *)

(** Claim C1 (corrected): an id that is not UTF-8 comes back changed: the
    token validates, but the byte 0xFF is decoded as U+FFFD. *)
Lemma access_roundtrip_counterexample :
  exists cl,
    ValidateToken test_jwt t0 (GenerateAccessToken test_jwt invalid_utf8_user t0 t0 t0) = Ok cl
    /\ cl.(UserID) = replacement_char /\ cl.(UserID) <> invalid_utf8_user.(GetID).
Proof.
  eexists. split; [vm_compute; reflexivity|]. split; [reflexivity|discriminate].
Qed.

(** Claim C1 (corrected): for a user whose id, email and role are
    well-formed UTF-8, issuing instants in [[0, 2^62)] ns, and a validation
    instant [now] at or after the token's [nbf] and before its [exp],
    [ValidateToken] accepts the access token and returns claims with
    [user_id] and [sub] equal to the id, and the user's email and role. *)
Theorem ValidateToken_GenerateAccessToken (j : JWT) (u : User) (n1 n2 n3 now : Z) :
  Utf8.Valid u.(GetID) -> Utf8.Valid u.(GetEmail) -> Utf8.Valid u.(GetRole) ->
  0 <= n1 < 2 ^ 62 -> 0 <= n2 < 2 ^ 62 -> 0 <= n3 < 2 ^ 62 ->
  NewNumericDate n3 <= now < NewNumericDate (n1 + hours j.(expiryHours)) ->
  exists cl, ValidateToken j now (GenerateAccessToken j u n1 n2 n3) = Ok cl
    /\ cl.(UserID) = u.(GetID) /\ cl.(Registered).(Subject) = u.(GetID)
    /\ cl.(Email) = u.(GetEmail) /\ cl.(Role) = u.(GetRole).
Proof.
  intros Hi Hm Hr H1 H2 H3 Hw.
  pose proof (window_range n1 n3 now _ ltac:(lia) ltac:(lia) Hw) as He.
  exists (access_claims j u n1 n2 n3). split; [|repeat split].
  unfold ValidateToken, GenerateAccessToken.
  apply ParseWithClaims_SignedString.
  - unfold claims_members. discriminate.
  - apply access_members_flat; assumption || lia.
  - apply decode_access_claims; lia.
  - eapply Validate_inside; [reflexivity|reflexivity|exact Hw].
Qed.

Lemma ValidateToken_GenerateAccessToken_witness :
  exists cl, ValidateToken test_jwt t0 sample_token = Ok cl
    /\ cl.(UserID) = test_user.(GetID) /\ cl.(Registered).(Subject) = test_user.(GetID)
    /\ cl.(Email) = test_user.(GetEmail) /\ cl.(Role) = test_user.(GetRole).
Proof.
  apply (ValidateToken_GenerateAccessToken test_jwt test_user t0 t0 t0 t0);
    try (apply valid_ascii_string; reflexivity);
    split; first [apply Z.leb_le | apply Z.ltb_lt]; vm_compute; reflexivity.
Defined.

(** ** Claim C3 *)




(** ** JSON strings holding any bytes

    [json.Marshal] writes each invalid UTF-8 byte as [\ufffd] and
    [json.Unmarshal] reads every string it wrote back, as some string; the
    claims objects parse whatever bytes their string fields hold. *)

Module AnyString.
Import Json JsonStringFacts Utf8Facts Spec JsonRoundTrip.

Lemma first_cases (p : Z) (sz : nat) (lo hi : Z) :
  Utf8.first p = Some (sz, lo, hi) ->
  (sz = 2%nat /\ lo = 0x80 /\ hi = 0xBF /\ byte_in 0xC2 0xDF p = true) \/ sz = 3%nat \/ sz = 4%nat.
Proof.
  unfold Utf8.first. intros H.
  destruct (Z.ltb_spec p 0xC2) as [E1|E1]; [discriminate|].
  destruct (Z.leb_spec p 0xDF) as [E2|E2].
  - injection H as <- <- <-. left. repeat split. unfold byte_in.
    apply andb_true_iff. split; apply Z.leb_le; lia.
  - right. repeat match type of H with context [if ?b then _ else _] => destruct b end;
      try discriminate; injection H as <- <- <-; auto.
Qed.

Lemma DecodeRune_high (c : ascii) (r : string) :
  0x80 <= bv c ->
  Utf8.DecodeRune (take 4 (String c r)) = (Utf8.RuneError, 1%nat)
  \/ (exists c1 r', r = String c1 r' /\ byte_in 0xC2 0xDF (bv c) = true
        /\ byte_in 0x80 0xBF (bv c1) = true)
  \/ (exists c1 c2 r' lo hi, r = String c1 (String c2 r')
        /\ Utf8.first (bv c) = Some (3%nat, lo, hi)
        /\ byte_in lo hi (bv c1) = true /\ byte_in 0x80 0xBF (bv c2) = true)
  \/ (exists c1 c2 c3 r' lo hi, r = String c1 (String c2 (String c3 r'))
        /\ Utf8.first (bv c) = Some (4%nat, lo, hi) /\ byte_in lo hi (bv c1) = true
        /\ byte_in 0x80 0xBF (bv c2) = true /\ byte_in 0x80 0xBF (bv c3) = true).
Proof.
  intros Hc. cbn [take]. unfold Utf8.DecodeRune.
  replace (bv c <? 0x80) with false by (symmetry; apply Z.ltb_ge; lia).
  destruct (Utf8.first (bv c)) as [[[sz lo] hi]|] eqn:Hf; [|left; reflexivity].
  destruct r as [|c1 r1]; [left; reflexivity|]. cbn [take].
  destruct (byte_in lo hi (bv c1)) eqn:B1; cbn [negb]; [|left; reflexivity].
  destruct (first_cases _ _ _ _ Hf) as [(-> & -> & -> & Hb) | [-> | ->]].
  - right; left. eauto.
  - cbn [Nat.leb]. destruct r1 as [|c2 r2]; [left; reflexivity|]. cbn [take].
    destruct (byte_in 0x80 0xBF (bv c2)) eqn:B2; cbn [negb]; [|left; reflexivity].
    right; right; left. eauto 10.
  - cbn [Nat.leb]. destruct r1 as [|c2 r2]; [left; reflexivity|]. cbn [take].
    destruct (byte_in 0x80 0xBF (bv c2)) eqn:B2; cbn [negb]; [|left; reflexivity].
    destruct r2 as [|c3 r3]; [left; reflexivity|]. cbn [take].
    destruct (byte_in 0x80 0xBF (bv c3)) eqn:B3; cbn [negb]; [|left; reflexivity].
    right; right; right. eauto 12.
Qed.

Lemma quote_body_bad (n : nat) (c : ascii) (r : string) :
  0x80 <= bv c -> Utf8.DecodeRune (take 4 (String c r)) = (Utf8.RuneError, 1%nat) ->
  quote_body (S n) (String c r) = String backslash "ufffd" ++ quote_body n r.
Proof.
  intros H Hd. cbn [quote_body].
  replace (bv c <? 128) with false by (symmetry; apply Z.ltb_ge; lia).
  rewrite Hd. reflexivity.
Qed.

Lemma scan_bad (X : string) :
  scan_string (String backslash "ufffd" ++ X)
  = match scan_string X with
    | Some (b, r) => Some (String backslash "ufffd" ++ b, r)
    | None => None
    end.
Proof. simpl. destruct (scan_string X) as [[]|]; reflexivity. Qed.

Lemma unquote_bad (f : nat) (X : string) :
  unquote_body (S f) (String backslash "ufffd" ++ X)
  = prepend (Utf8.EncodeRune Utf8.RuneError) (unquote_body f X).
Proof. reflexivity. Qed.

Lemma quote_any (n : nat) : forall s, (String.length s <= n)%nat ->
  exists t,
  (forall rest, scan_string (quote_body n s ++ String quote rest) = Some (quote_body n s, rest))
  /\ (forall m, (String.length s < m)%nat -> unquote_body m (quote_body n s) = Some t)
  /\ (String.length s <= String.length (quote_body n s))%nat.
Proof.
  induction n as [|n IH]; intros s Hn.
  - destruct s; [|cbn in Hn; lia]. exists EmptyString. cbn [quote_body]. split; [|split].
    + reflexivity.
    + intros m Hm. destruct m; [cbn in Hm; lia|reflexivity].
    + cbn. lia.
  - destruct s as [|c r].
    + exists EmptyString. cbn [quote_body]. split; [|split].
      * reflexivity.
      * intros m Hm. destruct m; [cbn in Hm; lia|reflexivity].
      * cbn. lia.
    + destruct (Z.ltb_spec (bv c) 0x80) as [Hc|Hc].
      * destruct (IH r ltac:(cbn in Hn; lia)) as (t & IHs & IHu & IHl).
        exists (String c t). rewrite quote_body_ascii by exact Hc. split; [|split].
        -- intros rest. rewrite str_app_assoc, scan_ascii by exact Hc. rewrite IHs. reflexivity.
        -- intros m Hm. destruct m as [|m']; [lia|].
           rewrite unquote_ascii by exact Hc. rewrite IHu by (cbn in Hm; lia). reflexivity.
        -- rewrite str_length_app. destruct (chunk_nonempty (bv c) c) as (a & t' & ->). cbn. lia.
      * destruct (DecodeRune_high c r Hc) as
          [Hd | [(c1 & r' & -> & H0 & H1) | [(c1 & c2 & r' & lo & hi & -> & Hf & H1 & H2)
                | (c1 & c2 & c3 & r' & lo & hi & -> & Hf & H1 & H2 & H3)]]].
        -- destruct (IH r ltac:(cbn in Hn; lia)) as (t & IHs & IHu & IHl).
           exists (Utf8.EncodeRune Utf8.RuneError ++ t).
           rewrite quote_body_bad by assumption. split; [|split].
           ++ intros rest. rewrite str_app_assoc, scan_bad, IHs. reflexivity.
           ++ intros m Hm. destruct m as [|m']; [lia|].
              rewrite unquote_bad, IHu by (cbn in Hm; lia). reflexivity.
           ++ rewrite str_length_app. cbn. lia.
        -- rename c into c0. byte_ranges.
           destruct (IH r' ltac:(cbn in Hn; lia)) as (t & IHs & IHu & IHl).
           exists (String c0 (String c1 t)).
           set (rn := (bv c0 - 0xC0) * 64 + (bv c1 - 0x80)).
           rewrite (quote_body_high n (String c0 (String c1 r')) rn 2);
             [| exists c0, (String c1 r'); split; [reflexivity|lia]
              | cbn [take]; apply DecodeRune_2; lia | lia].
           rewrite orb_eqb_false by (unfold rn; lia). cbn [take drop append].
           split; [|split].
           ++ intros rest. rewrite (scan_high c0) by lia. rewrite (scan_high c1) by lia.
              rewrite IHs. reflexivity.
           ++ intros m Hm. destruct m as [|m']; [lia|].
              rewrite (unquote_high c0 _ m' rn 2) by (try apply DecodeRune_2; lia).
              unfold rn. rewrite EncodeRune_2 by lia. cbn [drop]. rewrite IHu by (cbn in Hm; lia).
              reflexivity.
           ++ cbn. lia.
        -- rename c into c0. byte_ranges. apply first3_range in Hf as Hr.
           destruct (IH r' ltac:(cbn in Hn; lia)) as (t & IHs & IHu & IHl).
           exists (String c0 (String c1 (String c2 t))).
           set (rn := (bv c0 - 0xE0) * 4096 + (bv c1 - 0x80) * 64 + (bv c2 - 0x80)).
           assert (Hd : forall t, Utf8.DecodeRune (String c0 (String c1 (String c2 t))) = (rn, 3%nat))
             by (intros t'; apply (DecodeRune_3 c0 c1 c2 t' lo hi); auto).
           assert (He : Utf8.EncodeRune rn = String c0 (String c1 (String c2 EmptyString)))
             by (apply (EncodeRune_3 c0 c1 c2 lo hi); auto).
           rewrite (quote_body_high n (String c0 (String c1 (String c2 r'))) rn 3);
             [| exists c0, (String c1 (String c2 r')); split; [reflexivity|lia]
              | cbn [take]; apply Hd | lia].
           destruct ((rn =? 0x2028) || (rn =? 0x2029)) eqn:E.
           ++ assert (Hsep : rn = 0x2028 \/ rn = 0x2029)
                by (apply orb_true_iff in E as [E|E]; apply Z.eqb_eq in E; auto).
              cbn [drop]. split; [|split].
              ** intros rest. rewrite str_app_assoc, scan_sep_escape by exact Hsep.
                 rewrite IHs. reflexivity.
              ** intros m Hm. destruct m as [|m']; [lia|].
                 rewrite unquote_sep_escape by exact Hsep. rewrite He.
                 rewrite IHu by (cbn in Hm; lia). reflexivity.
              ** rewrite str_length_app. cbn. lia.
           ++ cbn [take drop append]. split; [|split].
              ** intros rest. rewrite (scan_high c0) by lia. rewrite (scan_high c1) by lia.
                 rewrite (scan_high c2) by lia. rewrite IHs. reflexivity.
              ** intros m Hm. destruct m as [|m']; [lia|].
                 rewrite (unquote_high c0 _ m' rn 3) by (try apply Hd; lia).
                 rewrite He. cbn [drop]. rewrite IHu by (cbn in Hm; lia). reflexivity.
              ** cbn. lia.
        -- rename c into c0. byte_ranges. apply first4_range in Hf as Hr.
           destruct (IH r' ltac:(cbn in Hn; lia)) as (t & IHs & IHu & IHl).
           exists (String c0 (String c1 (String c2 (String c3 t)))).
           set (rn := (bv c0 - 0xF0) * 262144 + (bv c1 - 0x80) * 4096 + (bv c2 - 0x80) * 64
                      + (bv c3 - 0x80)).
           assert (Hd : forall t, Utf8.DecodeRune (String c0 (String c1 (String c2 (String c3 t))))
                                  = (rn, 4%nat))
             by (intros t'; apply (DecodeRune_4 c0 c1 c2 c3 t' lo hi); auto).
           assert (He : Utf8.EncodeRune rn = String c0 (String c1 (String c2 (String c3 EmptyString))))
             by (apply (EncodeRune_4 c0 c1 c2 c3 lo hi); auto).
           rewrite (quote_body_high n (String c0 (String c1 (String c2 (String c3 r')))) rn 4);
             [| exists c0, (String c1 (String c2 (String c3 r'))); split; [reflexivity|lia]
              | cbn [take]; apply Hd | lia].
           rewrite orb_eqb_false by (unfold rn; lia). cbn [take drop append].
           split; [|split].
           ++ intros rest. rewrite (scan_high c0) by lia. rewrite (scan_high c1) by lia.
              rewrite (scan_high c2) by lia. rewrite (scan_high c3) by lia.
              rewrite IHs. reflexivity.
           ++ intros m Hm. destruct m as [|m']; [lia|].
              rewrite (unquote_high c0 _ m' rn 4) by (try apply Hd; lia).
              rewrite He. cbn [drop]. rewrite IHu by (cbn in Hm; lia). reflexivity.
           ++ cbn. lia.
Qed.


Lemma parse_value_any_string (t : string) :
  exists t', (Utf8.Valid t -> t' = t)
  /\ forall f X, parse_value (S f) (appendString t ++ X) = Some (JString t', X).
Proof.
  destruct (quote_any (String.length t) t (le_n _)) as (t' & Hs & Hu & Hl).
  exists t'. split.
  - intros Hv. destruct (quote_roundtrip t Hv (String.length t) (le_n _)) as (_ & Hu' & _).
    pose proof (Hu (S (String.length t)) ltac:(lia)) as H1.
    rewrite Hu' in H1 by lia. congruence.
  - intros f X. rewrite appendString_cons.
    cbn [parse_value skip_ws]. change (is_ws quote) with false. cbn iota.
    change (bv quote) with 34. cbn [Z.eqb Pos.eqb].
    rewrite Hs. unfold unquote. rewrite Hu by lia. reflexivity.
Qed.

Lemma parse_any_value (v : value) :
  any_value v ->
  exists v', similar v v'
  /\ forall f c r, bv c = 44 \/ bv c = 125 ->
     parse_value (S f) (encode v ++ String c r) = Some (v', String c r).
Proof.
  intros [(t & ->) | (n & -> & Hn)].
  - destruct (parse_value_any_string t) as (t' & Ht & Hp).
    exists (JString t'). split; [cbn; eauto|]. intros f c r _. apply Hp.
  - exists (JNumber (FormatInt n)). split; [reflexivity|].
    intros f c r Hc. apply parse_value_number; [lia|exact Hc].
Qed.

Lemma member_any (kv : string * value) :
  any_member kv ->
  exists kv', similar_member kv kv'
  /\ forall f acc c Y, bv c = 44 \/ bv c = 125 ->
     parse_members (S (S f)) acc (member_enc kv ++ String c Y) =
     if bv c =? 44 then parse_members (S f) (acc ++ [kv']) (skip_ws Y)
     else Some (JObject (acc ++ [kv']), Y).
Proof.
  destruct kv as [k v]. intros [Hk Hv]. cbn [fst snd] in *.
  destruct (parse_any_value v Hv) as (v' & Hs & Hp).
  exists (k, v'). split; [split; [reflexivity|exact Hs]|].
  intros f acc c Y Hc.
  unfold member_enc. cbn [fst snd]. rewrite str_app_assoc, appendString_cons.
  destruct (quote_roundtrip k Hk (String.length k) (le_n _)) as (Hs' & Hu & Hl).
  cbn [parse_members]. change (bv quote) with 34. cbn [Z.eqb Pos.eqb].
  rewrite Hs'. unfold unquote. rewrite Hu by lia.
  cbn [append skip_ws]. change (is_ws ":"%char) with false. cbn iota.
  change (bv ":"%char =? 58) with true. cbn iota.
  rewrite (Hp f c Y Hc). cbn [skip_ws].
  replace (is_ws c) with false by
    (symmetry; unfold is_ws; repeat rewrite orb_false_iff; repeat split; apply Z.eqb_neq; lia).
  destruct Hc as [Hc | Hc]; rewrite Hc; reflexivity.
Qed.

Lemma parse_members_any (ms : list (string * value)) :
  ms <> [] -> Forall any_member ms ->
  exists ms', Forall2 similar_member ms ms'
  /\ forall f acc X, (length ms < f)%nat ->
     parse_members f acc (join "," (map member_enc ms) ++ String "}" X) = Some (JObject (acc ++ ms'), X).
Proof.
  induction ms as [|kv ms IH]; intros Hne Hf; [congruence|].
  inversion Hf as [|? ? Hkv Hms]; subst.
  destruct (member_any kv Hkv) as (kv' & Hsim & Hstep).
  destruct ms as [|kv2 ms2].
  - exists [kv']. split; [constructor; [exact Hsim|constructor]|].
    intros f acc X Hlen. destruct f as [|[|f]]; cbn [length] in Hlen; try lia.
    cbn [map join]. rewrite Hstep by (right; reflexivity). reflexivity.
  - destruct (IH ltac:(discriminate) Hms) as (ms' & Hsims & Hpar).
    exists (kv' :: ms'). split; [constructor; assumption|].
    intros f acc X Hlen. destruct f as [|[|f]]; cbn [length] in Hlen; try lia.
    change (join "," (map member_enc (kv :: kv2 :: ms2)))
      with (member_enc kv ++ "," ++ join "," (map member_enc (kv2 :: ms2))).
    rewrite str_app_assoc. cbn [append].
    rewrite Hstep by (left; reflexivity). change (bv ","%char =? 44) with true. cbn iota.
    destruct (join_members_quote (kv2 :: ms2) (String "}" X) ltac:(discriminate)) as [W HW].
    rewrite HW, skip_ws_quote, <- HW.
    rewrite (Hpar (S f) (acc ++ [kv'])%list X) by (cbn in *; lia).
    rewrite <- app_assoc. reflexivity.
Qed.

Lemma parse_any_object (ms : list (string * value)) :
  ms <> [] -> Forall any_member ms ->
  exists ms', Forall2 similar_member ms ms' /\ parse (encode (JObject ms)) = Some (JObject ms').
Proof.
  intros Hne Hf. destruct (parse_members_any ms Hne Hf) as (ms' & Hs & Hp).
  exists ms'. split; [exact Hs|].
  rewrite encode_object. unfold parse.
  set (L := String.length _).
  assert (HL : (length ms < L)%nat).
  { subst L. cbn [String.length]. rewrite str_length_app. pose proof (join_members_length ms). lia. }
  clearbody L. destruct L as [|L]; [lia|].
  destruct (join_members_quote ms (String "}" EmptyString) Hne) as [W HW].
  cbn [parse_value skip_ws]. change (is_ws "{"%char) with false. cbn iota.
  change (bv "{"%char =? 123) with true. cbn iota.
  rewrite HW. cbn [skip_ws]. change (is_ws quote) with false. cbn iota.
  change (bv quote =? 125) with false. cbn iota. rewrite <- HW.
  rewrite (Hp (S L) [] EmptyString) by lia. reflexivity.
Qed.

Lemma flat_any (kv : string * value) : flat_member kv -> any_member kv.
Proof.
  intros [Hk [(t & Ht & _) | Hn]]. split; [exact Hk|].
  - left. eauto.
  - split; [exact Hk|right; exact Hn].
Qed.

Lemma similar_flat (ms ms' : list (string * value)) :
  Forall flat_member ms -> Forall2 similar_member ms ms' -> ms' = ms.
Proof.
  intros Hf Hs. induction Hs as [|[k v] [k' v'] l l' [Hk Hv] Hs IH]; [reflexivity|].
  inversion Hf as [|? ? [_ Hfv] Hfl]; subst. cbn [fst snd] in *. subst k'.
  rewrite (IH Hfl). f_equal. f_equal.
  destruct Hfv as [(t & -> & Ht) | (n & -> & _)].
  - destruct Hv as (t' & -> & E). rewrite (E Ht). reflexivity.
  - exact Hv.
Qed.

Lemma similar_keys (ms ms' : list (string * value)) :
  Forall2 similar_member ms ms' -> map fst ms' = map fst ms.
Proof. induction 1 as [|? ? ? ? [Hk _] _ IH]; cbn; [reflexivity|]. rewrite Hk, IH. reflexivity. Qed.

End AnyString.

Import AnyString.

(** ** Tokens of one kind checked by the other validator *)

Module TokenFacts.
Import Bytes Jwt Auth Middleware Spec JsonRoundTrip.

Lemma ParseUnverified_SignedString {C : Type} (decodeC : Json.value -> option C)
    (ms : list (string * Json.value)) (cl : C) (key : string) :
  ms <> [] -> Forall flat_member ms -> decodeC (Json.JObject ms) = Some cl ->
  exists p0 p1 p2, ParseUnverified decodeC (SignedString ms key) = Ok (p0, p1, p2, header_members, cl, "HS256").
Proof.
  intros Hne Hf Hd. unfold SignedString, SigningString.
  set (E0 := EncodeSegment (Json.encode (Json.JObject header_members))).
  set (E1 := EncodeSegment (Json.encode (Json.JObject ms))).
  set (E2 := EncodeSegment (hmac_sha256 key (E0 ++ "." ++ E1))).
  rewrite !str_app_assoc. exists E0, E1, E2.
  unfold ParseUnverified.
  rewrite split_dot_three by (subst E0 E1 E2; unfold EncodeSegment, Base64.EncodeToString;
                               apply Base64Facts.encode_no_dot).
  assert (D0 : DecodeSegment E0 = Some (Json.encode (Json.JObject header_members)))
    by apply Base64Facts.DecodeString_EncodeToString.
  assert (D1 : DecodeSegment E1 = Some (Json.encode (Json.JObject ms)))
    by apply Base64Facts.DecodeString_EncodeToString.
  rewrite D0, D1. cbn [option_map].
  rewrite (parse_flat_object header_members ltac:(discriminate) header_flat).
  rewrite (parse_flat_object ms Hne Hf). cbn [option_map decode_header]. rewrite Hd.
  reflexivity.
Qed.

Lemma decode_registered_access (j : JWT) (u : User) (n1 n2 n3 : Z) :
  0 <= n1 + hours j.(expiryHours) < 2 ^ 1024 -> 0 <= n2 < 2 ^ 1024 -> 0 <= n3 < 2 ^ 1024 ->
  decode_registered (Json.JObject (claims_members (access_claims j u n1 n2 n3)))
  = Some (access_claims j u n1 n2 n3).(Registered).
Proof.
  intros He H2 H3.
  unfold decode_registered, Json.decode_struct, claims_members, access_claims,
    registered_members, numeric_date_json.
  cbn [Issuer Subject Audience ExpiresAt NotBefore IssuedAt ID UserID Email Role Registered].
  destruct (String.eqb (GetID u) EmptyString) eqn:E.
  - apply String.eqb_eq in E. cbn -[Json.numeric_date_of Json.FormatInt NewNumericDate second].
    rewrite !numeric_date_roundtrip by assumption. cbn. rewrite E. reflexivity.
  - cbn -[Json.numeric_date_of Json.FormatInt NewNumericDate second].
    rewrite !numeric_date_roundtrip by assumption. reflexivity.
Qed.

Lemma decode_claims_refresh (j : JWT) (u : User) (n1 n2 n3 : Z) :
  0 <= n1 + hours j.(refreshExpiryHours) < 2 ^ 1024 -> 0 <= n2 < 2 ^ 1024 -> 0 <= n3 < 2 ^ 1024 ->
  decode_claims (Json.JObject (registered_members (refresh_claims j u n1 n2 n3)))
  = Some (mkClaims EmptyString EmptyString EmptyString (refresh_claims j u n1 n2 n3)).
Proof.
  intros He H2 H3.
  unfold decode_claims, Json.decode_struct, refresh_claims, registered_members, numeric_date_json.
  cbn [Issuer Subject Audience ExpiresAt NotBefore IssuedAt ID].
  destruct (String.eqb (GetID u) EmptyString) eqn:E.
  - apply String.eqb_eq in E. cbn -[Json.numeric_date_of Json.FormatInt NewNumericDate second].
    rewrite !numeric_date_roundtrip by assumption. cbn. rewrite E. reflexivity.
  - cbn -[Json.numeric_date_of Json.FormatInt NewNumericDate second].
    rewrite !numeric_date_roundtrip by assumption. reflexivity.
Qed.


Lemma ValidateToken_access_ok (j : JWT) (u : User) (n1 n2 n3 now : Z) :
  Utf8.Valid u.(GetID) -> Utf8.Valid u.(GetEmail) -> Utf8.Valid u.(GetRole) ->
  0 <= n1 < 2 ^ 62 -> 0 <= n2 < 2 ^ 62 -> 0 <= n3 < 2 ^ 62 ->
  NewNumericDate n3 <= now < NewNumericDate (n1 + hours j.(expiryHours)) ->
  ValidateToken j now (GenerateAccessToken j u n1 n2 n3) = Ok (access_claims j u n1 n2 n3).
Proof.
  intros Hi Hm Hr H1 H2 H3 Hw.
  pose proof (window_range n1 n3 now _ ltac:(lia) ltac:(lia) Hw) as He.
  apply ParseWithClaims_SignedString.
  - unfold claims_members. discriminate.
  - apply access_members_flat; assumption || lia.
  - apply decode_access_claims; lia.
  - eapply Validate_inside; [reflexivity|reflexivity|exact Hw].
Qed.

Lemma refresh_members_nonempty (j : JWT) (u : User) (n1 n2 n3 : Z) :
  registered_members (refresh_claims j u n1 n2 n3) <> [].
Proof.
  unfold registered_members. cbn. destruct (String.eqb (GetID u) EmptyString); discriminate.
Qed.

Lemma ValidateRefreshToken_refresh_ok (j : JWT) (u : User) (n1 n2 n3 now : Z) :
  Utf8.Valid u.(GetID) ->
  0 <= n1 < 2 ^ 62 -> 0 <= n2 < 2 ^ 62 -> 0 <= n3 < 2 ^ 62 ->
  NewNumericDate n3 <= now < NewNumericDate (n1 + hours j.(refreshExpiryHours)) ->
  ValidateRefreshToken j now (GenerateRefreshToken j u n1 n2 n3) = Ok u.(GetID).
Proof.
  intros Hi H1 H2 H3 Hw.
  pose proof (window_range n1 n3 now _ ltac:(lia) ltac:(lia) Hw) as He.
  unfold ValidateRefreshToken, GenerateRefreshToken.
  rewrite (ParseWithClaims_SignedString decode_registered (fun rc => rc) _ (refresh_claims j u n1 n2 n3)).
  - reflexivity.
  - apply refresh_members_nonempty.
  - apply refresh_members_flat; assumption || lia.
  - apply decode_refresh_claims; lia.
  - eapply Validate_inside; [reflexivity|reflexivity|exact Hw].
Qed.

Lemma ValidateToken_refresh_claims (j : JWT) (u : User) (n1 n2 n3 now : Z) :
  Utf8.Valid u.(GetID) ->
  0 <= n1 < 2 ^ 62 -> 0 <= n2 < 2 ^ 62 -> 0 <= n3 < 2 ^ 62 ->
  NewNumericDate n3 <= now < NewNumericDate (n1 + hours j.(refreshExpiryHours)) ->
  ValidateToken j now (GenerateRefreshToken j u n1 n2 n3)
  = Ok (mkClaims EmptyString EmptyString EmptyString (refresh_claims j u n1 n2 n3)).
Proof.
  intros Hi H1 H2 H3 Hw.
  pose proof (window_range n1 n3 now _ ltac:(lia) ltac:(lia) Hw) as He.
  apply ParseWithClaims_SignedString.
  - apply refresh_members_nonempty.
  - apply refresh_members_flat; assumption || lia.
  - apply decode_claims_refresh; lia.
  - eapply Validate_inside; [reflexivity|reflexivity|exact Hw].
Qed.


Lemma SignedString_nonempty (ms : list (string * Json.value)) (key : string) :
  SignedString ms key <> EmptyString.
Proof.
  intros H. apply (f_equal String.length) in H. unfold SignedString, SigningString in H.
  rewrite !str_length_app in H.
  assert (Hl : String.length (EncodeSegment (Json.encode (Json.JObject header_members))) = 36%nat)
    by (vm_compute; reflexivity).
  rewrite Hl in H. change (String.length ".") with 1%nat in H.
  change (String.length EmptyString) with 0%nat in H. lia.
Qed.

End TokenFacts.

Import TokenFacts.

(** Tokens whose string claims hold any bytes. *)

Module TokenAny.
Import Json Jwt Auth Spec JsonRoundTrip AnyString TokenFacts.

Lemma ParseWithClaims_SignedString_any {C : Type} (decodeC : value -> option C)
    (reg : C -> RegisteredClaims) (ms : list (string * value)) (key : string) (now : Z) :
  ms <> [] -> Forall any_member ms ->
  exists ms', Forall2 similar_member ms ms'
  /\ ParseWithClaims decodeC reg (SignedString ms key) key now
     = match decodeC (JObject ms') with
       | Some cl => match Validate (reg cl) now with None => Ok cl | Some e => Err e end
       | None => Err ErrTokenMalformed
       end.
Proof.
  intros Hne Hf. destruct (parse_any_object ms Hne Hf) as (ms' & Hs & Hp).
  exists ms'. split; [exact Hs|].
  unfold SignedString, SigningString.
  set (E0 := EncodeSegment (encode (JObject header_members))).
  set (E1 := EncodeSegment (encode (JObject ms))).
  set (E2 := EncodeSegment (hmac_sha256 key (E0 ++ "." ++ E1))).
  rewrite !str_app_assoc.
  unfold ParseWithClaims, ParseUnverified.
  rewrite split_dot_three by (subst E0 E1 E2; unfold EncodeSegment, Base64.EncodeToString;
                               apply Base64Facts.encode_no_dot).
  assert (D0 : DecodeSegment E0 = Some (encode (JObject header_members)))
    by apply Base64Facts.DecodeString_EncodeToString.
  assert (D1 : DecodeSegment E1 = Some (encode (JObject ms)))
    by apply Base64Facts.DecodeString_EncodeToString.
  assert (D2 : DecodeSegment E2 = Some (hmac_sha256 key (E0 ++ "." ++ E1)))
    by apply Base64Facts.DecodeString_EncodeToString.
  rewrite D0, D1. cbn [option_map].
  rewrite (parse_flat_object header_members ltac:(discriminate) header_flat).
  rewrite Hp. cbn [option_map decode_header].
  destruct (decodeC (JObject ms')) as [cl|]; [|reflexivity].
  change (lookup "alg" header_members) with (Some (JString "HS256")). cbn iota.
  change (String.eqb "HS256" "HS256") with true. cbn iota.
  rewrite D2. unfold Hmac.Equal. rewrite String.eqb_refl. reflexivity.
Qed.

Lemma access_registered_flat (j : JWT) (u : User) (n1 n2 n3 : Z) :
  Utf8.Valid u.(GetID) ->
  0 <= n1 + hours j.(expiryHours) < 2 ^ 1024 -> 0 <= n2 < 2 ^ 1024 -> 0 <= n3 < 2 ^ 1024 ->
  Forall flat_member (registered_members (access_claims j u n1 n2 n3).(Registered)).
Proof.
  intros Hi He H2 H3.
  unfold access_claims, registered_members.
  cbn [Issuer Subject Audience ExpiresAt NotBefore IssuedAt ID Registered].
  destruct (String.eqb (GetID u) EmptyString); cbn [app]; flat_members.
Qed.

Lemma any_date (x : Z) : 0 <= x < 2 ^ 1024 -> any_value (numeric_date_json x).
Proof.
  intros Hx. destruct (flat_date x Hx) as [(t & E & _) | Hn]; [discriminate|right; exact Hn].
Qed.

Ltac any_members :=
  repeat apply Forall_cons; try apply Forall_nil;
  (split; cbn [fst snd];
   [ apply valid_ascii_string; reflexivity
   | first [ left; eexists; reflexivity
           | apply any_date; apply NewNumericDate_range; assumption ] ]).

Lemma access_members_any (j : JWT) (u : User) (n1 n2 n3 : Z) :
  0 <= n1 + hours j.(expiryHours) < 2 ^ 1024 -> 0 <= n2 < 2 ^ 1024 -> 0 <= n3 < 2 ^ 1024 ->
  Forall any_member (claims_members (access_claims j u n1 n2 n3)).
Proof.
  intros He H2 H3.
  unfold claims_members, access_claims, registered_members.
  cbn [Issuer Subject Audience ExpiresAt NotBefore IssuedAt ID UserID Email Role Registered].
  destruct (String.eqb (GetID u) EmptyString); cbn [app]; any_members.
Qed.

Lemma refresh_members_split (j : JWT) (u : User) (n1 n2 n3 : Z) :
  registered_members (refresh_claims j u n1 n2 n3)
  = ((if String.eqb u.(GetID) EmptyString then [] else [("sub", JString u.(GetID))])
     ++ [("exp", numeric_date_json (NewNumericDate (n1 + hours j.(refreshExpiryHours))));
         ("nbf", numeric_date_json (NewNumericDate n3));
         ("iat", numeric_date_json (NewNumericDate n2))])%list.
Proof. unfold registered_members, refresh_claims. cbn. destruct (String.eqb (GetID u) EmptyString); reflexivity. Qed.

Lemma refresh_members_any (j : JWT) (u : User) (n1 n2 n3 : Z) :
  0 <= n1 + hours j.(refreshExpiryHours) < 2 ^ 1024 -> 0 <= n2 < 2 ^ 1024 -> 0 <= n3 < 2 ^ 1024 ->
  Forall any_member (registered_members (refresh_claims j u n1 n2 n3)).
Proof.
  intros He H2 H3. rewrite refresh_members_split.
  destruct (String.eqb (GetID u) EmptyString); cbn [app]; any_members.
Qed.

Lemma decode_registered_skip (l m : list (string * value)) :
  map fst l = ["user_id"; "email"; "role"] ->
  decode_registered (JObject (l ++ m)) = decode_registered (JObject m).
Proof.
  intros Hl.
  destruct l as [|[k1 v1] [|[k2 v2] [|[k3 v3] [|]]]]; cbn in Hl; try discriminate.
  injection Hl as -> -> ->. reflexivity.
Qed.

Lemma decode_claims_sub (j : JWT) (t : string) (n1 n2 n3 : Z) :
  0 <= n1 + hours j.(refreshExpiryHours) < 2 ^ 1024 -> 0 <= n2 < 2 ^ 1024 -> 0 <= n3 < 2 ^ 1024 ->
  decode_claims (JObject
    [("sub", JString t);
     ("exp", numeric_date_json (NewNumericDate (n1 + hours j.(refreshExpiryHours))));
     ("nbf", numeric_date_json (NewNumericDate n3));
     ("iat", numeric_date_json (NewNumericDate n2))])
  = Some (mkClaims EmptyString EmptyString EmptyString
            (mkRegisteredClaims EmptyString t []
               (Some (NewNumericDate (n1 + hours j.(refreshExpiryHours))))
               (Some (NewNumericDate n3)) (Some (NewNumericDate n2)) EmptyString)).
Proof.
  intros He H2 H3. unfold decode_claims, decode_struct, numeric_date_json.
  cbn -[numeric_date_of FormatInt NewNumericDate second].
  rewrite !numeric_date_roundtrip by assumption. reflexivity.
Qed.

Lemma ValidateToken_refresh_any (j : JWT) (u : User) (n1 n2 n3 now : Z) :
  0 <= n1 < 2 ^ 62 -> 0 <= n2 < 2 ^ 62 -> 0 <= n3 < 2 ^ 62 ->
  NewNumericDate n3 <= now < NewNumericDate (n1 + hours j.(refreshExpiryHours)) ->
  exists cl, ValidateToken j now (GenerateRefreshToken j u n1 n2 n3) = Ok cl
    /\ cl.(UserID) = EmptyString /\ cl.(Email) = EmptyString /\ cl.(Role) = EmptyString.
Proof.
  intros H1 H2 H3 Hw.
  pose proof (window_range n1 n3 now _ ltac:(lia) ltac:(lia) Hw) as He.
  destruct (String.eqb (GetID u) EmptyString) eqn:E.
  - apply String.eqb_eq in E.
    exists (mkClaims EmptyString EmptyString EmptyString (refresh_claims j u n1 n2 n3)).
    split; [|repeat split].
    apply ValidateToken_refresh_claims; [rewrite E; constructor|lia|lia|lia|exact Hw].
  - destruct (ParseWithClaims_SignedString_any decode_claims Registered
                (registered_members (refresh_claims j u n1 n2 n3)) j.(secret) now)
      as (ms' & Hs & Hp).
    + apply refresh_members_nonempty.
    + apply refresh_members_any; lia.
    + unfold ValidateToken, GenerateRefreshToken. rewrite Hp.
      rewrite refresh_members_split, E in Hs. cbn [app] in Hs.
      inversion Hs as [|kv kv' l l' [Hk Hv] Hs']; subst.
      destruct kv' as [k' v']. cbn [fst snd similar] in Hk, Hv. destruct Hv as (t' & -> & _). subst k'.
      assert (H2' : 0 <= n2 < 2 ^ 1024) by lia. assert (H3' : 0 <= n3 < 2 ^ 1024) by lia.
      apply similar_flat in Hs'; [subst l'|flat_members].
      rewrite decode_claims_sub by lia. cbn [Registered].
      rewrite (Validate_inside (mkRegisteredClaims EmptyString t' []
               (Some (NewNumericDate (n1 + hours j.(refreshExpiryHours))))
               (Some (NewNumericDate n3)) (Some (NewNumericDate n2)) EmptyString) now _ _
               eq_refl eq_refl Hw).
      eexists. split; [reflexivity|repeat split].
Qed.

End TokenAny.
Import TokenAny.

Ltac concrete_hyps :=
  try (apply valid_ascii_string; reflexivity);
  try (split; first [apply Z.leb_le | apply Z.ltb_lt]; vm_compute; reflexivity).

(** X1: Both tokens of a [GenerateTokenPair] pass their own validator: for a
    user whose id, email and role are UTF-8, issuing instants in [[0, 2^62)]
    ns, and validation instants inside each token's [[nbf, exp)] window,
    [ValidateToken] returns the access claims as issued and
    [ValidateRefreshToken] returns the user's id. *)
Theorem GenerateTokenPair_validates (j : JWT) (u : User) (a1 a2 a3 r1 r2 r3 nowa nowr : Z) :
  Utf8.Valid u.(GetID) -> Utf8.Valid u.(GetEmail) -> Utf8.Valid u.(GetRole) ->
  0 <= a1 < 2 ^ 62 -> 0 <= a2 < 2 ^ 62 -> 0 <= a3 < 2 ^ 62 ->
  0 <= r1 < 2 ^ 62 -> 0 <= r2 < 2 ^ 62 -> 0 <= r3 < 2 ^ 62 ->
  NewNumericDate a3 <= nowa < NewNumericDate (a1 + hours j.(expiryHours)) ->
  NewNumericDate r3 <= nowr < NewNumericDate (r1 + hours j.(refreshExpiryHours)) ->
  let pair := GenerateTokenPair j u (a1, a2, a3) (r1, r2, r3) in
  ValidateToken j nowa pair.(AccessToken) = Ok (access_claims j u a1 a2 a3)
  /\ ValidateRefreshToken j nowr pair.(RefreshToken) = Ok u.(GetID).
Proof.
  intros. cbn zeta. unfold GenerateTokenPair. cbn [AccessToken RefreshToken]. split.
  - apply ValidateToken_access_ok; assumption.
  - apply ValidateRefreshToken_refresh_ok; assumption.
Qed.

Lemma GenerateTokenPair_validates_witness :
  let pair := GenerateTokenPair test_jwt test_user (t0, t0, t0) (t0, t0, t0) in
  ValidateToken test_jwt t0 pair.(AccessToken) = Ok (access_claims test_jwt test_user t0 t0 t0)
  /\ ValidateRefreshToken test_jwt t0 pair.(RefreshToken) = Ok test_user.(GetID).
Proof.
  apply (GenerateTokenPair_validates test_jwt test_user t0 t0 t0 t0 t0 t0 t0 t0); concrete_hyps.
Defined.

(** X2: [ValidateRefreshToken] does not tell the token kinds apart: for a
    user whose id is well-formed UTF-8 (email and role may hold any bytes),
    issuing instants in [[0, 2^62)] ns and a validation instant inside the
    access token's [[nbf, exp)] window, it accepts the access token and
    returns the user's id (the [user_id], [email] and [role] members are
    skipped when decoding into [RegisteredClaims]). *)
Theorem ValidateRefreshToken_accepts_access_token (j : JWT) (u : User) (n1 n2 n3 now : Z) :
  Utf8.Valid u.(GetID) ->
  0 <= n1 < 2 ^ 62 -> 0 <= n2 < 2 ^ 62 -> 0 <= n3 < 2 ^ 62 ->
  NewNumericDate n3 <= now < NewNumericDate (n1 + hours j.(expiryHours)) ->
  ValidateRefreshToken j now (GenerateAccessToken j u n1 n2 n3) = Ok u.(GetID).
Proof.
  intros Hi H1 H2 H3 Hw.
  pose proof (window_range n1 n3 now _ ltac:(lia) ltac:(lia) Hw) as He.
  destruct (ParseWithClaims_SignedString_any decode_registered (fun rc => rc)
              (claims_members (access_claims j u n1 n2 n3)) j.(secret) now)
    as (ms' & Hs & Hp).
  - unfold claims_members. discriminate.
  - apply access_members_any; lia.
  - unfold ValidateRefreshToken, GenerateAccessToken. rewrite Hp.
    unfold claims_members in Hs.
    apply Forall2_app_inv_l in Hs as (l1 & l2 & Hs1 & Hs2 & ->).
    rewrite (similar_flat _ _ (access_registered_flat j u n1 n2 n3 Hi ltac:(lia) ltac:(lia) ltac:(lia)) Hs2).
    rewrite decode_registered_skip by (rewrite (similar_keys _ _ Hs1); reflexivity).
    pose proof (decode_registered_access j u n1 n2 n3 ltac:(lia) ltac:(lia) ltac:(lia)) as Hd.
    unfold claims_members in Hd. rewrite decode_registered_skip in Hd by reflexivity.
    rewrite Hd.
    rewrite (Validate_inside (access_claims j u n1 n2 n3).(Registered) now _ _ eq_refl eq_refl Hw).
    reflexivity.
Qed.

Lemma ValidateRefreshToken_accepts_access_token_witness :
  ValidateRefreshToken test_jwt t0 (GenerateAccessToken test_jwt invalid_fields_user t0 t0 t0)
  = Ok invalid_fields_user.(GetID).
Proof.
  apply (ValidateRefreshToken_accepts_access_token test_jwt invalid_fields_user t0 t0 t0 t0);
    concrete_hyps.
Defined.

(** X3: [ValidateToken] accepts a refresh token: for a user whose id is
    well-formed UTF-8, issuing instants in [[0, 2^62)] ns and a validation
    instant inside the refresh token's [[nbf, exp)] window, it returns
    claims with empty [user_id], [email] and [role] and the user's id as
    subject. *)
Theorem ValidateToken_accepts_refresh_token (j : JWT) (u : User) (n1 n2 n3 now : Z) :
  Utf8.Valid u.(GetID) ->
  0 <= n1 < 2 ^ 62 -> 0 <= n2 < 2 ^ 62 -> 0 <= n3 < 2 ^ 62 ->
  NewNumericDate n3 <= now < NewNumericDate (n1 + hours j.(refreshExpiryHours)) ->
  exists cl, ValidateToken j now (GenerateRefreshToken j u n1 n2 n3) = Ok cl
    /\ cl.(UserID) = EmptyString /\ cl.(Email) = EmptyString /\ cl.(Role) = EmptyString
    /\ cl.(Registered).(Subject) = u.(GetID).
Proof.
  intros Hi H1 H2 H3 Hw.
  pose proof (window_range n1 n3 now _ ltac:(lia) ltac:(lia) Hw) as He.
  exists (mkClaims EmptyString EmptyString EmptyString (refresh_claims j u n1 n2 n3)).
  split; [|repeat split].
  apply ValidateToken_refresh_claims; assumption.
Qed.

Lemma ValidateToken_accepts_refresh_token_witness :
  exists cl, ValidateToken test_jwt t0 (GenerateRefreshToken test_jwt test_user t0 t0 t0) = Ok cl
    /\ cl.(UserID) = EmptyString /\ cl.(Email) = EmptyString /\ cl.(Role) = EmptyString
    /\ cl.(Registered).(Subject) = test_user.(GetID).
Proof.
  apply (ValidateToken_accepts_refresh_token test_jwt test_user t0 t0 t0 t0); concrete_hyps.
Defined.

(** X4: A request whose Authorization header is ["Bearer "] followed by a
    refresh token (issued for any user, at instants in [[0, 2^62)] ns, and
    checked inside its [[nbf, exp)] window) passes [RequireAuth], which
    stores claims with empty [user_id], [email] and [role]; behind it,
    [RequireRole r] for any non-empty [r] answers 403. *)
Theorem RequireAuth_accepts_refresh_token (m : Middleware) (next : HandlerFunc) (u : User)
    (n1 n2 n3 : Z) (c : Context) (r : string) :
  0 <= n1 < 2 ^ 62 -> 0 <= n2 < 2 ^ 62 -> 0 <= n3 < 2 ^ 62 ->
  header_get c.(request_header) "Authorization" = "Bearer " ++ GenerateRefreshToken m.(jwt) u n1 n2 n3 ->
  NewNumericDate n3 <= c.(clock) < NewNumericDate (n1 + hours m.(jwt).(refreshExpiryHours)) ->
  r <> EmptyString ->
  exists cl, cl.(UserID) = EmptyString /\ cl.(Email) = EmptyString /\ cl.(Role) = EmptyString
    /\ RequireAuth m next c = next (ctx_set c UserContextKey (CtxClaims cl))
    /\ RequireAuth m (RequireRole m r next) c
       = JSON (ctx_set c UserContextKey (CtxClaims cl)) 403 [("message", "Insufficient permissions")].
Proof.
  intros H1 H2 H3 Hh Hw Hr.
  destruct (ValidateToken_refresh_any m.(jwt) u n1 n2 n3 c.(clock) H1 H2 H3 Hw)
    as (cl & Hv & Hu & Hm & Hro).
  exists cl. split; [exact Hu|split; [exact Hm|split; [exact Hro|]]].
  assert (He : extractToken m c = GenerateRefreshToken m.(jwt) u n1 n2 n3) by (apply extractToken_bearer; exact Hh).
  assert (Hne : String.eqb (GenerateRefreshToken m.(jwt) u n1 n2 n3) EmptyString = false)
    by (apply String.eqb_neq; apply SignedString_nonempty).
  unfold RequireAuth. rewrite He, Hne, Hv. split; [reflexivity|].
  unfold RequireRole. rewrite GetUserFromContext_set. rewrite Hro.
  replace (String.eqb EmptyString r) with false by (symmetry; apply String.eqb_neq; congruence).
  reflexivity.
Qed.

Lemma RequireAuth_accepts_refresh_token_witness :
  exists cl, cl.(UserID) = EmptyString /\ cl.(Email) = EmptyString /\ cl.(Role) = EmptyString
    /\ RequireAuth test_middleware ok_handler
         (request (bearer (GenerateRefreshToken test_jwt invalid_utf8_user t0 t0 t0)) t0)
       = ok_handler (ctx_set (request (bearer (GenerateRefreshToken test_jwt invalid_utf8_user t0 t0 t0)) t0)
                       UserContextKey (CtxClaims cl))
    /\ RequireAuth test_middleware (RequireRole test_middleware "admin" ok_handler)
         (request (bearer (GenerateRefreshToken test_jwt invalid_utf8_user t0 t0 t0)) t0)
       = JSON (ctx_set (request (bearer (GenerateRefreshToken test_jwt invalid_utf8_user t0 t0 t0)) t0)
                 UserContextKey (CtxClaims cl)) 403 [("message", "Insufficient permissions")].
Proof.
  apply (RequireAuth_accepts_refresh_token test_middleware ok_handler invalid_utf8_user t0 t0 t0
           (request (bearer (GenerateRefreshToken test_jwt invalid_utf8_user t0 t0 t0)) t0) "admin");
    concrete_hyps; first [reflexivity | discriminate].
Defined.

(** X7: End to end: for a user [u] whose id, email and role are well-formed
    UTF-8, a request bearing an access token issued to [u] at instants in
    [[0, 2^62)] ns and checked inside its [[nbf, exp)] window, passed
    through [RequireAuth] then [RequireRole r], reaches the handler (with
    the issued claims stored) exactly when [u]'s role equals [r], and is
    answered 403 otherwise. *)
Theorem RequireAuth_RequireRole_access_token (m : Middleware) (next : HandlerFunc) (u : User)
    (n1 n2 n3 : Z) (c : Context) (r : string) :
  Utf8.Valid u.(GetID) -> Utf8.Valid u.(GetEmail) -> Utf8.Valid u.(GetRole) ->
  0 <= n1 < 2 ^ 62 -> 0 <= n2 < 2 ^ 62 -> 0 <= n3 < 2 ^ 62 ->
  header_get c.(request_header) "Authorization" = "Bearer " ++ GenerateAccessToken m.(jwt) u n1 n2 n3 ->
  NewNumericDate n3 <= c.(clock) < NewNumericDate (n1 + hours m.(jwt).(expiryHours)) ->
  let c' := ctx_set c UserContextKey (CtxClaims (access_claims m.(jwt) u n1 n2 n3)) in
  RequireAuth m (RequireRole m r next) c
  = if String.eqb u.(GetRole) r then next c'
    else JSON c' 403 [("message", "Insufficient permissions")].
Proof.
  intros Hi Hm Hr H1 H2 H3 Hh Hw. cbn zeta.
  pose proof (ValidateToken_access_ok m.(jwt) u n1 n2 n3 c.(clock) Hi Hm Hr H1 H2 H3 Hw) as Hv.
  assert (He : extractToken m c = GenerateAccessToken m.(jwt) u n1 n2 n3) by (apply extractToken_bearer; exact Hh).
  assert (Hne : String.eqb (GenerateAccessToken m.(jwt) u n1 n2 n3) EmptyString = false)
    by (apply String.eqb_neq; apply SignedString_nonempty).
  unfold RequireAuth. rewrite He, Hne, Hv.
  unfold RequireRole. rewrite GetUserFromContext_set. cbn [Role access_claims].
  destruct (String.eqb (GetRole u) r); reflexivity.
Qed.

Lemma RequireAuth_RequireRole_access_token_witness :
  let c := request (bearer sample_token) t0 in
  RequireAuth test_middleware (RequireRole test_middleware "admin" ok_handler) c
  = JSON (ctx_set c UserContextKey (CtxClaims (access_claims test_jwt test_user t0 t0 t0)))
      403 [("message", "Insufficient permissions")].
Proof.
  apply (RequireAuth_RequireRole_access_token test_middleware ok_handler test_user t0 t0 t0
           (request (bearer sample_token) t0) "admin"); concrete_hyps.
Defined.

(** X8: [BookAPI.Setup] on a group without middleware: the four GET routes run
    their handler unguarded, and on a request whose context holds no claims
    each POST, PUT and DELETE route answers 401 ["Authentication required"]
    whatever its Authorization header, since [RequireAdmin] does not
    authenticate by itself. *)
Theorem Setup_write_routes_need_claims (api : BookAPI) (prefix : string) (rt : Route) (c : Context) :
  In rt (Setup api prefix []) -> GetUserFromContext api.(authMw) c = None ->
  (rt.(method) = "GET"
   /\ In rt.(route_handler) [api.(getBooks); api.(getBook); api.(searchBooks); api.(getAvailableBooks)])
  \/ (In rt.(method) ["POST"; "PUT"; "DELETE"]
      /\ rt.(route_handler) c = JSON c 401 [("message", "Authentication required")]).
Proof.
  intros Hin Hg. unfold Setup in Hin.
  assert (Hadm : forall h, RequireAdmin api.(authMw) h c = JSON c 401 [("message", "Authentication required")])
    by (intros h; unfold RequireAdmin, RequireRole; rewrite Hg; reflexivity).
  repeat (destruct Hin as [<- | Hin]);
    [ right; split; [cbn; auto | apply Hadm]
    | left; split; [reflexivity | cbn; auto]
    | left; split; [reflexivity | cbn; auto]
    | left; split; [reflexivity | cbn; auto]
    | left; split; [reflexivity | cbn; auto]
    | right; split; [cbn; auto | apply Hadm]
    | right; split; [cbn; auto | apply Hadm]
    | right; split; [cbn; auto | apply Hadm]
    | destruct Hin ].
Qed.

Lemma Setup_write_routes_need_claims_witness :
  let rt := group_add "/api/v1/books" [] "POST" "" ok_handler [RequireAdmin test_middleware] in
  (rt.(method) = "GET"
   /\ In rt.(route_handler) [ok_handler; ok_handler; ok_handler; ok_handler])
  \/ (In rt.(method) ["POST"; "PUT"; "DELETE"]
      /\ rt.(route_handler) (request (bearer sample_token) t0)
         = JSON (request (bearer sample_token) t0) 401 [("message", "Authentication required")]).
Proof.
  apply (Setup_write_routes_need_claims stub_api "/api/v1/books"
           (group_add "/api/v1/books" [] "POST" "" ok_handler [RequireAdmin test_middleware])
           (request (bearer sample_token) t0)).
  - left. reflexivity.
  - reflexivity.
Defined.

(** X9: The claims of an access token can be read without the secret:
    [ParseUnverified] decodes exactly the issued claims (id, email, role and
    times) from the token, for expiries in [[0, 2562047]] hours. *)
Theorem access_claims_readable_without_key (j : JWT) (u : User) (n1 n2 n3 : Z) :
  Utf8.Valid u.(GetID) -> Utf8.Valid u.(GetEmail) -> Utf8.Valid u.(GetRole) ->
  0 <= j.(expiryHours) <= 2562047 ->
  0 <= n1 < 2 ^ 62 -> 0 <= n2 < 2 ^ 62 -> 0 <= n3 < 2 ^ 62 ->
  unverified_claims (GenerateAccessToken j u n1 n2 n3) = Some (access_claims j u n1 n2 n3).
Proof.
  intros Hi Hm Hr Hh H1 H2 H3.
  assert (He : 0 <= n1 + hours j.(expiryHours) < 2 ^ 1024)
    by (rewrite hours_in_range by exact Hh; unfold Hour, second; lia).
  destruct (ParseUnverified_SignedString decode_claims (claims_members (access_claims j u n1 n2 n3))
              (access_claims j u n1 n2 n3) j.(secret)) as (p0 & p1 & p2 & Hp).
  - unfold claims_members. discriminate.
  - apply access_members_flat; assumption || lia.
  - apply decode_access_claims; lia.
  - unfold unverified_claims, GenerateAccessToken. rewrite Hp. reflexivity.
Qed.

Lemma access_claims_readable_without_key_witness :
  unverified_claims sample_token = Some (access_claims test_jwt test_user t0 t0 t0).
Proof.
  apply (access_claims_readable_without_key test_jwt test_user t0 t0 t0); concrete_hyps.
Defined.

(** X10: Whatever the token and the instant, if the registered claims it carries
    have an expiry at or before [now] or a not-before after [now],
    [ValidateRefreshToken] returns an error. *)
Theorem ValidateRefreshToken_outside_window (j : JWT) (now : Z) (tokenString : string)
    (rc : RegisteredClaims) :
  unverified_registered tokenString = Some rc ->
  (exists e, rc.(ExpiresAt) = Some e /\ e <= now)
  \/ (exists n, rc.(NotBefore) = Some n /\ now < n) ->
  exists err, ValidateRefreshToken j now tokenString = Err err.
Proof.
  intros Hu Hw. unfold ValidateRefreshToken, ParseWithClaims. unfold unverified_registered in Hu.
  destruct (ParseUnverified decode_registered tokenString)
    as [[[[[[p0 p1] p2] hdr] rc'] alg]|e]; [|discriminate].
  injection Hu as <-.
  destruct (String.eqb alg "HS256"); [|eexists; reflexivity].
  destruct (DecodeSegment p2) as [sig|]; [|eexists; reflexivity].
  destruct (Hmac.Equal sig _); [|eexists; reflexivity].
  destruct (Validate_outside rc' now Hw) as [err Herr].
  rewrite Herr. eexists. reflexivity.
Qed.

Lemma ValidateRefreshToken_outside_window_witness :
  exists err, ValidateRefreshToken test_jwt (t0 + 169 * Hour)
                (GenerateRefreshToken test_jwt test_user t0 t0 t0) = Err err.
Proof.
  apply (ValidateRefreshToken_outside_window test_jwt (t0 + 169 * Hour)
           (GenerateRefreshToken test_jwt test_user t0 t0 t0)
           (refresh_claims test_jwt test_user t0 t0 t0)).
  - vm_compute. reflexivity.
  - left. exists (NewNumericDate (t0 + hours 168)). split; [reflexivity|].
    vm_compute. discriminate.
Defined.
